(** * Kingdom Spices & Herbs dashboard backend: route logic in Rocq

    A shallow embedding of the Express/Mongoose route handlers of the
    repository (routes/messages, routes/products, routes/categories,
    routes/team, routes/certificates, routes/contact, routes/dashboard and
    models/Message), followed by the properties the specification states
    about them.

    Conventions of the embedding:
    - a JavaScript string is a [string]; the text helpers below are the
      ASCII fragment of the JavaScript ones (characters outside A-Z are left
      alone by [toLowerCase]);
    - [undefined] is [None];
    - a count, a status code or another number the code itself fixes is
      a [Z] or a [nat]; a number read from a request is a double
      ([JS.Number]), with its rounding written out;
    - a [Date] is a [Z] (milliseconds);
    - a collection of the document store is the list of its documents in
      insertion order;
    - an [async] handler is a function from the request and the store to a
      response and the new store. *)

From Stdlib Require Import ZArith List String Ascii Bool Arith Lia.
From Stdlib Require Import Sorting.Permutation Sorting.Sorted DecimalString.
Import ListNotations.

Local Open Scope string_scope.
Local Open Scope Z_scope.

(* ================================================================== *)
(** ** JavaScript primitives used by the routes *)
(* ================================================================== *)

Module JS.

(** [c.toLowerCase()] on one ASCII character. *)
Definition lowerChar (c : ascii) : ascii :=
  let n := nat_of_ascii c in
  if ((65 <=? n) && (n <=? 90))%nat then ascii_of_nat (n + 32)%nat else c.

(** [s.toLowerCase()] *)
Fixpoint toLowerCase (s : string) : string :=
  match s with
  | EmptyString => EmptyString
  | String c s' => String (lowerChar c) (toLowerCase s')
  end.

(** [s.startsWith(p)] *)
Fixpoint startsWith (s p : string) {struct p} : bool :=
  match p, s with
  | EmptyString, _ => true
  | String _ _, EmptyString => false
  | String a p', String b s' => Ascii.eqb a b && startsWith s' p'
  end.

(** [s.includes(p)]: [p] occurs in [s] at some position. *)
Fixpoint includes (s p : string) : bool :=
  startsWith s p ||
  match s with
  | EmptyString => false
  | String _ s' => includes s' p
  end.

(** [x === lit] for [x] a string or [undefined]. *)
Definition strictEq (x : option string) (lit : string) : bool :=
  match x with
  | Some v => String.eqb v lit
  | None => false
  end.

(** Truthiness of a string or [undefined]: [undefined] and [""] are
    falsy. *)
Definition truthy (x : option string) : bool :=
  match x with
  | Some EmptyString => false
  | Some _ => true
  | None => false
  end.

(** White space removed by [trim] (ASCII part). *)
Definition isSpace (c : ascii) : bool :=
  let n := nat_of_ascii c in
  ((n =? 32) || ((9 <=? n) && (n <=? 13)))%nat.

(** [s.trimStart()] and [s.trimEnd()] *)
Fixpoint trimStart (s : string) : string :=
  match s with
  | EmptyString => EmptyString
  | String c s' => if isSpace c then trimStart s' else s
  end.

Fixpoint trimEnd (s : string) : string :=
  match s with
  | EmptyString => EmptyString
  | String c s' =>
      match trimEnd s' with
      | EmptyString => if isSpace c then EmptyString else String c EmptyString
      | t => String c t
      end
  end.

(** [s.trim()] *)
Definition trim (s : string) : string := trimEnd (trimStart s).

(** *** Numbers *)

(** Value of a digit in radix [radix] (10 or 16), if it is one. *)
Definition digitValue (radix : Z) (c : ascii) : option Z :=
  let n := Z.of_nat (nat_of_ascii c) in
  let v :=
    if (48 <=? n) && (n <=? 57) then Some (n - 48)
    else if (97 <=? n) && (n <=? 122) then Some (n - 87)
    else if (65 <=? n) && (n <=? 90) then Some (n - 55)
    else None in
  match v with
  | Some d => if d <? radix then Some d else None
  | None => None
  end.

(** The longest prefix of digits, read in [radix], continuing from the
    value [acc] of the digits already seen ([None]: none seen yet). *)
Fixpoint readDigits (radix : Z) (acc : option Z) (s : string) : option Z :=
  match s with
  | EmptyString => acc
  | String c s' =>
      match digitValue radix c with
      | Some d =>
          readDigits radix
            (Some (match acc with Some a => a * radix + d | None => d end)) s'
      | None => acc
      end
  end.

(** The integer that [parseInt(x)] reads, with no radix argument, for [x]
    a string or [undefined]; [None] when there is none.  Leading white
    space is skipped, one sign is read, a [0x]/[0X] prefix selects radix
    16, and the longest prefix of digits is the value. *)
Definition mathInt (x : option string) : option Z :=
  match x with
  | None => None
  | Some s =>
      let s := trimStart s in
      let '(sign, s) :=
        match s with
        | String "-" r => (-1, r)
        | String "+" r => (1, r)
        | _ => (1, s)
        end in
      let '(radix, s) :=
        match s with
        | String "0" (String "x" r) => (16, r)
        | String "0" (String "X" r) => (16, r)
        | _ => (10, s)
        end in
      match readDigits radix None s with
      | Some n => Some (sign * n)
      | None => None
      end
  end.

(** The numbers the routes compute with: [NaN], a double whose value is
    the integer [z], and the two infinities. *)
Inductive Number : Type :=
| NaN
| Num (z : Z)
| Infinity (negative : bool).

(** The double nearest to the integer [z]: [z] itself below 2^53, beyond
    that the nearest integer with 53 significant bits, the even one of
    two that are equally near, and an infinity from 2^1024 on. *)
Definition toDouble (z : Z) : Number :=
  let a := Z.abs z in
  if a <? 2 ^ 53 then Num z
  else
    let e := Z.log2 a - 52 in
    let q := Z.shiftr a e in
    let r := a - Z.shiftl q e in
    let half := Z.shiftl 1 (e - 1) in
    let q' := if (half <? r) || ((r =? half) && Z.odd q) then q + 1 else q in
    let m := Z.shiftl q' e in
    if 2 ^ 1024 <=? m then Infinity (z <? 0)
    else Num (Z.sgn z * m).

(** [Number.isSafeInteger(z)] *)
Definition isSafeInteger (z : Z) : bool := Z.abs z <? 2 ^ 53.

(** [parseInt(x)]: the double nearest to the integer read. *)
Definition parseInt (x : option string) : Number :=
  match mathInt x with
  | Some z => toDouble z
  | None => NaN
  end.

(** [n || d] for [n] a number: [NaN] and [0] are falsy. *)
Definition orDefault (n : Number) (d : Z) : Number :=
  match n with
  | NaN => Num d
  | Num 0 => Num d
  | _ => n
  end.

(** [a - b] *)
Definition sub (a b : Number) : Number :=
  match a, b with
  | NaN, _ => NaN
  | _, NaN => NaN
  | Num x, Num y => toDouble (x - y)
  | Num _, Infinity s => Infinity (negb s)
  | Infinity s, Num _ => Infinity s
  | Infinity s, Infinity t => if Bool.eqb s t then NaN else Infinity s
  end.

(** [a * b] *)
Definition mul (a b : Number) : Number :=
  match a, b with
  | NaN, _ => NaN
  | _, NaN => NaN
  | Num x, Num y => toDouble (x * y)
  | Num x, Infinity s => if x =? 0 then NaN else Infinity (xorb s (x <? 0))
  | Infinity s, Num x => if x =? 0 then NaN else Infinity (xorb s (x <? 0))
  | Infinity s, Infinity t => Infinity (xorb s t)
  end.

(** [a <= b] *)
Definition leb (a b : Number) : bool :=
  match a, b with
  | NaN, _ => false
  | _, NaN => false
  | Num x, Num y => x <=? y
  | Num _, Infinity s => negb s
  | Infinity s, Num _ => s
  | Infinity s, Infinity t => s || negb t
  end.

(** The ceiling of [a / b] for integers [a] and [b], [b] not 0. *)
Definition ceilDiv (a b : Z) : Z := - ((- a) / b).

(** [Math.ceil(a / b)] for a count [a] (an integer from 0 on, below
    2^53: the quotient of such an integer by an integer double is never
    rounded across an integer). *)
Definition ceilQuotient (a : Z) (b : Number) : Number :=
  match b with
  | NaN => NaN
  | Num 0 => if a =? 0 then NaN else Infinity false
  | Num l => Num (ceilDiv a l)
  | Infinity _ => Num 0
  end.

(** A non-negative integer inside a template literal: [`${n}`]. *)
Definition numberToString (n : nat) : string :=
  NilEmpty.string_of_uint (Nat.to_uint n).

(** The occurrence relation [includes] decides. *)
Definition Substring (p s : string) : Prop :=
  exists pre post, s = pre ++ p ++ post.

End JS.

(* ================================================================== *)
(** ** Message priority classifier (routes/messages, POST /) *)
(* ================================================================== *)

Module Classifier.
Import JS.

(** Lines 135-147 of the POST handler: the label written to
    [messageData.priority]. *)
Definition classifyPriority
    (subject message : string) (category : option string) : string :=
  let text := toLowerCase (subject ++ " " ++ message) in
  if includes text "ceo" || includes text "urgent" || includes text "important"
  then "CEO"
  else if strictEq category "sales" || includes text "sales manager"
  then "Sales Manager"
  else if strictEq category "herbs" || includes text "herb" || includes text "natural"
  then "Herbs Priority"
  else if strictEq category "complaint"
  then "high"
  else "medium".

End Classifier.

(* ================================================================== *)
(** ** Request validation (the express-validator chains of the routes) *)
(* ================================================================== *)

Module Validator.
Import JS.

(** The string a chain validates: a missing field counts as [""]. *)
Definition toStr (x : option string) : string :=
  match x with
  | Some s => s
  | None => ""
  end.

Definition isDigit (c : ascii) : bool :=
  let n := nat_of_ascii c in ((48 <=? n) && (n <=? 57))%nat.

Fixpoint allDigits (s : string) : bool :=
  match s with
  | EmptyString => true
  | String c s' => isDigit c && allDigits s'
  end.

(** The shape [isInt] accepts: an optional sign, then one digit or more
    (leading zeroes are allowed unless the route asks otherwise, and none
    does). *)
Definition intSyntax (s : string) : bool :=
  let body :=
    match s with
    | String "-" r => r
    | String "+" r => r
    | _ => s
    end in
  match body with
  | EmptyString => false
  | _ => allDigits body
  end.

(** [isInt({ min, max })]; a bound that is not given is [None].  The
    bounds are compared with the string as a number, which for a string
    of this shape is the number [parseInt] reads. *)
Definition isInt (min max : option Z) (s : string) : bool :=
  intSyntax s &&
  (match min with Some lo => leb (Num lo) (parseInt (Some s)) | None => true end &&
   match max with Some hi => leb (parseInt (Some s)) (Num hi) | None => true end).

(** [isLength({ min, max })] *)
Definition isLength (min : nat) (max : option nat) (s : string) : bool :=
  ((min <=? String.length s) &&
   match max with Some hi => String.length s <=? hi | None => true end)%nat.

(** [isIn([...])] *)
Definition isIn (allowed : list string) (s : string) : bool :=
  existsb (String.eqb s) allowed.

(** One link of a chain: the message of [withMessage] when the check
    fails. *)
Definition check (ok : bool) (msg : string) : list string :=
  if ok then nil else msg :: nil.

(** [.optional()]: an absent field is not checked. *)
Definition optional (x : option string) (chk : string -> list string)
  : list string :=
  match x with
  | None => nil
  | Some s => chk s
  end.

End Validator.

(* ================================================================== *)
(** ** Regular expressions (for the [match] validators of the schemas) *)
(* ================================================================== *)

Module Regex.

Inductive regex : Type :=
| Never
| Empty
| Class (p : ascii -> bool)
| Seq (r1 r2 : regex)
| Or (r1 r2 : regex)
| Star (r : regex).

Fixpoint nullable (r : regex) : bool :=
  match r with
  | Never => false
  | Empty => true
  | Class _ => false
  | Seq r1 r2 => nullable r1 && nullable r2
  | Or r1 r2 => nullable r1 || nullable r2
  | Star _ => true
  end.

Definition seq (r1 r2 : regex) : regex :=
  match r1, r2 with
  | Never, _ => Never
  | _, Never => Never
  | Empty, _ => r2
  | _, _ => Seq r1 r2
  end.

Definition or (r1 r2 : regex) : regex :=
  match r1, r2 with
  | Never, _ => r2
  | _, Never => r1
  | _, _ => Or r1 r2
  end.

(** The words of [r] that start with [c], with [c] removed. *)
Fixpoint deriv (c : ascii) (r : regex) : regex :=
  match r with
  | Never => Never
  | Empty => Never
  | Class p => if p c then Empty else Never
  | Seq r1 r2 =>
      if nullable r1
      then or (seq (deriv c r1) r2) (deriv c r2)
      else seq (deriv c r1) r2
  | Or r1 r2 => or (deriv c r1) (deriv c r2)
  | Star r1 => seq (deriv c r1) (Star r1)
  end.

(** [/^r$/.test(s)] *)
Fixpoint test (r : regex) (s : string) : bool :=
  match s with
  | EmptyString => nullable r
  | String c s' => test (deriv c r) s'
  end.

Definition plus (r : regex) : regex := Seq r (Star r).
Definition opt (r : regex) : regex := Or Empty r.
Definition chr (a : ascii) : regex := Class (Ascii.eqb a).

(** [\w] *)
Definition wordChar (c : ascii) : bool :=
  let n := nat_of_ascii c in
  (((48 <=? n) && (n <=? 57)) || ((65 <=? n) && (n <=? 90)) ||
   ((97 <=? n) && (n <=? 122)) || (n =? 95))%nat.

End Regex.

(* ================================================================== *)
(** ** The document store as the routes use it (Mongoose) *)
(* ================================================================== *)

Module Mongoose.

(** What a route's [catch] looks at: [error.name], [error.message],
    [error.code], and the per-path messages of a validation error. *)
Record Error : Type := mkError {
  name : string;
  message : string;
  code : option Z;
  errors : list string
}.

(** An identifier that cannot be cast to an ObjectId. *)
Definition castError : Error :=
  mkError "CastError" "Cast to ObjectId failed" None nil.
(** A document that fails the validators of its schema. *)
Definition validationError (msgs : list string) : Error :=
  mkError "ValidationError" "Validation failed" None msgs.
(** A write that violates a unique index. *)
Definition duplicateKeyError : Error :=
  mkError "MongoError" "E11000 duplicate key error" (Some 11000) nil.
(** Any other failure of the driver or the server. *)
Definition serverError : Error :=
  mkError "MongoError" "server error" None nil.

(** The three tests the [catch] blocks make. *)
Definition isCastError (e : Error) : bool := String.eqb (name e) "CastError".
Definition isValidationError (e : Error) : bool :=
  String.eqb (name e) "ValidationError".
Definition isDuplicateKey (e : Error) : bool :=
  match code e with
  | Some c => c =? 11000
  | None => false
  end.

Inductive Result (A : Type) : Type :=
| Ok (a : A)
| Throw (e : Error).
Arguments Ok {A} a.
Arguments Throw {A} e.

(** Values stored in the fields the routes filter on. *)
Inductive Value : Type :=
| VBool (b : bool)
| VStr (s : string)
| VNum (n : Z)
| VDate (t : Z)
| VId (id : string).

Definition Value_eqb (a b : Value) : bool :=
  match a, b with
  | VBool x, VBool y => Bool.eqb x y
  | VStr x, VStr y => String.eqb x y
  | VNum x, VNum y => Z.eqb x y
  | VDate x, VDate y => Z.eqb x y
  | VId x, VId y => String.eqb x y
  | _, _ => false
  end.

(** One entry of a filter object: [{ path: value }] or
    [{ $text: { $search: term } }]. *)
Inductive Cond : Type :=
| Eq (v : Value)
| TextSearch (term : string).

(** A filter object, as the list of its keys with their conditions.
    The filter reaches the store as the route wrote it. *)
Definition Filter : Type := list (string * Cond).

(** [filter[key] = c] *)
Definition setKey (key : string) (c : Cond) (f : Filter) : Filter :=
  (f ++ (key, c) :: nil)%list.

Section Collection.
Variable Doc : Type.
(** The value a document has at a path; [None] when it has no such
    field. *)
Variable getPath : Doc -> string -> option Value.
(** The texts of the fields in the collection's text index. *)
Variable textFields : Doc -> list string.
Variable createdAt : Doc -> Z.
Variable docId : Doc -> string.
(** The store's full-text matching of a search term against the
    indexed texts of a document. *)
Variable textMatch : string -> list string -> bool.

Definition matchesEntry (d : Doc) (e : string * Cond) : bool :=
  match snd e with
  | Eq v =>
      match getPath d (fst e) with
      | Some w => Value_eqb w v
      | None => false
      end
  | TextSearch term => textMatch term (textFields d)
  end.

Definition matches (f : Filter) (d : Doc) : bool :=
  forallb (matchesEntry d) f.

(** [Model.find(filter)] *)
Definition find (f : Filter) (docs : list Doc) : list Doc :=
  List.filter (matches f) docs.

(** [Model.countDocuments(filter)] *)
Definition countDocuments (f : Filter) (docs : list Doc) : nat :=
  List.length (find f docs).

(** [.sort({ createdAt: -1 })]: newest first, documents of equal age
    in collection order. *)
Fixpoint insertNewest (d : Doc) (l : list Doc) : list Doc :=
  match l with
  | nil => d :: nil
  | x :: l' =>
      if createdAt x <=? createdAt d then d :: l
      else x :: insertNewest d l'
  end.

Definition sortNewestFirst (docs : list Doc) : list Doc :=
  fold_right insertNewest nil docs.

(** [.limit(n)]: 0 is no limit, a negative [n] limits to [-n]. *)
Definition applyLimit (n : Z) (l : list Doc) : list Doc :=
  if n =? 0 then l else firstn (Z.to_nat (Z.abs n)) l.

(** [Model.find(filter).sort({ createdAt: -1 }).skip(skip).limit(limit)];
    the store refuses a negative skip. *)
Definition findPage (f : Filter) (skip limit : Z) (docs : list Doc)
  : Result (list Doc) :=
  if skip <? 0 then Throw serverError
  else Ok (applyLimit limit (skipn (Z.to_nat skip) (sortNewestFirst (find f docs)))).

(** What the store makes of a skip or a limit that is not a safe
    integer: it refuses the query ([None]), or it skips and limits by
    counts of its own.  The sources do not determine which. *)
Variable beyondSafe : JS.Number -> JS.Number -> option (nat * nat).

(** [Model.find(filter).sort({ createdAt: -1 }).skip(skip).limit(limit)]
    for the numbers a route computes. *)
Definition findPageAt (f : Filter) (skip limit : JS.Number)
    (docs : list Doc) : Result (list Doc) :=
  let beyond :=
    match beyondSafe skip limit with
    | Some (a, b) => Ok (firstn b (skipn a (sortNewestFirst (find f docs))))
    | None => Throw serverError
    end in
  match skip, limit with
  | JS.Num s, JS.Num l =>
      if JS.isSafeInteger s && JS.isSafeInteger l then findPage f s l docs
      else beyond
  | _, _ => beyond
  end.

(** [Model.findById(id)] for an id of ObjectId format. *)
Definition lookupId (id : string) (docs : list Doc) : option Doc :=
  List.find (fun d => String.eqb (docId d) id) docs.

(** Writing back the document with identifier [id]. *)
Fixpoint replaceId (id : string) (d' : Doc) (docs : list Doc) : list Doc :=
  match docs with
  | nil => nil
  | d :: rest =>
      if String.eqb (docId d) id then d' :: rest
      else d :: replaceId id d' rest
  end.

(** [Model.findByIdAndDelete(id)] *)
Fixpoint removeId (id : string) (docs : list Doc) : list Doc :=
  match docs with
  | nil => nil
  | d :: rest =>
      if String.eqb (docId d) id then rest
      else d :: removeId id rest
  end.

End Collection.

End Mongoose.

(* ================================================================== *)
(** ** HTTP responses *)
(* ================================================================== *)

Module Http.

(** The [pagination] object of a list response. *)
Record Pagination : Type := mkPagination {
  current : JS.Number;
  pages : JS.Number;
  total : Z;
  limit : JS.Number
}.

(** [res.status(status).json({ success, message, errors, data,
    pagination })]; a key the route leaves out is [None] (or [nil]). *)
Record Response (D : Type) : Type := mkResponse {
  status : nat;
  success : bool;
  message : option string;
  errors : list string;
  data : option D;
  pagination : option Pagination
}.
Arguments mkResponse {D}.
Arguments status {D}.
Arguments success {D}.
Arguments message {D}.
Arguments errors {D}.
Arguments data {D}.
Arguments pagination {D}.

(** [res.status(code).json({ success: false, message })] *)
Definition failure {D : Type} (code : nat) (msg : string) : Response D :=
  mkResponse code false (Some msg) nil None None.

(** [res.status(code).json({ success: false, message, errors })] *)
Definition failureWith {D : Type} (code : nat) (msg : string)
    (errs : list string) : Response D :=
  mkResponse code false (Some msg) errs None None.

End Http.

(* ================================================================== *)
(** ** The Message model (models/Message.js) *)
(* ================================================================== *)

Module MessageModel.
Import JS Mongoose.

Record Note : Type := mkNote {
  content : string;
  addedBy : option string;
  addedAt : Z
}.

(** A document of the messages collection: the paths of [messageSchema],
    the [_id] and the two paths of [timestamps: true]. *)
Record Message : Type := mkMessage {
  _id : string;
  name : string;
  email : string;
  phone : option string;
  subject : string;
  message : string;
  isRead : bool;
  readAt : option Z;
  replied : bool;
  repliedAt : option Z;
  priority : string;
  category : string;
  source : string;
  ipAddress : option string;
  userAgent : option string;
  notes : list Note;
  createdAt : Z;
  updatedAt : Z
}.

Definition set_isRead (v : bool) (m : Message) : Message :=
  mkMessage (_id m) (name m) (email m) (phone m) (subject m) (message m) v
    (readAt m) (replied m) (repliedAt m) (priority m) (category m) (source
    m) (ipAddress m) (userAgent m) (notes m) (createdAt m) (updatedAt m).

Definition set_readAt (v : option Z) (m : Message) : Message :=
  mkMessage (_id m) (name m) (email m) (phone m) (subject m) (message m)
    (isRead m) v (replied m) (repliedAt m) (priority m) (category m)
    (source m) (ipAddress m) (userAgent m) (notes m) (createdAt m)
    (updatedAt m).

Definition set_replied (v : bool) (m : Message) : Message :=
  mkMessage (_id m) (name m) (email m) (phone m) (subject m) (message m)
    (isRead m) (readAt m) v (repliedAt m) (priority m) (category m)
    (source m) (ipAddress m) (userAgent m) (notes m) (createdAt m)
    (updatedAt m).

Definition set_repliedAt (v : option Z) (m : Message) : Message :=
  mkMessage (_id m) (name m) (email m) (phone m) (subject m) (message m)
    (isRead m) (readAt m) (replied m) v (priority m) (category m) (source
    m) (ipAddress m) (userAgent m) (notes m) (createdAt m) (updatedAt m).

Definition set_priority (v : string) (m : Message) : Message :=
  mkMessage (_id m) (name m) (email m) (phone m) (subject m) (message m)
    (isRead m) (readAt m) (replied m) (repliedAt m) v (category m) (source
    m) (ipAddress m) (userAgent m) (notes m) (createdAt m) (updatedAt m).

Definition set_category (v : string) (m : Message) : Message :=
  mkMessage (_id m) (name m) (email m) (phone m) (subject m) (message m)
    (isRead m) (readAt m) (replied m) (repliedAt m) (priority m) v (source
    m) (ipAddress m) (userAgent m) (notes m) (createdAt m) (updatedAt m).

Definition set_createdAt (v : Z) (m : Message) : Message :=
  mkMessage (_id m) (name m) (email m) (phone m) (subject m) (message m)
    (isRead m) (readAt m) (replied m) (repliedAt m) (priority m) (category
    m) (source m) (ipAddress m) (userAgent m) (notes m) v (updatedAt m).

Definition set_updatedAt (v : Z) (m : Message) : Message :=
  mkMessage (_id m) (name m) (email m) (phone m) (subject m) (message m)
    (isRead m) (readAt m) (replied m) (repliedAt m) (priority m) (category
    m) (source m) (ipAddress m) (userAgent m) (notes m) (createdAt m) v.

Definition Note_eq_dec (a b : Note) : {a = b} + {a <> b}.
Proof.
  decide equality;
    solve [ apply Z.eq_dec | apply string_dec
          | decide equality; apply string_dec ].
Defined.

Definition Message_eq_dec (a b : Message) : {a = b} + {a <> b}.
Proof.
  decide equality;
    solve [ apply Z.eq_dec | apply string_dec | apply Bool.bool_dec
          | apply (list_eq_dec Note_eq_dec)
          | decide equality; solve [ apply string_dec | apply Z.eq_dec ] ].
Defined.

(** The plain object the POST route passes to [new Message(...)]. *)
Record MessageData : Type := mkMessageData {
  d_name : string;
  d_email : string;
  d_subject : string;
  d_message : string;
  d_ipAddress : option string;
  d_userAgent : option string;
  d_phone : option string;
  d_category : option string;
  d_priority : option string
}.

(** [enum] of the [priority] path. *)
Definition priorityEnum : list string := "low" :: "medium" :: "high" :: nil.
(** [enum] of the [category] path. *)
Definition categoryEnum : list string :=
  "general" :: "support" :: "sales" :: "partnership" :: "complaint"
  :: "other" :: nil.
(** [enum] of the [source] path. *)
Definition sourceEnum : list string :=
  "website" :: "email" :: "phone" :: "social" :: "other" :: nil.

(** [match] of the [email] path:
    [/^\w+([.-]?\w+)*@\w+([.-]?\w+)*(\.\w{2,3})+$/] *)
Definition emailRegex : Regex.regex :=
  let w := Regex.Class Regex.wordChar in
  let ws := Regex.plus w in
  let dotOrDash :=
    Regex.Class (fun c => Ascii.eqb c "."%char || Ascii.eqb c "-"%char) in
  let part := Regex.Seq ws (Regex.Star (Regex.Seq (Regex.opt dotOrDash) ws)) in
  let tld :=
    Regex.Seq (Regex.chr "."%char) (Regex.Seq w (Regex.Seq w (Regex.opt w))) in
  Regex.Seq part (Regex.Seq (Regex.chr "@"%char) (Regex.Seq part (Regex.plus tld))).

(** [new Message(data)]: the setters ([trim], [lowercase]) and the
    defaults of the schema (priority "medium", category "general", source
    "website").  The timestamps are written by [save]; they
    are 0 until then. *)
Definition newMessage (id : string) (d : MessageData) : Message :=
  {| _id := id;
     name := trim (d_name d);
     email := trim (toLowerCase (d_email d));
     phone := option_map trim (d_phone d);
     subject := trim (d_subject d);
     message := trim (d_message d);
     isRead := false;
     readAt := None;
     replied := false;
     repliedAt := None;
     priority := match d_priority d with Some p => p | None => "medium" end;
     category := match d_category d with Some c => c | None => "general" end;
     source := "website";
     ipAddress := d_ipAddress d;
     userAgent := d_userAgent d;
     notes := nil;
     createdAt := 0;
     updatedAt := 0 |}.

(** The validators of one string path. *)
Definition required (msg v : string) : list string :=
  match v with
  | EmptyString => msg :: nil
  | _ => nil
  end.

Definition maxlength (n : nat) (msg v : string) : list string :=
  if (String.length v <=? n)%nat then nil else msg :: nil.

Definition matchRegex (r : Regex.regex) (msg v : string) : list string :=
  match v with
  | EmptyString => nil
  | _ => if Regex.test r v then nil else msg :: nil
  end.

Definition enum (allowed : list string) (path v : string) : list string :=
  if existsb (String.eqb v) allowed then nil
  else ("`" ++ v ++ "` is not a valid enum value for path `" ++ path ++ "`.")
       :: nil.

Definition validateNote (n : Note) : list string :=
  (required "Path `content` is required." (content n) ++
   maxlength 500 "Note cannot exceed 500 characters" (content n))%list.

(** [doc.validate()]: the messages of the validators that fail, path by
    path. *)
Definition validate (m : Message) : list string :=
  (required "Name is required" (name m) ++
   maxlength 100 "Name cannot exceed 100 characters" (name m) ++
   required "Email is required" (email m) ++
   matchRegex emailRegex "Please enter a valid email" (email m) ++
   match phone m with
   | Some p => maxlength 20 "Phone number cannot exceed 20 characters" p
   | None => nil
   end ++
   required "Subject is required" (subject m) ++
   maxlength 200 "Subject cannot exceed 200 characters" (subject m) ++
   required "Message is required" (message m) ++
   maxlength 2000 "Message cannot exceed 2000 characters" (message m) ++
   enum priorityEnum "priority" (priority m) ++
   enum categoryEnum "category" (category m) ++
   enum sourceEnum "source" (source m) ++
   flat_map validateNote (notes m))%list.

(** [await doc.save()] on a new document: validation, then the insert
    with both timestamps set.  The result is the collection and the
    document as saved. *)
Definition saveNew (now : Z) (m : Message) (docs : list Message)
  : Result (list Message * Message) :=
  match validate m with
  | nil =>
      let saved := set_updatedAt now (set_createdAt now m) in
      Ok ((docs ++ saved :: nil)%list, saved)
  | errs => Throw (validationError errs)
  end.

(** [await doc.save()] on a document [old] read from the collection and
    changed to [new]: nothing is written when no path was modified;
    otherwise validation, then the write with [updatedAt] refreshed. *)
Definition saveExisting (now : Z) (old new : Message) (docs : list Message)
  : Result (list Message * Message) :=
  if Message_eq_dec old new then Ok (docs, new)
  else
    match validate new with
    | nil =>
        let saved := set_updatedAt now new in
        Ok (replaceId Message _id (_id old) saved docs, saved)
    | errs => Throw (validationError errs)
    end.

(** The value of a document at a path. *)
Definition getPath (m : Message) (path : string) : option Value :=
  if String.eqb path "_id" then Some (VId (_id m))
  else if String.eqb path "name" then Some (VStr (name m))
  else if String.eqb path "email" then Some (VStr (email m))
  else if String.eqb path "phone" then option_map VStr (phone m)
  else if String.eqb path "subject" then Some (VStr (subject m))
  else if String.eqb path "message" then Some (VStr (message m))
  else if String.eqb path "isRead" then Some (VBool (isRead m))
  else if String.eqb path "readAt" then option_map VDate (readAt m)
  else if String.eqb path "replied" then Some (VBool (replied m))
  else if String.eqb path "repliedAt" then option_map VDate (repliedAt m)
  else if String.eqb path "priority" then Some (VStr (priority m))
  else if String.eqb path "category" then Some (VStr (category m))
  else if String.eqb path "source" then Some (VStr (source m))
  else if String.eqb path "ipAddress" then option_map VStr (ipAddress m)
  else if String.eqb path "userAgent" then option_map VStr (userAgent m)
  else if String.eqb path "createdAt" then Some (VDate (createdAt m))
  else if String.eqb path "updatedAt" then Some (VDate (updatedAt m))
  else None.

(** The text index: name, email, subject, message. *)
Definition textFields (m : Message) : list string :=
  name m :: email m :: subject m :: message m :: nil.

End MessageModel.

(* ================================================================== *)
(** ** The messages routes (routes/messages) *)
(* ================================================================== *)

Module MessageRoutes.
Import JS Validator Mongoose MessageModel Classifier.

(** The categories and priorities the route validators let through. *)
Definition routeCategories : list string :=
  "general" :: "support" :: "sales" :: "partnership" :: "complaint"
  :: "herbs" :: "other" :: nil.
Definition routePriorities : list string :=
  "low" :: "medium" :: "high" :: "CEO" :: "Sales Manager"
  :: "Herbs Priority" :: nil.

(** [req.body] and the request data the POST route reads. *)
Record PostRequest : Type := mkPostRequest {
  b_name : option string;
  b_email : option string;
  b_phone : option string;
  b_subject : option string;
  b_message : option string;
  b_category : option string;
  r_ip : option string;
  r_userAgent : option string
}.

(** [data] of the 201 response. *)
Record Created : Type := mkCreated {
  c_id : string;
  c_name : string;
  c_subject : string;
  c_priority : string;
  c_createdAt : Z
}.

(** A JSON value sent for a boolean field of the PUT body. *)
Inductive BoolInput : Type :=
| BBool (b : bool)
| BNum (n : Z)
| BStr (s : string).

(** [isBoolean()]: the value, as a string, is one of true/false/1/0. *)
Definition isBoolean (v : BoolInput) : bool :=
  match v with
  | BBool _ => true
  | BNum n => (n =? 0) || (n =? 1)
  | BStr s => isIn ("true" :: "false" :: "1" :: "0" :: nil) s
  end.

(** The cast of the schema's Boolean paths; [None] is a cast failure. *)
Definition castBoolean (v : BoolInput) : option bool :=
  match v with
  | BBool b => Some b
  | BNum n => if n =? 1 then Some true else if n =? 0 then Some false else None
  | BStr s =>
      if isIn ("true" :: "1" :: "yes" :: nil) s then Some true
      else if isIn ("false" :: "0" :: "no" :: nil) s then Some false
      else None
  end.

(** Truthiness of the value in an [if]. *)
Definition truthyInput (v : BoolInput) : bool :=
  match v with
  | BBool b => b
  | BNum n => negb (n =? 0)
  | BStr s => negb (String.eqb s "")
  end.

(** [req.body] of the PUT route. *)
Record PutBody : Type := mkPutBody {
  u_isRead : option BoolInput;
  u_replied : option BoolInput;
  u_priority : option string;
  u_category : option string
}.

(** [req.query] of the list route. *)
Record ListQuery : Type := mkListQuery {
  q_page : option string;
  q_limit : option string;
  q_category : option string;
  q_priority : option string;
  q_search : option string;
  q_isRead : option string;
  q_replied : option string
}.

(** The [$group] stage of the list route. *)
Record Stats : Type := mkStats {
  s_total : nat;
  s_unread : nat;
  s_unreplied : nat;
  s_highPriority : nat
}.

Record Listing : Type := mkListing {
  l_items : list Message;
  l_stats : Stats
}.

Section Routes.
(** Collaborators outside the repository: the [isEmail] check and the
    [normalizeEmail] sanitizer of express-validator, the ObjectId
    format test of the driver, and the text search of the store. *)
Variable isEmail : string -> bool.
Variable normalizeEmail : string -> string.
Variable validObjectId : string -> bool.
Variable textMatch : string -> list string -> bool.
(** The store, asked for a page beyond the safe integers. *)
Variable beyondSafe : Number -> Number -> option (nat * nat).

(** [Message.findById(id)]: an id that is not an ObjectId throws a
    CastError. *)
Definition findById (id : string) (docs : list Message)
  : Result (option Message) :=
  if validObjectId id then Ok (lookupId Message _id id docs)
  else Throw castError.

(** *** GET /api/messages/:id *)

Definition getCatch (e : Error) : Http.Response Message :=
  if isCastError e
  then Http.failure 400 "Invalid message ID"
  else Http.failure 500 "Server error while fetching message".

Definition getMessage (now : Z) (id : string) (docs : list Message)
  : Http.Response Message * list Message :=
  match findById id docs with
  | Throw e => (getCatch e, docs)
  | Ok None => (Http.failure 404 "Message not found", docs)
  | Ok (Some m) =>
      if negb (isRead m) then
        let m' := set_readAt (Some now) (set_isRead true m) in
        match saveExisting now m m' docs with
        | Throw e => (getCatch e, docs)
        | Ok (docs', saved) =>
            (Http.mkResponse 200 true None nil (Some saved) None, docs')
        end
      else (Http.mkResponse 200 true None nil (Some m) None, docs)
  end.

(** *** POST /api/messages *)

Definition postValidation (req : PostRequest) : list string :=
  (check (isLength 1 (Some 100%nat) (trim (toStr (b_name req))))
     "Name must be between 1 and 100 characters" ++
   check (isEmail (toStr (b_email req))) "Please provide a valid email" ++
   check (isLength 1 (Some 200%nat) (trim (toStr (b_subject req))))
     "Subject must be between 1 and 200 characters" ++
   check (isLength 1 (Some 2000%nat) (trim (toStr (b_message req))))
     "Message must be between 1 and 2000 characters" ++
   optional (b_phone req) (fun p =>
     check (isLength 0 (Some 20%nat) (trim p))
       "Phone number cannot exceed 20 characters") ++
   optional (b_category req) (fun c =>
     check (isIn routeCategories c) "Invalid category"))%list.

(** Lines 122-147: [messageData], from the sanitized body. *)
Definition buildMessageData (req : PostRequest) : MessageData :=
  let name := trim (toStr (b_name req)) in
  let email := normalizeEmail (toStr (b_email req)) in
  let phone := option_map trim (b_phone req) in
  let subject := trim (toStr (b_subject req)) in
  let message := trim (toStr (b_message req)) in
  let category := b_category req in
  {| d_name := name;
     d_email := email;
     d_subject := subject;
     d_message := message;
     d_ipAddress := r_ip req;
     d_userAgent := r_userAgent req;
     d_phone := if truthy phone then phone else None;
     d_category := if truthy category then category else None;
     d_priority := Some (classifyPriority subject message category) |}.

Definition postCatch (e : Error) : Http.Response Created :=
  Http.failure 500 "Server error while sending message".

Definition postMessage (now : Z) (newId : string) (req : PostRequest)
    (docs : list Message) : Http.Response Created * list Message :=
  match postValidation req with
  | (_ :: _) as errs => (Http.failureWith 400 "Validation failed" errs, docs)
  | nil =>
      let newMessage := newMessage newId (buildMessageData req) in
      match saveNew now newMessage docs with
      | Throw e => (postCatch e, docs)
      | Ok (docs', saved) =>
          (Http.mkResponse 201 true
             (Some "Message sent successfully. We will get back to you soon!")
             nil
             (Some (mkCreated (_id saved) (name saved) (subject saved)
                      (priority saved) (createdAt saved)))
             None,
           docs')
      end
  end.

(** *** PUT /api/messages/:id *)

Definition putValidation (b : PutBody) : list string :=
  (match u_isRead b with
   | Some v => check (isBoolean v) "isRead must be a boolean"
   | None => nil
   end ++
   match u_replied b with
   | Some v => check (isBoolean v) "replied must be a boolean"
   | None => nil
   end ++
   optional (u_priority b) (fun p =>
     check (isIn routePriorities p) "Invalid priority") ++
   optional (u_category b) (fun c =>
     check (isIn routeCategories c) "Invalid category"))%list.

Definition putCatch (e : Error) : Http.Response Message :=
  if isCastError e
  then Http.failure 400 "Invalid message ID"
  else Http.failure 500 "Server error while updating message".

(** Lines 190-193: [isRead] is cast by the schema, [readAt] is set the
    first time a truthy value arrives. *)
Definition applyIsRead (now : Z) (v : option BoolInput)
    (m : Message) : option Message :=
  match v with
  | None => Some m
  | Some i =>
      match castBoolean i with
      | None => None
      | Some b =>
          let m1 := set_isRead b m in
          Some (if truthyInput i
                then match readAt m1 with
                     | None => set_readAt (Some now) m1
                     | Some _ => m1
                     end
                else m1)
      end
  end.

(** Lines 194-197, the same for [replied] and [repliedAt]. *)
Definition applyReplied (now : Z) (v : option BoolInput)
    (m : Message) : option Message :=
  match v with
  | None => Some m
  | Some i =>
      match castBoolean i with
      | None => None
      | Some b =>
          let m1 := set_replied b m in
          Some (if truthyInput i
                then match repliedAt m1 with
                     | None => set_repliedAt (Some now) m1
                     | Some _ => m1
                     end
                else m1)
      end
  end.

(** Lines 198-199. *)
Definition applyLabels (b : PutBody) (m : Message) : Message :=
  let m1 :=
    match u_priority b with
    | Some p => if truthy (Some p) then set_priority p m else m
    | None => m
    end in
  match u_category b with
  | Some c => if truthy (Some c) then set_category c m1 else m1
  | None => m1
  end.

Definition putMessage (now : Z) (id : string) (b : PutBody)
    (docs : list Message) : Http.Response Message * list Message :=
  match putValidation b with
  | (_ :: _) as errs => (Http.failureWith 400 "Validation failed" errs, docs)
  | nil =>
      match findById id docs with
      | Throw e => (putCatch e, docs)
      | Ok None => (Http.failure 404 "Message not found", docs)
      | Ok (Some m) =>
          let changed :=
            match applyIsRead now (u_isRead b) m with
            | Some m1 =>
                match applyReplied now (u_replied b) m1 with
                | Some m2 => Some (applyLabels b m2)
                | None => None
                end
            | None => None
            end in
          match changed with
          | None =>
              (* a value the schema cannot cast fails validation in save *)
              (putCatch (validationError ("Cast to Boolean failed" :: nil)),
               docs)
          | Some m' =>
              match saveExisting now m m' docs with
              | Throw e => (putCatch e, docs)
              | Ok (docs', saved) =>
                  (Http.mkResponse 200 true
                     (Some "Message updated successfully") nil
                     (Some saved) None,
                   docs')
              end
          end
      end
  end.

(** *** GET /api/messages *)

Definition listValidation (q : ListQuery) : list string :=
  (optional (q_page q) (fun p =>
     check (isInt (Some 1) None p) "Page must be a positive integer") ++
   optional (q_limit q) (fun l =>
     check (isInt (Some 1) (Some 100) l) "Limit must be between 1 and 100") ++
   optional (q_category q) (fun c =>
     check (isIn routeCategories c) "Invalid category") ++
   optional (q_priority q) (fun p =>
     check (isIn routePriorities p) "Invalid priority") ++
   optional (q_search q) (fun s =>
     check (isLength 0 (Some 100%nat) s) "Search term too long"))%list.

Definition buildFilter (q : ListQuery) : Filter :=
  let f0 : Filter := nil in
  let f1 := match q_category q with
            | Some c => if truthy (Some c) then setKey "category" (Eq (VStr c)) f0 else f0
            | None => f0
            end in
  let f2 := match q_priority q with
            | Some p => if truthy (Some p) then setKey "priority" (Eq (VStr p)) f1 else f1
            | None => f1
            end in
  let f3 := match q_isRead q with
            | Some v => setKey "isRead" (Eq (VBool (String.eqb v "true"))) f2
            | None => f2
            end in
  let f4 := match q_replied q with
            | Some v => setKey "replied" (Eq (VBool (String.eqb v "true"))) f3
            | None => f3
            end in
  match q_search q with
  | Some t => if truthy (Some t) then setKey "$text" (TextSearch t) f4 else f4
  | None => f4
  end.

Definition countWhere (p : Message -> bool) (docs : list Message) : nat :=
  List.length (List.filter p docs).

Definition aggregateStats (docs : list Message) : Stats :=
  {| s_total := List.length docs;
     s_unread := countWhere (fun m => negb (isRead m)) docs;
     s_unreplied := countWhere (fun m => negb (replied m)) docs;
     s_highPriority := countWhere (fun m => String.eqb (priority m) "high") docs |}.

Definition listMessages (q : ListQuery) (docs : list Message)
  : Http.Response Listing :=
  match listValidation q with
  | (_ :: _) as errs => Http.failureWith 400 "Validation failed" errs
  | nil =>
      let page := orDefault (parseInt (q_page q)) 1 in
      let limit := orDefault (parseInt (q_limit q)) 10 in
      let skip := mul (sub page (Num 1)) limit in
      let filter := buildFilter q in
      match findPageAt Message getPath textFields createdAt textMatch
              beyondSafe filter skip limit docs with
      | Throw _ => Http.failure 500 "Server error while fetching messages"
      | Ok messages =>
          let total :=
            Z.of_nat (countDocuments Message getPath textFields textMatch
                        filter docs) in
          Http.mkResponse 200 true None nil
            (Some (mkListing messages (aggregateStats docs)))
            (Some (Http.mkPagination page (ceilQuotient total limit) total
                     limit))
      end
  end.

End Routes.

End MessageRoutes.

(* ================================================================== *)
(** ** The products routes (routes/products) *)
(* ================================================================== *)

Module Products.
Import JS Mongoose.

(** A document of the products collection ([productSchema]); prices are
    whole numbers here. *)
Record Product : Type := mkProduct {
  _id : string;
  name : string;
  description : string;
  image : string;
  imagePublicId : option string;
  category : string;
  price : option Z;
  inStock : bool;
  featured : bool;
  tags : list string;
  origin : option string;
  certifications : list string;
  createdAt : Z;
  updatedAt : Z
}.

Definition getPath (p : Product) (path : string) : option Value :=
  if String.eqb path "_id" then Some (VId (_id p))
  else if String.eqb path "name" then Some (VStr (name p))
  else if String.eqb path "description" then Some (VStr (description p))
  else if String.eqb path "image" then Some (VStr (image p))
  else if String.eqb path "imagePublicId" then option_map VStr (imagePublicId p)
  else if String.eqb path "category" then Some (VId (category p))
  else if String.eqb path "price" then option_map VNum (price p)
  else if String.eqb path "inStock" then Some (VBool (inStock p))
  else if String.eqb path "featured" then Some (VBool (featured p))
  else if String.eqb path "origin" then option_map VStr (origin p)
  else if String.eqb path "createdAt" then Some (VDate (createdAt p))
  else if String.eqb path "updatedAt" then Some (VDate (updatedAt p))
  else None.

(** The text index: name, description, tags. *)
Definition textFields (p : Product) : list string :=
  name p :: description p :: tags p.

(** [req.query] of the list route. *)
Record ListQuery : Type := mkListQuery {
  q_page : option string;
  q_limit : option string;
  q_category : option string;
  q_search : option string;
  q_featured : option string;
  q_inStock : option string
}.

Section Routes.
Variable validObjectId : string -> bool.
Variable textMatch : string -> list string -> bool.
(** The store, asked for a page beyond the safe integers. *)
Variable beyondSafe : Number -> Number -> option (nat * nat).

(** Lines 21-37. *)
Definition buildFilter (q : ListQuery) : Filter :=
  let f0 : Filter := nil in
  let f1 :=
    match q_category q with
    | Some c =>
        if truthy (Some c) && validObjectId c
        then setKey "category" (Eq (VId c)) f0 else f0
    | None => f0
    end in
  let f2 :=
    match q_featured q with
    | Some v => setKey "featured" (Eq (VBool (String.eqb v "true"))) f1
    | None => f1
    end in
  let f3 :=
    match q_inStock q with
    | Some v => setKey "inStock" (Eq (VBool (String.eqb v "true"))) f2
    | None => f2
    end in
  match q_search q with
  | Some t => if truthy (Some t) then setKey "$text" (TextSearch t) f3 else f3
  | None => f3
  end.

(** Lines 15-16. *)
Definition pageOf (q : ListQuery) : Number :=
  orDefault (parseInt (q_page q)) 1.
Definition limitOf (q : ListQuery) : Number :=
  orDefault (parseInt (q_limit q)) 100.

(** The products that match the filter of the request. *)
Definition matching (q : ListQuery) (docs : list Product) : list Product :=
  find Product getPath textFields textMatch (buildFilter q) docs.

(** GET /api/products.  (The category reference of each product is
    populated in the response; the products returned are these.) *)
Definition listProducts (q : ListQuery) (docs : list Product)
  : Http.Response (list Product) :=
  let page := pageOf q in
  let limit := limitOf q in
  let skip := mul (sub page (Num 1)) limit in
  let filter := buildFilter q in
  match findPageAt Product getPath textFields createdAt textMatch
          beyondSafe filter skip limit docs with
  | Throw _ => Http.failure 500 "Server error while fetching products"
  | Ok products =>
      let total :=
        Z.of_nat (countDocuments Product getPath textFields textMatch
                    filter docs) in
      Http.mkResponse 200 true None nil (Some products)
        (Some (Http.mkPagination page (ceilQuotient total limit) total limit))
  end.

(** The [catch] of POST /api/products. *)
Definition postCatch (e : Error) : Http.Response Product :=
  if isValidationError e
  then Http.failureWith 400 "Validation error" (errors e)
  else Http.failure 500
         ("Server error while creating product: " ++ message e).

(** The [catch] of PUT /api/products/:id. *)
Definition putCatch (e : Error) : Http.Response Product :=
  if isCastError e then Http.failure 400 "Invalid product ID"
  else if isValidationError e
  then Http.failureWith 400 "Validation error" (errors e)
  else Http.failure 500 "Server error while updating product".

End Routes.

End Products.

(* ================================================================== *)
(** ** Page and limit of the other list routes *)
(* ================================================================== *)

Module ListParams.
Import JS Validator.

(** The two [query(...)] validators that open the list routes of team,
    certificates, categories and messages. *)
Definition pageLimitValidation (page limit : option string) : list string :=
  (optional page (fun p =>
     check (isInt (Some 1) None p) "Page must be a positive integer") ++
   optional limit (fun l =>
     check (isInt (Some 1) (Some 100) l) "Limit must be between 1 and 100"))%list.

(** [parseInt(req.query.page) || 1] and
    [parseInt(req.query.limit) || defaultLimit]. *)
Definition parsePageLimit (defaultLimit : Z) (page limit : option string)
  : Number * Number :=
  (orDefault (parseInt page) 1, orDefault (parseInt limit) defaultLimit).

(** Page and limit of a route with the validators: [None] is the 400
    response to a request the validators refuse. *)
Definition validated (defaultLimit : Z) (page limit : option string)
  : option (Number * Number) :=
  match pageLimitValidation page limit with
  | nil => Some (parsePageLimit defaultLimit page limit)
  | _ :: _ => None
  end.

(** GET /api/team, lines 13-14 and 28-29. *)
Definition team := validated 10.
(** GET /api/certificates, lines 13-14 and 28-29. *)
Definition certificates := validated 10.
(** GET /api/categories. *)
Definition categories := validated 50.
(** GET /api/messages, lines 13-14 and 29-30. *)
Definition messages := validated 10.
(** GET /api/products, lines 15-16: no validator runs. *)
Definition products (page limit : option string)
  : option (Number * Number) :=
  Some (parsePageLimit 100 page limit).

End ListParams.

(* ================================================================== *)
(** ** The categories routes (routes/categories) *)
(* ================================================================== *)

Module Categories.
Import JS Mongoose.

(** Modelled from the spec: the Category schema (models/Category.js is
    not among the sources).  A category has a name, unique without regard
    to case, and the [isActive] flag and timestamps its routes use. *)
Record Category : Type := mkCategory {
  _id : string;
  name : string;
  isActive : bool;
  createdAt : Z;
  updatedAt : Z
}.

(** The two collections the delete route touches. *)
Record DB : Type := mkDB {
  categories : list Category;
  products : list Products.Product
}.

Section Routes.
Variable validObjectId : string -> bool.
Variable textMatch : string -> list string -> bool.

Definition findById (id : string) (docs : list Category)
  : Result (option Category) :=
  if validObjectId id then Ok (lookupId Category _id id docs)
  else Throw castError.

(** [Product.countDocuments({ category: id })] *)
Definition productCountOf (id : string) (prods : list Products.Product)
  : nat :=
  countDocuments Products.Product Products.getPath Products.textFields
    textMatch (setKey "category" (Eq (VId id)) nil) prods.

Definition deleteCatch (e : Error) : Http.Response unit :=
  if isCastError e then Http.failure 400 "Invalid category ID"
  else Http.failure 500 "Server error while deleting category".

(** DELETE /api/categories/:id *)
Definition deleteCategory (id : string) (db : DB)
  : Http.Response unit * DB :=
  match findById id (categories db) with
  | Throw e => (deleteCatch e, db)
  | Ok None => (Http.failure 404 "Category not found", db)
  | Ok (Some category) =>
      let productCount := productCountOf (_id category) (products db) in
      if (0 <? productCount)%nat then
        (Http.failure 400
           ("Cannot delete category. It has " ++ numberToString productCount
            ++ " products. Please move or delete the products first."),
         db)
      else
        (Http.mkResponse 200 true (Some "Category deleted successfully")
           nil None None,
         mkDB (removeId Category _id id (categories db)) (products db))
  end.

(** The [catch] of POST /api/categories. *)
Definition postCatch (e : Error) : Http.Response Category :=
  if isValidationError e
  then Http.failureWith 400 "Validation error" (errors e)
  else if isDuplicateKey e
  then Http.failure 400 "Category name already exists"
  else Http.failure 500 "Server error while creating category".

(** The [catch] of PUT /api/categories/:id. *)
Definition putCatch (e : Error) : Http.Response Category :=
  if isCastError e then Http.failure 400 "Invalid category ID"
  else if isValidationError e
  then Http.failureWith 400 "Validation error" (errors e)
  else if isDuplicateKey e
  then Http.failure 400 "Category name already exists"
  else Http.failure 500 "Server error while updating category".

End Routes.

End Categories.

(* ================================================================== *)
(** ** The [catch] blocks of the remaining create and update routes *)
(* ================================================================== *)

Module Team.
Import Mongoose.

(** The [catch] of POST /api/team. *)
Definition postCatch {D : Type} (e : Error) : Http.Response D :=
  if isValidationError e
  then Http.failureWith 400 "Validation error" (errors e)
  else if isDuplicateKey e then Http.failure 400 "Email already exists"
  else Http.failure 500 "Server error while creating team member".

(** The [catch] of PUT /api/team/:id. *)
Definition putCatch {D : Type} (e : Error) : Http.Response D :=
  if isCastError e then Http.failure 400 "Invalid team member ID"
  else if isValidationError e
  then Http.failureWith 400 "Validation error" (errors e)
  else if isDuplicateKey e then Http.failure 400 "Email already exists"
  else Http.failure 500 "Server error while updating team member".

End Team.

Module Certificates.
Import Mongoose.

(** The [catch] of POST /api/certificates. *)
Definition postCatch {D : Type} (e : Error) : Http.Response D :=
  if isValidationError e
  then Http.failureWith 400 "Validation error" (errors e)
  else Http.failure 500 "Server error while creating certificate".

(** The [catch] of PUT /api/certificates/:id. *)
Definition putCatch {D : Type} (e : Error) : Http.Response D :=
  if isCastError e then Http.failure 400 "Invalid certificate ID"
  else if isValidationError e
  then Http.failureWith 400 "Validation error" (errors e)
  else Http.failure 500 "Server error while updating certificate".

End Certificates.

Module Contact.
Import Mongoose.

(** The [catch] of POST /api/contact. *)
Definition postCatch {D : Type} (e : Error) : Http.Response D :=
  if isValidationError e
  then Http.failureWith 400 "Validation error" (errors e)
  else Http.failure 500 "Server error while creating contact method".

(** The [catch] of PUT /api/contact/:id. *)
Definition putCatch {D : Type} (e : Error) : Http.Response D :=
  if isCastError e then Http.failure 400 "Invalid contact ID"
  else if isValidationError e
  then Http.failureWith 400 "Validation error" (errors e)
  else Http.failure 500 "Server error while updating contact method".

End Contact.

(* ================================================================== *)
(** ** The dashboard overview (routes/dashboard) *)
(* ================================================================== *)

Module Dashboard.
Import Mongoose.

(** The [count] of each entry of [stats]. *)
Record Counts : Type := mkCounts {
  categoriesCount : nat;
  productsCount : nat;
  certificatesCount : nat;
  teamCount : nat;
  messagesCount : nat;
  unreadMessagesCount : nat;
  contactMethodsCount : nat
}.

Section Overview.
(** Documents of the certificates and team collections; the counts
    read none of their fields. *)
Variables Certificate TeamMember : Type.
Variable textMatch : string -> list string -> bool.

(** [Message.countDocuments(filter)] *)
Definition countMessages (f : Filter) (docs : list MessageModel.Message)
  : nat :=
  countDocuments MessageModel.Message MessageModel.getPath
    MessageModel.textFields textMatch f docs.

(** Lines 14-30: the seven counts of GET /api/dashboard/overview. *)
Definition overviewCounts
    (cats : list Categories.Category) (prods : list Products.Product)
    (certs : list Certificate) (team : list TeamMember)
    (msgs : list MessageModel.Message) : Counts :=
  {| categoriesCount := List.length cats;
     productsCount := List.length prods;
     certificatesCount := List.length certs;
     teamCount := List.length team;
     messagesCount := countMessages nil msgs;
     unreadMessagesCount :=
       countMessages (setKey "read" (Eq (VBool false)) nil) msgs;
     contactMethodsCount := countMessages nil msgs |}.

End Overview.

End Dashboard.

(* ================================================================== *)
(** ** Notions used to state the properties *)
(* ================================================================== *)

Module Notions.
Import JS Mongoose.

(** [kw] occurs in [s] when the case of letters is ignored: some stretch
    of [s] is [kw] once lowered. *)
Definition ContainsCI (kw s : string) : Prop :=
  exists pre mid post, s = pre ++ mid ++ post /\ toLowerCase mid = kw.

(** The conditions of the four rules of the classifier, on the text
    [subject + " " + message] and the category of the request. *)
Definition RuleCEO (text : string) : Prop :=
  ContainsCI "ceo" text \/ ContainsCI "urgent" text \/
  ContainsCI "important" text.

Definition RuleSales (text : string) (category : option string) : Prop :=
  category = Some "sales" \/ ContainsCI "sales manager" text.

Definition RuleHerbs (text : string) (category : option string) : Prop :=
  category = Some "herbs" \/ ContainsCI "herb" text \/
  ContainsCI "natural" text.

Definition RuleComplaint (category : option string) : Prop :=
  category = Some "complaint".

(** [n] is the ceiling of [t / l]. *)
Definition IsCeiling (n t l : Z) : Prop :=
  (n - 1) * l < t <= n * l.

Section Messages.
Import MessageModel MessageRoutes.
Variable isEmail : string -> bool.
Variable normalizeEmail : string -> string.
Variable validObjectId : string -> bool.

(** One request that can change the messages collection. *)
Inductive step : list Message -> list Message -> Prop :=
| step_create (now : Z) (newId : string) (req : PostRequest) docs :
    step docs (snd (postMessage isEmail normalizeEmail now newId req docs))
| step_update (now : Z) (id : string) (b : PutBody) docs :
    step docs (snd (putMessage validObjectId now id b docs))
| step_fetch (now : Z) (id : string) docs :
    step docs (snd (getMessage validObjectId now id docs)).

(** The collections the API can produce from an empty one. *)
Inductive reachable : list Message -> Prop :=
| reach_empty : reachable nil
| reach_step docs docs' :
    reachable docs -> step docs docs' -> reachable docs'.

End Messages.

(** Every stored message has a priority of the schema's enum. *)
Definition PriorityInv (docs : list MessageModel.Message) : Prop :=
  Forall (fun m => In (MessageModel.priority m) MessageModel.priorityEnum) docs.

(** The labels of the classifier that the schema's enum does not have. *)
Definition roleLabels : list string :=
  "CEO" :: "Sales Manager" :: "Herbs Priority" :: nil.

(** [m'] is [m] except, possibly, for [isRead] and [readAt], and for
    [updatedAt] as well when [alsoUpdatedAt] is true. *)
Definition sameBut (alsoUpdatedAt : bool) (m m' : MessageModel.Message)
  : Prop :=
  MessageModel._id m' = MessageModel._id m /\
  MessageModel.name m' = MessageModel.name m /\
  MessageModel.email m' = MessageModel.email m /\
  MessageModel.phone m' = MessageModel.phone m /\
  MessageModel.subject m' = MessageModel.subject m /\
  MessageModel.message m' = MessageModel.message m /\
  MessageModel.replied m' = MessageModel.replied m /\
  MessageModel.repliedAt m' = MessageModel.repliedAt m /\
  MessageModel.priority m' = MessageModel.priority m /\
  MessageModel.category m' = MessageModel.category m /\
  MessageModel.source m' = MessageModel.source m /\
  MessageModel.ipAddress m' = MessageModel.ipAddress m /\
  MessageModel.userAgent m' = MessageModel.userAgent m /\
  MessageModel.notes m' = MessageModel.notes m /\
  MessageModel.createdAt m' = MessageModel.createdAt m /\
  (alsoUpdatedAt = false ->
   MessageModel.updatedAt m' = MessageModel.updatedAt m).

(** The contact-form submission of the specification's first literal
    case. *)
Definition urgentRequest : MessageRoutes.PostRequest :=
  MessageRoutes.mkPostRequest (Some "Ann") (Some "ann@example.com") None
    (Some "Urgent request") (Some "need help") (Some "general") None None.

(** The submission of the specification's last literal case. *)
Definition helloRequest : MessageRoutes.PostRequest :=
  MessageRoutes.mkPostRequest (Some "Ann") (Some "ann@example.com") None
    (Some "hi") (Some "just saying hello") (Some "general") None None.

(** That submission as stored at time 1000 under the identifier "m1". *)
Definition unreadMessage : MessageModel.Message :=
  MessageModel.mkMessage "m1" "Ann" "ann@example.com" None "hi"
    "just saying hello" false None false None "medium" "general" "website"
    None None nil 1000 1000.

(** A product of category [cat], created at time [t]. *)
Definition sampleProduct (cat : string) (stock : bool) (t : nat)
  : Products.Product :=
  Products.mkProduct (JS.numberToString t) "Thyme" "Dried thyme leaves"
    "https://via.placeholder.com/300x300?text=No+Image" None cat None stock
    false nil None nil (Z.of_nat t) (Z.of_nat t).

(** A catalogue of [n] products of the category "c1", in and out of stock
    in turn. *)
Definition sampleCatalogue (n : nat) : list Products.Product :=
  map (fun t => sampleProduct "c1" (Nat.even t) t) (seq 0 n).

(** The products list request [?limit=500]. *)
Definition limit500 : Products.ListQuery :=
  Products.mkListQuery None (Some "500") None None None None.

(** A store with the category "c1" and [n] products that reference it. *)
Definition sampleDB (n : nat) : Categories.DB :=
  Categories.mkDB (Categories.mkCategory "c1" "Herbs" true 0 0 :: nil)
    (sampleCatalogue n).

(** The number of products that reference the category [id]. *)
Definition referencing (id : string) (prods : list Products.Product) : nat :=
  List.length
    (List.filter (fun p => String.eqb (Products.category p) id) prods).

(** The page [page] of [limit] products of a products list request: the
    matching products, newest first, after the skip and within the
    limit. *)
Definition pageAt (validObjectId : string -> bool)
    (textMatch : string -> list string -> bool)
    (page limit : Z) (q : Products.ListQuery) (docs : list Products.Product)
  : list Products.Product :=
  applyLimit Products.Product limit
    (skipn (Z.to_nat ((page - 1) * limit))
       (sortNewestFirst Products.Product Products.createdAt
          (Products.matching validObjectId textMatch q docs))).

(** The page of a products list request whose page and limit are
    integers. *)
Definition pageItems (validObjectId : string -> bool)
    (textMatch : string -> list string -> bool)
    (q : Products.ListQuery) (docs : list Products.Product)
  : list Products.Product :=
  match Products.pageOf q, Products.limitOf q with
  | Num page, Num limit => pageAt validObjectId textMatch page limit q docs
  | _, _ => nil
  end.

(** What a boolean parameter of the list asks of a flag: nothing when it
    is absent, the flag when it is "true", its absence when it is "false"
    (or any other string). *)
Definition keeps (param : option string) (flag : bool) : bool :=
  match param with
  | None => true
  | Some v => if String.eqb v "true" then flag else negb flag
  end.

(** What the [category] parameter asks of a product: its category, when
    the parameter is an ObjectId; nothing otherwise. *)
Definition inCategory (validObjectId : string -> bool)
    (param : option string) (p : Products.Product) : bool :=
  match param with
  | Some c =>
      if negb (String.eqb c "") && validObjectId c
      then String.eqb (Products.category p) c
      else true
  | None => true
  end.

(** What the [search] parameter asks of a product: that the text index
    of its name, description and tags matches, when the parameter is
    not empty. *)
Definition found (textMatch : string -> list string -> bool)
    (param : option string) (p : Products.Product) : bool :=
  match param with
  | Some t =>
      if String.eqb t "" then true
      else textMatch t (Products.name p :: Products.description p
                        :: Products.tags p)
  | None => true
  end.

(** The products a products list request asks for. *)
Definition wanted (validObjectId : string -> bool)
    (textMatch : string -> list string -> bool)
    (q : Products.ListQuery) (p : Products.Product) : bool :=
  inCategory validObjectId (Products.q_category q) p
  && keeps (Products.q_featured q) (Products.featured p)
  && keeps (Products.q_inStock q) (Products.inStock p)
  && found textMatch (Products.q_search q) p.


(** A store that refuses every skip and limit beyond the safe
    integers. *)
Definition refusing (skip limit : Number) : option (nat * nat) := None.

(** The product [p] with its [inStock] flag, or its [featured] flag,
    replaced. *)
Definition withInStock (b : bool) (p : Products.Product) : Products.Product :=
  Products.mkProduct (Products._id p) (Products.name p)
    (Products.description p) (Products.image p) (Products.imagePublicId p)
    (Products.category p) (Products.price p) b (Products.featured p)
    (Products.tags p) (Products.origin p) (Products.certifications p)
    (Products.createdAt p) (Products.updatedAt p).

Definition withFeatured (b : bool) (p : Products.Product) : Products.Product :=
  Products.mkProduct (Products._id p) (Products.name p)
    (Products.description p) (Products.image p) (Products.imagePublicId p)
    (Products.category p) (Products.price p) (Products.inStock p) b
    (Products.tags p) (Products.origin p) (Products.certifications p)
    (Products.createdAt p) (Products.updatedAt p).

End Notions.

(* ================================================================== *)
(** ** Lists and strings of JavaScript used by the helpers *)
(* ================================================================== *)

Module JSArray.
Import JS.

(** [s.split(sep)] for a separator of one character: the stretches of [s]
    between the separators, at least one. *)
Fixpoint split (sep : ascii) (s : string) : list string :=
  match s with
  | EmptyString => EmptyString :: nil
  | String c s' =>
      if Ascii.eqb c sep then EmptyString :: split sep s'
      else
        match split sep s' with
        | h :: t => String c h :: t
        | nil => String c EmptyString :: nil
        end
  end.

(** [parts.join(sep)] *)
Fixpoint join (sep : string) (parts : list string) : string :=
  match parts with
  | nil => EmptyString
  | p :: nil => p
  | p :: rest => p ++ sep ++ join sep rest
  end.

(** [parts.indexOf(x)]: the first position of [x], or -1. *)
Fixpoint indexOf (x : string) (parts : list string) : Z :=
  match parts with
  | nil => -1
  | p :: rest =>
      if String.eqb p x then 0
      else
        let i := indexOf x rest in
        if i <? 0 then -1 else i + 1
  end.

(** [parts.slice(start, end)]: a negative index counts from the end, and
    both are clamped to the array. *)
Definition slice {A : Type} (start end_ : Z) (parts : list A) : list A :=
  let len := Z.of_nat (List.length parts) in
  let rel i := if i <? 0 then Z.max (len + i) 0 else Z.min i len in
  let k := rel start in
  let e := rel end_ in
  firstn (Z.to_nat (e - k)) (skipn (Z.to_nat k) parts).

(** [parts[i]] for an index inside the array of strings. *)
Definition at_ (i : Z) (parts : list string) : string :=
  nth (Z.to_nat i) parts EmptyString.

(** An integer inside a template literal: [`${n}`]. *)
Definition intToString (n : Z) : string :=
  NilEmpty.string_of_int (Z.to_int n).

(** The double quote character. *)
Definition dquote : string := String (ascii_of_nat 34) EmptyString.

End JSArray.

(* ================================================================== *)
(** ** The asset host helpers (config/cloudinary) *)
(* ================================================================== *)

Module Cloudinary.
Import JS JSArray.

(** The folder of an upload storage: [`herbs-dashboard/${folder}`]. *)
Definition storageFolder (folder : string) : string :=
  "herbs-dashboard/" ++ folder.

(** [fileFilter] of [uploadProduct] and [uploadTeam]. *)
Definition imageFilter (mimetype : string) : bool :=
  startsWith mimetype "image/".

(** [fileFilter] of [uploadCertificate]. *)
Definition certificateFilter (mimetype : string) : bool :=
  startsWith mimetype "image/" || String.eqb mimetype "application/pdf".

(** [extractPublicId(url)] for [url] a string or [undefined]; [None] is
    [null]. *)
Definition extractPublicId (url : option string) : option string :=
  if negb (truthy url) then None
  else
    let url := match url with Some u => u | None => EmptyString end in
    let parts := split "/" url in
    let filename := at_ (Z.of_nat (List.length parts) - 1) parts in
    let publicId := at_ 0 (split "." filename) in
    let folderIndex := indexOf "herbs-dashboard" parts in
    if negb (folderIndex =? -1)
       && (folderIndex <? Z.of_nat (List.length parts) - 1)
    then
      let folderPath := join "/" (slice folderIndex (-1) parts) in
      Some (folderPath ++ "/" ++ publicId)
    else Some publicId.

(** What the asset host answers to a [destroy] request. *)
Inductive Outcome : Type :=
| Destroyed
| Failed.

(** [deleteAsset(publicId, resourceType)] / [deleteImage(publicId)]: the
    host is asked only for a public id that is truthy, and its failure is
    thrown again.  The result is the list of public ids sent to the host
    and whether the call threw. *)
Definition deleteImage (destroy : string -> Outcome) (publicId : option string)
  : list string * bool :=
  if truthy publicId then
    let id := match publicId with Some p => p | None => EmptyString end in
    match destroy id with
    | Destroyed => (id :: nil, false)
    | Failed => (id :: nil, true)
    end
  else (nil, false).

End Cloudinary.

(* ================================================================== *)
(** ** The Certificate and TeamMember models *)
(* ================================================================== *)

Module CertificateModel.

(** A document of the certificates collection ([certificateSchema]). *)
Record Certificate : Type := mkCertificate {
  _id : string;
  name : string;
  description : string;
  image : string;
  imagePublicId : option string;
  issuer : option string;
  issueDate : option Z;
  expiryDate : option Z;
  certificateNumber : option string;
  isActive : bool;
  category : string;
  documentUrl : option string;
  createdAt : Z;
  updatedAt : Z
}.

End CertificateModel.

Module TeamMemberModel.

Record SocialLinks : Type := mkSocialLinks {
  linkedin : option string;
  twitter : option string;
  facebook : option string
}.

(** A document of the team collection ([teamMemberSchema]). *)
Record TeamMember : Type := mkTeamMember {
  _id : string;
  name : string;
  position : string;
  image : string;
  imagePublicId : option string;
  email : string;
  phone : string;
  whatsapp : string;
  bio : option string;
  department : option string;
  startDate : Z;
  isActive : bool;
  socialLinks : SocialLinks;
  skills : list string;
  languages : list string;
  createdAt : Z;
  updatedAt : Z
}.

End TeamMemberModel.

(* ================================================================== *)
(** ** The dashboard activity feed (routes/dashboard) *)
(* ================================================================== *)

Module DashboardFeed.
Import JS JSArray Mongoose.

(** [getTimeAgo(date)], with the clock reading [now] of [new Date()]. *)
Definition getTimeAgo (now date : Z) : string :=
  let diffInMs := now - date in
  let diffInMinutes := diffInMs / (1000 * 60) in
  let diffInHours := diffInMs / (1000 * 60 * 60) in
  let diffInDays := diffInMs / (1000 * 60 * 60 * 24) in
  if diffInMinutes <? 60 then intToString diffInMinutes ++ " minutes ago"
  else if diffInHours <? 24 then intToString diffInHours ++ " hours ago"
  else intToString diffInDays ++ " days ago".

(** An entry pushed on [recentActivities]. *)
Record RawActivity : Type := mkRaw {
  a_id : string;
  a_type : string;
  a_message : string;
  a_time : string;
  a_timestamp : Z
}.

(** An entry of the response: the same without the timestamp. *)
Record Activity : Type := mkActivity {
  id : string;
  type : string;
  message : string;
  time : string
}.

(** The five collections the overview reads. *)
Record DB : Type := mkDB {
  categories : list Categories.Category;
  products : list Products.Product;
  certificates : list CertificateModel.Certificate;
  team : list TeamMemberModel.TeamMember;
  messages : list MessageModel.Message
}.

Section Recent.
Variable Doc : Type.
Variable docId : Doc -> string.
Variable docName : Doc -> string.
Variable createdAt : Doc -> Z.

(** [Model.find().sort({ createdAt: -1 }).limit(k).select('name createdAt')]
    followed by the [forEach] that pushes one activity per document. *)
Definition recent (now : Z) (k : Z) (kind : string)
    (describe : string -> string) (docs : list Doc) : list RawActivity :=
  map (fun d =>
         mkRaw (kind ++ "_" ++ docId d) kind (describe (docName d))
           (getTimeAgo now (createdAt d)) (createdAt d))
    (applyLimit Doc k (sortNewestFirst Doc createdAt docs)).

End Recent.

(** [`New category "${name}" was added`] and the like. *)
Definition quoted (before name after : string) : string :=
  before ++ dquote ++ name ++ dquote ++ after.

(** Lines 33-111: [recentActivities] once the five queries have pushed
    their entries. *)
Definition recentActivities (now : Z) (db : DB) : list RawActivity :=
  (recent Categories.Category Categories._id Categories.name
     Categories.createdAt now 3 "category"
     (fun n => quoted "New category " n " was added") (categories db)
   ++ recent Products.Product Products._id Products.name Products.createdAt
        now 3 "product"
        (fun n => quoted "New product " n " was added") (products db)
   ++ recent CertificateModel.Certificate CertificateModel._id
        CertificateModel.name CertificateModel.createdAt now 2 "certificate"
        (fun n => quoted "Certificate " n " was updated") (certificates db)
   ++ recent TeamMemberModel.TeamMember TeamMemberModel._id
        TeamMemberModel.name TeamMemberModel.createdAt now 2 "team"
        (fun n => quoted "New team member " n " was added") (team db)
   ++ recent MessageModel.Message MessageModel._id MessageModel.name
        MessageModel.createdAt now 2 "message"
        (fun n => quoted "New contact message from " n "") (messages db))%list.

(** [.sort((a, b) => new Date(b.timestamp) - new Date(a.timestamp))
    .slice(0, 8)]: newest first, entries of equal time in the order they
    were pushed, the first eight. *)
Definition ranked (now : Z) (db : DB) : list RawActivity :=
  slice 0 8 (sortNewestFirst RawActivity a_timestamp (recentActivities now db)).

(** Lines 114-122: [sortedActivities]. *)
Definition sortedActivities (now : Z) (db : DB) : list Activity :=
  map (fun a => mkActivity (a_id a) (a_type a) (a_message a) (a_time a))
    (ranked now db).

(** One entry of [stats]. *)
Record Stat : Type := mkStat {
  count : nat;
  change : string;
  changeType : string
}.

(** One entry of [systemStatus]. *)
Record Status : Type := mkStatus {
  status : string;
  statusMessage : string;
  color : string
}.

Record Overview : Type := mkOverview {
  stats : list (string * Stat);
  activities : list Activity;
  systemStatus : list (string * Status)
}.

Section Route.
Variable textMatch : string -> list string -> bool.

(** GET /api/dashboard/overview *)
Definition overview (now : Z) (db : DB) : Http.Response Overview :=
  let c :=
    Dashboard.overviewCounts CertificateModel.Certificate
      TeamMemberModel.TeamMember textMatch (categories db) (products db)
      (certificates db) (team db) (messages db) in
  Http.mkResponse 200 true None nil
    (Some
       (mkOverview
          (("categories", mkStat (Dashboard.categoriesCount c) "+2" "increase")
           :: ("products", mkStat (Dashboard.productsCount c) "+5" "increase")
           :: ("certificates",
               mkStat (Dashboard.certificatesCount c) "+1" "increase")
           :: ("team", mkStat (Dashboard.teamCount c) "+1" "increase")
           :: ("messages", mkStat (Dashboard.messagesCount c) "+3" "increase")
           :: ("unreadMessages",
               mkStat (Dashboard.unreadMessagesCount c) "+2" "increase")
           :: ("contactMethods",
               mkStat (Dashboard.contactMethodsCount c) "0" "neutral")
           :: nil)
          (sortedActivities now db)
          (("database", mkStatus "online" "All systems operational" "green")
           :: ("api", mkStatus "healthy" "Response time: 120ms" "green")
           :: ("backup",
               mkStatus "scheduled"
                 ("Last backup: "
                  ++ getTimeAgo now (now - 2 * 60 * 60 * 1000))
                 "yellow")
           :: ("performance",
               mkStatus "excellent" "System running optimally" "blue")
           :: nil)))
    None.

End Route.

End DashboardFeed.

(* ================================================================== *)
(** ** The Contact model and the contact routes *)
(* ================================================================== *)

Module ContactModel.
Import JS Mongoose.

(** A document of the contacts collection ([contactSchema]). *)
Record Contact : Type := mkContact {
  _id : string;
  type : string;
  label : string;
  value : string;
  icon : option string;
  createdAt : Z;
  updatedAt : Z
}.

Definition Contact_eq_dec (a b : Contact) : {a = b} + {a <> b}.
Proof.
  decide equality;
    solve [ apply Z.eq_dec | apply string_dec
          | decide equality; apply string_dec ].
Defined.

(** [contactSchema.statics.getAllowedTypes] *)
Definition getAllowedTypes : list string :=
  "phone" :: "email" :: "address" :: "whatsapp" :: "telegram" :: "skype"
  :: "fax" :: "other" :: nil.

(** [contactSchema.statics.getExcludedTypes] *)
Definition getExcludedTypes : list string :=
  "website" :: "social" :: "facebook" :: "twitter" :: "instagram"
  :: "linkedin" :: "youtube" :: "tiktok" :: nil.

(** [excludedTypes.includes(x)] *)
Definition arrayIncludes (l : list string) (x : string) : bool :=
  existsb (String.eqb x) l.

(** The [validator] of the [type] path. *)
Definition typeValidator (value : string) : bool :=
  negb (arrayIncludes getExcludedTypes (toLowerCase value)).

(** [contactSchema.methods.isTypeAllowed] *)
Definition isTypeAllowed (c : Contact) : bool :=
  negb (arrayIncludes getExcludedTypes (toLowerCase (type c))).

(** The plain object of the POST route. *)
Record ContactData : Type := mkContactData {
  d_type : string;
  d_label : string;
  d_value : string;
  d_icon : option string
}.

(** [new Contact(data)]: the [trim] setters; the timestamps are written by
    [save]. *)
Definition newContact (id : string) (d : ContactData) : Contact :=
  {| _id := id;
     type := trim (d_type d);
     label := trim (d_label d);
     value := trim (d_value d);
     icon := option_map trim (d_icon d);
     createdAt := 0;
     updatedAt := 0 |}.

(** [doc.validate()] *)
Definition validate (c : Contact) : list string :=
  (MessageModel.required "Contact type is required" (type c) ++
   MessageModel.maxlength 50 "Contact type cannot exceed 50 characters" (type c) ++
   (if typeValidator (type c) then nil
    else "Website and social media contact types are not allowed" :: nil) ++
   MessageModel.required "Contact label is required" (label c) ++
   MessageModel.maxlength 100 "Contact label cannot exceed 100 characters"
     (label c) ++
   MessageModel.required "Contact value is required" (value c) ++
   MessageModel.maxlength 500 "Contact value cannot exceed 500 characters"
     (value c) ++
   match icon c with
   | Some i => MessageModel.maxlength 50 "Icon name cannot exceed 50 characters" i
   | None => nil
   end)%list.

Definition stamp (created updated : Z) (c : Contact) : Contact :=
  mkContact (_id c) (type c) (label c) (value c) (icon c) created updated.

(** [await doc.save()] on a new document. *)
Definition saveNew (now : Z) (c : Contact) (docs : list Contact)
  : Result (list Contact * Contact) :=
  match validate c with
  | nil =>
      let saved := stamp now now c in
      Ok ((docs ++ saved :: nil)%list, saved)
  | errs => Throw (validationError errs)
  end.

(** [await doc.save()] on a document [old] read from the collection and
    changed to [new]. *)
Definition saveExisting (now : Z) (old new : Contact) (docs : list Contact)
  : Result (list Contact * Contact) :=
  if Contact_eq_dec old new then Ok (docs, new)
  else
    match validate new with
    | nil =>
        let saved := stamp (createdAt new) now new in
        Ok (replaceId Contact _id (_id old) saved docs, saved)
    | errs => Throw (validationError errs)
    end.

End ContactModel.

Module ContactRoutes.
Import JS Validator Mongoose ContactModel.

(** [req.query] of the list route. *)
Record ListQuery : Type := mkListQuery {
  q_sortBy : option string;
  q_sortOrder : option string
}.

(** [meta] of the list response, with the contacts. *)
Record Listing : Type := mkListing {
  l_items : list Contact;
  l_total : nat;
  l_sortBy : string;
  l_sortOrder : string
}.

(** [req.body] of the POST and PUT routes. *)
Record Body : Type := mkBody {
  b_type : option string;
  b_label : option string;
  b_value : option string;
  b_icon : option string
}.

(** The order of two contacts on a sort field: strings by their
    characters, dates by time. *)
Definition lebBy (field : string) (a b : Contact) : bool :=
  if String.eqb field "type" then String.leb (type a) (type b)
  else if String.eqb field "label" then String.leb (label a) (label b)
  else createdAt a <=? createdAt b.

(** [.sort({ [field]: direction })], [direction] 1 or -1. *)
Fixpoint insertBy (leb : Contact -> Contact -> bool) (d : Contact)
    (l : list Contact) : list Contact :=
  match l with
  | nil => d :: nil
  | x :: l' => if leb d x then d :: l else x :: insertBy leb d l'
  end.

Definition sortWith (field : string) (direction : Z) (docs : list Contact)
  : list Contact :=
  fold_right
    (insertBy (if direction <? 0 then fun a b => lebBy field b a
               else lebBy field))
    nil docs.

Section Routes.
Variable validObjectId : string -> bool.

Definition findById (id : string) (docs : list Contact)
  : Result (option Contact) :=
  if validObjectId id then Ok (lookupId Contact _id id docs)
  else Throw castError.

(** *** GET /api/contact *)

Definition listValidation (q : ListQuery) : list string :=
  (optional (q_sortBy q) (fun s =>
     check (isIn ("type" :: "label" :: "createdAt" :: nil) s)
       "Invalid sort field") ++
   optional (q_sortOrder q) (fun s =>
     check (isIn ("asc" :: "desc" :: nil) s)
       "Sort order must be asc or desc"))%list.

(** Lines 35-40: the field and the direction of [sortObj]. *)
Definition sortObj (q : ListQuery) : string * Z :=
  match q_sortBy q with
  | Some f =>
      if truthy (Some f)
      then (f, if strictEq (q_sortOrder q) "desc" then -1 else 1)
      else ("createdAt", -1)
  | None => ("createdAt", -1)
  end.

(** [x || d] for [x] a string or [undefined]. *)
Definition orElse (x : option string) (d : string) : string :=
  match x with
  | Some s => if truthy (Some s) then s else d
  | None => d
  end.

Definition listContacts (q : ListQuery) (docs : list Contact)
  : Http.Response Listing :=
  match listValidation q with
  | (_ :: _) as errs => Http.failureWith 400 "Validation failed" errs
  | nil =>
      let excludedTypes := getExcludedTypes in
      let found :=
        List.filter (fun c => negb (arrayIncludes excludedTypes (type c)))
          docs in
      let contacts := sortWith (fst (sortObj q)) (snd (sortObj q)) found in
      Http.mkResponse 200 true None nil
        (Some (mkListing contacts (List.length contacts)
                 (orElse (q_sortBy q) "createdAt")
                 (orElse (q_sortOrder q) "desc")))
        None
  end.

(** *** GET /api/contact/:id *)

Definition getCatch (e : Error) : Http.Response Contact :=
  if isCastError e then Http.failure 400 "Invalid contact ID"
  else Http.failure 500 "Server error while fetching contact method".

Definition getContact (id : string) (docs : list Contact)
  : Http.Response Contact :=
  match findById id docs with
  | Throw e => getCatch e
  | Ok None => Http.failure 404 "Contact method not found"
  | Ok (Some contact) => Http.mkResponse 200 true None nil (Some contact) None
  end.

(** *** POST /api/contact *)

Definition excludedMessage : string :=
  "Website and social media contact types are not allowed".

Definition postValidation (b : Body) : list string :=
  (check (isLength 1 (Some 50%nat) (trim (toStr (b_type b))))
     "Type must be between 1 and 50 characters" ++
   check (negb (arrayIncludes getExcludedTypes
                  (toLowerCase (trim (toStr (b_type b))))))
     excludedMessage ++
   check (isLength 1 (Some 100%nat) (trim (toStr (b_label b))))
     "Label must be between 1 and 100 characters" ++
   check (isLength 1 (Some 500%nat) (trim (toStr (b_value b))))
     "Value must be between 1 and 500 characters" ++
   optional (b_icon b) (fun i =>
     check (isLength 0 (Some 50%nat) (trim i))
       "Icon name cannot exceed 50 characters"))%list.

(** Lines 140-149: [contactData], from the sanitized body. *)
Definition buildContactData (b : Body) : ContactData :=
  let icon := option_map trim (b_icon b) in
  {| d_type := trim (toStr (b_type b));
     d_label := trim (toStr (b_label b));
     d_value := trim (toStr (b_value b));
     d_icon := if truthy icon then icon else None |}.

Definition postContact (now : Z) (newId : string) (b : Body)
    (docs : list Contact) : Http.Response Contact * list Contact :=
  match postValidation b with
  | (_ :: _) as errs => (Http.failureWith 400 "Validation failed" errs, docs)
  | nil =>
      match saveNew now (newContact newId (buildContactData b)) docs with
      | Throw e => (Contact.postCatch e, docs)
      | Ok (docs', saved) =>
          (Http.mkResponse 201 true
             (Some "Contact method created successfully") nil (Some saved)
             None,
           docs')
      end
  end.

(** *** PUT /api/contact/:id *)

Definition putValidation (b : Body) : list string :=
  (optional (b_type b) (fun t =>
     check (isLength 1 (Some 50%nat) (trim t))
       "Type must be between 1 and 50 characters" ++
     check (if truthy (Some (trim t))
            then negb (arrayIncludes getExcludedTypes (toLowerCase (trim t)))
            else true)
       excludedMessage) ++
   optional (b_label b) (fun l =>
     check (isLength 1 (Some 100%nat) (trim l))
       "Label must be between 1 and 100 characters") ++
   optional (b_value b) (fun v =>
     check (isLength 1 (Some 500%nat) (trim v))
       "Value must be between 1 and 500 characters") ++
   optional (b_icon b) (fun i =>
     check (isLength 0 (Some 50%nat) (trim i))
       "Icon name cannot exceed 50 characters"))%list.

(** Lines 232-238: the assignments, each path through its [trim] setter. *)
Definition applyBody (b : Body) (c : Contact) : Contact :=
  let type' := option_map trim (b_type b) in
  let label' := option_map trim (b_label b) in
  let value' := option_map trim (b_value b) in
  let icon' := option_map trim (b_icon b) in
  mkContact (_id c)
    (if truthy type' then trim (toStr type') else type c)
    (if truthy label' then trim (toStr label') else label c)
    (if truthy value' then trim (toStr value') else value c)
    (match icon' with
     | Some i => Some (trim i)
     | None => icon c
     end)
    (createdAt c) (updatedAt c).

Definition putContact (now : Z) (id : string) (b : Body)
    (docs : list Contact) : Http.Response Contact * list Contact :=
  match putValidation b with
  | (_ :: _) as errs => (Http.failureWith 400 "Validation failed" errs, docs)
  | nil =>
      match findById id docs with
      | Throw e => (Contact.putCatch e, docs)
      | Ok None => (Http.failure 404 "Contact method not found", docs)
      | Ok (Some contact) =>
          match saveExisting now contact (applyBody b contact) docs with
          | Throw e => (Contact.putCatch e, docs)
          | Ok (docs', saved) =>
              (Http.mkResponse 200 true
                 (Some "Contact method updated successfully") nil
                 (Some saved) None,
               docs')
          end
      end
  end.

(** *** DELETE /api/contact/:id *)

Definition deleteCatch (e : Error) : Http.Response unit :=
  if isCastError e then Http.failure 400 "Invalid contact ID"
  else Http.failure 500 "Server error while deleting contact method".

Definition deleteContact (id : string) (docs : list Contact)
  : Http.Response unit * list Contact :=
  match findById id docs with
  | Throw e => (deleteCatch e, docs)
  | Ok None => (Http.failure 404 "Contact method not found", docs)
  | Ok (Some contact) =>
      (Http.mkResponse 200 true (Some "Contact method deleted successfully")
         nil None None,
       removeId Contact _id id docs)
  end.

(** One request that can change the contacts collection. *)
Inductive step : list Contact -> list Contact -> Prop :=
| step_create (now : Z) (newId : string) (b : Body) docs :
    step docs (snd (postContact now newId b docs))
| step_update (now : Z) (id : string) (b : Body) docs :
    step docs (snd (putContact now id b docs))
| step_delete (id : string) docs :
    step docs (snd (deleteContact id docs)).

(** The collections the API can produce from an empty one. *)
Inductive reachable : list Contact -> Prop :=
| reach_empty : reachable nil
| reach_step docs docs' :
    reachable docs -> step docs docs' -> reachable docs'.

End Routes.

(** The type of the contact, lowered, is not an excluded one. *)
Definition typeOk (c : Contact) : Prop :=
  arrayIncludes getExcludedTypes (toLowerCase (type c)) = false.

(** The contacts are in the order of [field], ascending or descending. *)
Definition OrderedBy (field : string) (descending : bool)
    (l : list Contact) : Prop :=
  Sorted (fun a b =>
            if descending then lebBy field b a = true
            else lebBy field a b = true) l.

End ContactRoutes.


(* ================================================================== *)
(** ** The categories list (GET /api/categories) *)
(* ================================================================== *)

Module CategoryList.
Import JS Validator Mongoose Categories.

(** A document of the [$group] stage over the products: the category it
    groups, the number of its products, and the number of those in
    stock. *)
Record Group : Type := mkGroup {
  g_id : string;
  g_count : nat;
  g_inStockCount : nat
}.

(** [{ $cond: [{ $eq: ['$inStock', true] }, 1, 0] }] *)
Definition inStockUnit (p : Products.Product) : nat :=
  if Products.inStock p then 1%nat else 0%nat.

(** One product entering the [$group] stage: it is added to the group of
    its category, which is created when the product is its first. *)
Fixpoint addToGroup (p : Products.Product) (gs : list Group) : list Group :=
  match gs with
  | nil => mkGroup (Products.category p) 1 (inStockUnit p) :: nil
  | g :: rest =>
      if String.eqb (g_id g) (Products.category p)
      then mkGroup (g_id g) (S (g_count g)) (g_inStockCount g + inStockUnit p)
             :: rest
      else g :: addToGroup p rest
  end.

(** [Product.aggregate([{ $group: { _id: '$category', count, inStockCount
    } }])] *)
Definition aggregate (prods : list Products.Product) : list Group :=
  fold_left (fun gs p => addToGroup p gs) prods nil.

(** An entry of [countsMap]. *)
Record Counts : Type := mkCounts {
  total : nat;
  inStock : nat
}.

(** The object [countsMap], from category identifiers to counts. *)
Definition CountsMap : Type := string -> option Counts.

Definition emptyMap : CountsMap := fun _ => None.

(** [map[key] = v] *)
Definition assign (key : string) (v : Counts) (m : CountsMap) : CountsMap :=
  fun k => if String.eqb k key then Some v else m k.

(** The [forEach] that fills [countsMap]. *)
Definition countsMap (gs : list Group) : CountsMap :=
  fold_left
    (fun m g => assign (g_id g) (mkCounts (g_count g) (g_inStockCount g)) m)
    gs emptyMap.

(** [x?.field || 0] *)
Definition orZero (x : option nat) : nat :=
  match x with
  | Some n => n
  | None => 0%nat
  end.

(** [req.query] of the list route. *)
Record ListQuery : Type := mkListQuery {
  q_page : option string;
  q_limit : option string;
  q_search : option string;
  q_isActive : option string
}.

(** An element of [data]: the category with its two counts. *)
Record Listed : Type := mkListed {
  l_category : Category;
  productCount : nat;
  inStockCount : nat
}.

Definition getPath (c : Category) (path : string) : option Value :=
  if String.eqb path "_id" then Some (VId (_id c))
  else if String.eqb path "name" then Some (VStr (name c))
  else if String.eqb path "isActive" then Some (VBool (isActive c))
  else if String.eqb path "createdAt" then Some (VDate (createdAt c))
  else if String.eqb path "updatedAt" then Some (VDate (updatedAt c))
  else None.

Section Routes.
(** The texts of the text index of the Category model (the model is not
    among the sources). *)
Variable textFields : Category -> list string.
Variable textMatch : string -> list string -> bool.
(** The store, asked for a page beyond the safe integers. *)
Variable beyondSafe : Number -> Number -> option (nat * nat).

Definition listValidation (q : ListQuery) : list string :=
  (optional (q_page q) (fun p =>
     check (isInt (Some 1) None p) "Page must be a positive integer") ++
   optional (q_limit q) (fun l =>
     check (isInt (Some 1) (Some 100) l) "Limit must be between 1 and 100") ++
   optional (q_search q) (fun s =>
     check (isLength 0 (Some 100%nat) s) "Search term too long"))%list.

Definition buildFilter (q : ListQuery) : Filter :=
  let f0 : Filter := nil in
  let f1 :=
    match q_isActive q with
    | Some v => setKey "isActive" (Eq (VBool (String.eqb v "true"))) f0
    | None => f0
    end in
  match q_search q with
  | Some t => if truthy (Some t) then setKey "$text" (TextSearch t) f1 else f1
  | None => f1
  end.

(** [categories.map(category => ({ ...category.toObject(), productCount,
    inStockCount }))] *)
Definition withCounts (counts : CountsMap) (c : Category) : Listed :=
  mkListed c
    (orZero (option_map total (counts (_id c))))
    (orZero (option_map inStock (counts (_id c)))).

(** GET /api/categories *)
Definition listCategories (q : ListQuery) (db : DB)
  : Http.Response (list Listed) :=
  match listValidation q with
  | (_ :: _) as errs => Http.failureWith 400 "Validation failed" errs
  | nil =>
      let page := orDefault (parseInt (q_page q)) 1 in
      let limit := orDefault (parseInt (q_limit q)) 50 in
      let skip := mul (sub page (Num 1)) limit in
      let filter := buildFilter q in
      match findPageAt Category getPath textFields createdAt textMatch
              beyondSafe filter skip limit (categories db) with
      | Throw _ => Http.failure 500 "Server error while fetching categories"
      | Ok cats =>
          let productCounts := aggregate (products db) in
          let counts := countsMap productCounts in
          let categoriesWithCounts := map (withCounts counts) cats in
          let total :=
            Z.of_nat (countDocuments Category getPath textFields textMatch
                        filter (categories db)) in
          Http.mkResponse 200 true None nil (Some categoriesWithCounts)
            (Some (Http.mkPagination page (ceilQuotient total limit) total
                     limit))
      end
  end.

End Routes.

(** The number of products in stock that reference the category [id]. *)
Definition referencingInStock (id : string) (prods : list Products.Product)
  : nat :=
  List.length
    (List.filter
       (fun p => String.eqb (Products.category p) id && Products.inStock p)
       prods).

(** What the groups are after the products [prods] have entered the
    [$group] stage: one group for each category that has a product, with
    the two counts of that category. *)
Definition Grouped (gs : list Group) (prods : list Products.Product) : Prop :=
  NoDup (map g_id gs) /\
  (forall g, In g gs ->
     g_count g = Notions.referencing (g_id g) prods /\
     g_inStockCount g = referencingInStock (g_id g) prods) /\
  (forall id, ~ In id (map g_id gs) -> Notions.referencing id prods = 0%nat).

(** A store with the categories "c1" and "c2", three products of "c1"
    and none of "c2". *)
Definition twoCategories : DB :=
  mkDB (mkCategory "c1" "Herbs" true 10 10
        :: mkCategory "c2" "Spices" true 20 20 :: nil)
    (Notions.sampleCatalogue 3).

(** The request [GET /api/categories] without parameters. *)
Definition plainQuery : ListQuery := mkListQuery None None None None.

End CategoryList.

(* ================================================================== *)
(** ** The delete routes of products, certificates and team members *)
(* ================================================================== *)

Module DeleteRoutes.
Import JS Mongoose Cloudinary.

(** The three routes are the same code over their collection, with their
    own messages. *)
Section Route.
Variable Doc : Type.
Variable docId : Doc -> string.
Variable imagePublicId : Doc -> option string.
(** The messages of the 404, the 400, the 500 and the 200 answer. *)
Variable notFound : string.
Variable invalidId : string.
Variable serverFailure : string.
Variable deleted : string.
Variable validObjectId : string -> bool.
(** The asset host. *)
Variable destroy : string -> Outcome.

Definition findById (id : string) (docs : list Doc) : Result (option Doc) :=
  if validObjectId id then Ok (lookupId Doc docId id docs)
  else Throw castError.

Definition deleteCatch (e : Error) : Http.Response unit :=
  if isCastError e then Http.failure 400 invalidId
  else Http.failure 500 serverFailure.

(** The block that deletes the stored image: its [catch] logs what
    [deleteImage] throws and the route goes on.  The result is the list
    of the public ids sent to the asset host. *)
Definition deleteStoredImage (d : Doc) : list string :=
  if truthy (imagePublicId d)
  then fst (deleteImage destroy (imagePublicId d))
  else nil.

(** DELETE /:id: the answer, the collection afterwards, and the public
    ids sent to the asset host. *)
Definition deleteDoc (id : string) (docs : list Doc)
  : Http.Response unit * list Doc * list string :=
  match findById id docs with
  | Throw e => (deleteCatch e, docs, nil)
  | Ok None => (Http.failure 404 notFound, docs, nil)
  | Ok (Some d) =>
      let sent := deleteStoredImage d in
      (Http.mkResponse 200 true (Some deleted) nil None None,
       removeId Doc docId id docs, sent)
  end.

End Route.

(** DELETE /api/products/:id *)
Definition deleteProduct :=
  deleteDoc Products.Product Products._id Products.imagePublicId
    "Product not found" "Invalid product ID"
    "Server error while deleting product" "Product deleted successfully".

(** DELETE /api/certificates/:id *)
Definition deleteCertificate :=
  deleteDoc CertificateModel.Certificate CertificateModel._id
    CertificateModel.imagePublicId
    "Certificate not found" "Invalid certificate ID"
    "Server error while deleting certificate"
    "Certificate deleted successfully".

(** DELETE /api/team/:id *)
Definition deleteTeamMember :=
  deleteDoc TeamMemberModel.TeamMember TeamMemberModel._id
    TeamMemberModel.imagePublicId
    "Team member not found" "Invalid team member ID"
    "Server error while deleting team member"
    "Team member deleted successfully".

(** The store after DELETE /api/products/:id. *)
Definition afterProductDelete (validObjectId : string -> bool)
    (destroy : string -> Outcome) (id : string) (db : Categories.DB)
  : Categories.DB :=
  Categories.mkDB (Categories.categories db)
    (snd (fst (deleteProduct validObjectId destroy id
                 (Categories.products db)))).

(** A product with a stored image. *)
Definition pictured : Products.Product :=
  Products.mkProduct "p1" "Thyme" "Dried thyme leaves"
    "https://res.cloudinary.com/demo/image/upload/v1/herbs-dashboard/products/thyme.jpg"
    (Some "herbs-dashboard/products/thyme") "c1" None true false nil None nil
    5 5.

End DeleteRoutes.
(* ================================================================== *)
(** ** Further notions used to state properties *)
(* ================================================================== *)

Module MoreNotions.
Import JS JSArray.

(** The character [c] occurs in [s]. *)
Fixpoint hasChar (c : ascii) (s : string) : bool :=
  match s with
  | EmptyString => false
  | String d s' => Ascii.eqb d c || hasChar c s'
  end.

(** The last of the stretches of [s] between the characters [sep]. *)
Definition lastSegment (sep : ascii) (s : string) : string :=
  last (split sep s) EmptyString.

(** What a message says and where it came from: the paths no admin route
    assigns. *)
Definition sameContent (m m' : MessageModel.Message) : Prop :=
  MessageModel._id m' = MessageModel._id m /\
  MessageModel.name m' = MessageModel.name m /\
  MessageModel.email m' = MessageModel.email m /\
  MessageModel.phone m' = MessageModel.phone m /\
  MessageModel.subject m' = MessageModel.subject m /\
  MessageModel.message m' = MessageModel.message m /\
  MessageModel.source m' = MessageModel.source m /\
  MessageModel.ipAddress m' = MessageModel.ipAddress m /\
  MessageModel.userAgent m' = MessageModel.userAgent m /\
  MessageModel.notes m' = MessageModel.notes m /\
  MessageModel.createdAt m' = MessageModel.createdAt m.

(** The dates of reading and replying that [m] has are those of [m']. *)
Definition keepsDates (m m' : MessageModel.Message) : Prop :=
  (forall t, MessageModel.readAt m = Some t -> MessageModel.readAt m' = Some t) /\
  (forall t,
      MessageModel.repliedAt m = Some t -> MessageModel.repliedAt m' = Some t).

Definition framed (m m' : MessageModel.Message) : Prop :=
  sameContent m m' /\ keepsDates m m'.

(** The products list request [q] without its [category] parameter. *)
Definition withoutCategory (q : Products.ListQuery) : Products.ListQuery :=
  Products.mkListQuery (Products.q_page q) (Products.q_limit q) None
    (Products.q_search q) (Products.q_featured q) (Products.q_inStock q).



End MoreNotions.


(* ================================================================== *)
(** ** The words of a regular expression *)
(* ================================================================== *)

Module RegexSemantics.
Import Regex.

(** [Matches r s]: the whole of [s] is a word of [r]. *)
Inductive Matches : regex -> string -> Prop :=
| MEmpty : Matches Empty EmptyString
| MClass (p : ascii -> bool) (c : ascii) :
    p c = true -> Matches (Class p) (String c EmptyString)
| MSeq (r1 r2 : regex) (s1 s2 : string) :
    Matches r1 s1 -> Matches r2 s2 -> Matches (Seq r1 r2) (s1 ++ s2)
| MOrL (r1 r2 : regex) (s : string) : Matches r1 s -> Matches (Or r1 r2) s
| MOrR (r1 r2 : regex) (s : string) : Matches r2 s -> Matches (Or r1 r2) s
| MStarNil (r : regex) : Matches (Star r) EmptyString
| MStarCons (r : regex) (s1 s2 : string) :
    Matches r s1 -> Matches (Star r) s2 -> Matches (Star r) (s1 ++ s2).

(** Every character of [s] is a [\w] character. *)
Fixpoint allWord (s : string) : bool :=
  match s with
  | EmptyString => true
  | String c s' => wordChar c && allWord s'
  end.

(** [s] has an [@] and, after it, ends with a dot and two or three [\w]
    characters. *)
Definition EmailShape (s : string) : Prop :=
  exists front tld,
    s = front ++ String "."%char tld /\
    (String.length tld = 2%nat \/ String.length tld = 3%nat) /\
    allWord tld = true /\
    MoreNotions.hasChar "@"%char front = true.

End RegexSemantics.
(* ================================================================== *)
(** ** Properties *)
(* ================================================================== *)

Module JSFacts.
Import JS.

Lemma startsWith_spec (s p : string) :
  startsWith s p = true <-> exists post, s = p ++ post.
Proof.
  revert s; induction p as [|a p IH]; intros s; simpl.
  - split; [intros _; now exists s | reflexivity].
  - destruct s as [|b s]; simpl.
    + split; [discriminate | intros [post H]; discriminate].
    + rewrite andb_true_iff, Ascii.eqb_eq, IH. split.
      * intros [-> [post ->]]. now exists post.
      * intros [post H]. injection H as -> ->. split; [reflexivity | now exists post].
Qed.

Lemma includes_spec (s p : string) :
  includes s p = true <-> Substring p s.
Proof.
  unfold Substring. induction s as [|c s IH].
  - simpl. rewrite orb_false_r, startsWith_spec. split.
    + intros [post H]. now exists EmptyString, post.
    + intros [pre [post H]]. destruct pre; simpl in H; [now exists post | discriminate].
  - cbn [includes]. rewrite orb_true_iff, startsWith_spec, IH. split.
    + intros [[post H] | [pre [post H]]].
      * now exists EmptyString, post.
      * exists (String c pre), post. simpl. now rewrite H.
    + intros [pre [post H]]. destruct pre as [|d pre]; simpl in H.
      * left. now exists post.
      * right. injection H as _ H. now exists pre, post.
Qed.

Lemma includes_false (s p : string) :
  includes s p = false <-> ~ Substring p s.
Proof.
  rewrite <- includes_spec. destruct (includes s p); split; congruence.
Qed.

Lemma strictEq_spec (x : option string) (lit : string) :
  strictEq x lit = true <-> x = Some lit.
Proof.
  destruct x as [v|]; simpl.
  - rewrite String.eqb_eq. split; congruence.
  - split; discriminate.
Qed.

Lemma toLowerCase_app (a b : string) :
  toLowerCase (a ++ b) = toLowerCase a ++ toLowerCase b.
Proof.
  induction a as [|c a IH]; simpl; [reflexivity | now rewrite IH].
Qed.

Lemma toLowerCase_app_inv (a b s : string) :
  toLowerCase s = a ++ b ->
  exists s1 s2, s = s1 ++ s2 /\ toLowerCase s1 = a /\ toLowerCase s2 = b.
Proof.
  revert s; induction a as [|c a IH]; intros s H.
  - exists EmptyString, s. repeat split; assumption.
  - destruct s as [|d s]; [discriminate |].
    simpl in H. injection H as Hc Hs.
    destruct (IH s Hs) as (s1 & s2 & -> & H1 & H2).
    exists (String d s1), s2. simpl. now rewrite Hc, H1, H2.
Qed.

(** Searching the lowered text is searching the text without regard to
    case. *)
Lemma includes_lower_spec (s kw : string) :
  includes (toLowerCase s) kw = true <-> Notions.ContainsCI kw s.
Proof.
  rewrite includes_spec. unfold Substring, Notions.ContainsCI. split.
  - intros (pre & post & H).
    destruct (toLowerCase_app_inv _ _ _ H) as (s1 & s2 & -> & _ & H2).
    destruct (toLowerCase_app_inv _ _ _ H2) as (mid & s3 & -> & H3 & _).
    now exists s1, mid, s3.
  - intros (pre & mid & post & -> & <-).
    exists (toLowerCase pre), (toLowerCase post).
    now rewrite !toLowerCase_app.
Qed.

End JSFacts.

(* ------------------------------------------------------------------ *)
(** *** The classifier *)

Module ClassifierFacts.
Import JS Classifier Notions JSFacts MessageModel MessageRoutes.

Lemma ruleCEO_reflect (text : string) :
  let t := toLowerCase text in
  (includes t "ceo" || includes t "urgent" || includes t "important") = true
  <-> RuleCEO text.
Proof.
  cbv zeta. unfold RuleCEO.
  rewrite !orb_true_iff, !includes_lower_spec. tauto.
Qed.

Lemma ruleSales_reflect (text : string) (category : option string) :
  (strictEq category "sales" || includes (toLowerCase text) "sales manager")
  = true <-> RuleSales text category.
Proof.
  unfold RuleSales.
  rewrite orb_true_iff, includes_lower_spec, strictEq_spec. tauto.
Qed.

Lemma ruleHerbs_reflect (text : string) (category : option string) :
  let t := toLowerCase text in
  (strictEq category "herbs" || includes t "herb" || includes t "natural")
  = true <-> RuleHerbs text category.
Proof.
  cbv zeta. unfold RuleHerbs.
  rewrite !orb_true_iff, !includes_lower_spec, strictEq_spec. tauto.
Qed.

Lemma ruleComplaint_reflect (category : option string) :
  strictEq category "complaint" = true <-> RuleComplaint category.
Proof. apply strictEq_spec. Qed.

(** C1. The label the POST route assigns follows the rules in order,
    first match wins, on the text [subject + " " + message] searched
    without regard to case: CEO exactly when the text mentions "ceo",
    "urgent" or "important"; otherwise Sales Manager exactly when the
    category is "sales" or the text mentions "sales manager"; otherwise
    Herbs Priority exactly when the category is "herbs" or the text
    mentions "herb" or "natural"; otherwise high exactly when the
    category is "complaint"; otherwise medium.  A text that mentions both
    "urgent" and "sales manager" gets CEO, not Sales Manager. *)
Theorem classifier_first_match_wins
    (subject message : string) (category : option string) :
  let text := subject ++ " " ++ message in
  let label := classifyPriority subject message category in
  (label = "CEO" <-> RuleCEO text) /\
  (label = "Sales Manager" <->
     ~ RuleCEO text /\ RuleSales text category) /\
  (label = "Herbs Priority" <->
     ~ RuleCEO text /\ ~ RuleSales text category /\
     RuleHerbs text category) /\
  (label = "high" <->
     ~ RuleCEO text /\ ~ RuleSales text category /\
     ~ RuleHerbs text category /\ RuleComplaint category) /\
  (label = "medium" <->
     ~ RuleCEO text /\ ~ RuleSales text category /\
     ~ RuleHerbs text category /\ ~ RuleComplaint category) /\
  (ContainsCI "urgent" text -> ContainsCI "sales manager" text ->
     label = "CEO" /\ label <> "Sales Manager").
Proof.
  intros text label. subst label. unfold classifyPriority. fold text.
  pose proof (ruleCEO_reflect text) as H1.
  pose proof (ruleSales_reflect text category) as H2.
  pose proof (ruleHerbs_reflect text category) as H3.
  pose proof (ruleComplaint_reflect category) as H4.
  cbv zeta in H1, H3.
  destruct (includes (toLowerCase text) "ceo"
            || includes (toLowerCase text) "urgent"
            || includes (toLowerCase text) "important") eqn:E1.
  { assert (RuleCEO text) as R1 by (apply H1; reflexivity).
    repeat split; try discriminate; try tauto. }
  assert (~ RuleCEO text) as N1 by (rewrite <- H1; discriminate).
  assert (~ ContainsCI "urgent" text) as NU by (unfold RuleCEO in N1; tauto).
  destruct (strictEq category "sales"
            || includes (toLowerCase text) "sales manager") eqn:E2.
  { assert (RuleSales text category) as R2 by (apply H2; reflexivity).
    repeat split; try discriminate; try tauto. }
  assert (~ RuleSales text category) as N2 by (rewrite <- H2; discriminate).
  destruct (strictEq category "herbs"
            || includes (toLowerCase text) "herb"
            || includes (toLowerCase text) "natural") eqn:E3.
  { assert (RuleHerbs text category) as R3 by (apply H3; reflexivity).
    repeat split; try discriminate; try tauto. }
  assert (~ RuleHerbs text category) as N3 by (rewrite <- H3; discriminate).
  destruct (strictEq category "complaint") eqn:E4.
  { assert (RuleComplaint category) as R4 by (apply H4; reflexivity).
    repeat split; try discriminate; try tauto. }
  assert (~ RuleComplaint category) as N4 by (rewrite <- H4; discriminate).
  repeat split; try discriminate; try tauto.
Qed.

Lemma classifier_first_match_wins_witness :
  let subject := "Urgent: call the sales manager" in
  let message := "please" in
  ContainsCI "urgent" (subject ++ " " ++ message) /\
  ContainsCI "sales manager" (subject ++ " " ++ message) /\
  classifyPriority subject message (Some "sales") = "CEO" /\
  classifyPriority subject message (Some "sales") <> "Sales Manager".
Proof.
  cbv zeta.
  assert (ContainsCI "urgent" ("Urgent: call the sales manager" ++ " " ++ "please"))
    as U by (exists "", "Urgent", ": call the sales manager please";
             split; reflexivity).
  assert (ContainsCI "sales manager"
            ("Urgent: call the sales manager" ++ " " ++ "please"))
    as M by (exists "Urgent: call the ", "sales manager", " please";
             split; reflexivity).
  split; [exact U | split; [exact M |]].
  exact (proj2 (proj2 (proj2 (proj2 (proj2
           (classifier_first_match_wins "Urgent: call the sales manager"
              "please" (Some "sales")))))) U M).
Defined.

(** The priority of a created message is the one of [messageData]. *)
Lemma post_created_priority isEmail normalizeEmail now newId req docs c :
  Http.data (fst (postMessage isEmail normalizeEmail now newId req docs))
  = Some c ->
  Some (c_priority c) = d_priority (buildMessageData normalizeEmail req).
Proof.
  unfold postMessage.
  destruct (postValidation isEmail req); [| discriminate].
  unfold saveNew.
  destruct (validate (newMessage newId (buildMessageData normalizeEmail req)));
    [| discriminate].
  cbn. intros H. injection H as <-. reflexivity.
Qed.

(** C9. The label is a function of the subject, the message and the
    category of the request alone: two requests that agree on these
    three get the same label, whatever the rest of the request, the
    collection, the clock, the fresh identifier and the collaborators
    are; the label is the classifier applied to the three inputs; and
    two 201 responses to such requests report the same priority. *)
Theorem classifier_depends_only_on_its_input
    (isEmail1 isEmail2 : string -> bool)
    (normalizeEmail1 normalizeEmail2 : string -> string)
    (now1 now2 : Z) (id1 id2 : string) (req1 req2 : PostRequest)
    (docs1 docs2 : list Message) :
  b_subject req1 = b_subject req2 ->
  b_message req1 = b_message req2 ->
  b_category req1 = b_category req2 ->
  d_priority (buildMessageData normalizeEmail1 req1)
  = d_priority (buildMessageData normalizeEmail2 req2) /\
  d_priority (buildMessageData normalizeEmail1 req1)
  = Some (classifyPriority (trim (Validator.toStr (b_subject req1)))
            (trim (Validator.toStr (b_message req1))) (b_category req1)) /\
  (forall c1 c2,
      Http.data (fst (postMessage isEmail1 normalizeEmail1 now1 id1 req1 docs1))
      = Some c1 ->
      Http.data (fst (postMessage isEmail2 normalizeEmail2 now2 id2 req2 docs2))
      = Some c2 ->
      c_priority c1 = c_priority c2).
Proof.
  intros Hs Hm Hc.
  assert (d_priority (buildMessageData normalizeEmail1 req1)
          = d_priority (buildMessageData normalizeEmail2 req2)) as E
    by (cbn; now rewrite Hs, Hm, Hc).
  split; [exact E | split; [reflexivity |]].
  intros c1 c2 H1 H2.
  apply post_created_priority in H1. apply post_created_priority in H2.
  congruence.
Qed.

Lemma classifier_depends_only_on_its_input_witness :
  let req1 :=
    mkPostRequest (Some "Ann") (Some "ann@example.com") None
      (Some "issue") (Some "bad service") (Some "complaint") None None in
  let req2 :=
    mkPostRequest (Some "Bob") (Some "bob@example.org") (Some "555")
      (Some "issue") (Some "bad service") (Some "complaint")
      (Some "10.0.0.7") (Some "curl") in
  d_priority (buildMessageData (fun e => e) req1) = Some "high" /\
  d_priority (buildMessageData toLowerCase req2) = Some "high" /\
  forall c1 c2,
    Http.data (fst (postMessage (fun _ => true) (fun e => e) 1000 "a1" req1 nil))
    = Some c1 ->
    Http.data (fst (postMessage (fun _ => true) toLowerCase 2000 "a2" req2
                      (snd (postMessage (fun _ => true) (fun e => e) 1000
                              "a1" req1 nil))))
    = Some c2 ->
    c_priority c1 = c_priority c2.
Proof.
  cbv zeta.
  split; [reflexivity | split; [reflexivity |]].
  refine (proj2 (proj2 (classifier_depends_only_on_its_input
            (fun _ => true) (fun _ => true) (fun e => e) toLowerCase
            1000 2000 "a1" "a2" _ _ nil _ _ _ _)));
    reflexivity.
Defined.

End ClassifierFacts.

(* ------------------------------------------------------------------ *)
(** *** The store *)

Module StoreFacts.
Import Mongoose.

Section Collection.
Variable Doc : Type.
Variable docId : Doc -> string.

Lemma lookupId_id id docs d :
  lookupId Doc docId id docs = Some d -> docId d = id.
Proof.
  unfold lookupId. intros H. apply find_some in H.
  now apply String.eqb_eq.
Qed.

Lemma lookupId_In id docs d :
  lookupId Doc docId id docs = Some d -> In d docs.
Proof. unfold lookupId. intros H. now apply find_some in H. Qed.

Lemma lookupId_replaceId_same id d' docs d :
  lookupId Doc docId id docs = Some d -> docId d' = id ->
  lookupId Doc docId id (replaceId Doc docId id d' docs) = Some d'.
Proof.
  unfold lookupId. intros H Hid.
  induction docs as [|x rest IH]; simpl in *; [discriminate |].
  destruct (String.eqb (docId x) id) eqn:E; simpl.
  - now rewrite Hid, String.eqb_refl.
  - rewrite E. now apply IH.
Qed.

Lemma lookupId_replaceId_other id id' d' docs :
  docId d' = id -> id' <> id ->
  lookupId Doc docId id' (replaceId Doc docId id d' docs)
  = lookupId Doc docId id' docs.
Proof.
  unfold lookupId. intros Hid Hne.
  induction docs as [|x rest IH]; simpl; [reflexivity |].
  destruct (String.eqb (docId x) id) eqn:E; simpl.
  - apply String.eqb_eq in E.
    assert (String.eqb (docId d') id' = false) as ->
      by (apply String.eqb_neq; congruence).
    assert (String.eqb (docId x) id' = false) as ->
      by (apply String.eqb_neq; congruence).
    reflexivity.
  - now rewrite IH.
Qed.

Lemma replaceId_Forall (P : Doc -> Prop) id d' docs :
  Forall P docs -> P d' -> Forall P (replaceId Doc docId id d' docs).
Proof.
  intros H Hd. induction H as [|x rest Hx Hrest IH]; simpl.
  - constructor.
  - destruct (String.eqb (docId x) id); constructor; assumption.
Qed.

Lemma lookupId_removeId_other id id' docs :
  id' <> id ->
  lookupId Doc docId id' (removeId Doc docId id docs)
  = lookupId Doc docId id' docs.
Proof.
  unfold lookupId. intros Hne.
  induction docs as [|x rest IH]; simpl; [reflexivity |].
  destruct (String.eqb (docId x) id) eqn:E; simpl.
  - apply String.eqb_eq in E.
    assert (String.eqb (docId x) id' = false) as ->
      by (apply String.eqb_neq; congruence).
    reflexivity.
  - now rewrite IH.
Qed.

Lemma lookupId_None_notin id docs :
  ~ In id (map docId docs) -> lookupId Doc docId id docs = None.
Proof.
  unfold lookupId. intros H.
  induction docs as [|x rest IH]; simpl in *; [reflexivity |].
  destruct (String.eqb (docId x) id) eqn:E.
  - apply String.eqb_eq in E. tauto.
  - apply IH. tauto.
Qed.

(** With identifiers unique, a deleted document is gone. *)
Lemma lookupId_removeId_same id docs :
  NoDup (map docId docs) ->
  lookupId Doc docId id (removeId Doc docId id docs) = None.
Proof.
  intros H. induction docs as [|x rest IH]; simpl in *; [reflexivity |].
  inversion H as [|? ? Hx Hrest]; subst.
  destruct (String.eqb (docId x) id) eqn:E.
  - apply String.eqb_eq in E. subst id.
    now apply lookupId_None_notin.
  - unfold lookupId in *. simpl. rewrite E. now apply IH.
Qed.

Lemma removeId_length id docs d :
  lookupId Doc docId id docs = Some d ->
  S (List.length (removeId Doc docId id docs)) = List.length docs.
Proof.
  unfold lookupId.
  induction docs as [|x rest IH]; simpl; [discriminate |].
  destruct (String.eqb (docId x) id); simpl; [reflexivity |].
  intros H. now rewrite IH.
Qed.

End Collection.

End StoreFacts.

(* ------------------------------------------------------------------ *)
(** *** The Message schema and the messages routes *)

Module MessageFacts.
Import JS Mongoose MessageModel MessageRoutes Notions StoreFacts.

Lemma enum_nil allowed path v :
  enum allowed path v = nil -> In v allowed.
Proof.
  unfold enum. destruct (existsb (String.eqb v) allowed) eqn:E; [| discriminate].
  intros _. apply existsb_exists in E. destruct E as (x & Hx & E).
  apply String.eqb_eq in E. now subst.
Qed.

Ltac drop_left H :=
  apply app_eq_nil in H; let H' := fresh in destruct H as [H' H]; clear H'.

(** A document that passes validation has a priority of the enum. *)
Lemma validate_priority m :
  validate m = nil -> In (priority m) priorityEnum.
Proof.
  unfold validate. intros H.
  do 9 drop_left H.
  apply app_eq_nil in H. destruct H as [H _].
  now apply enum_nil in H.
Qed.

Lemma roleLabel_not_in_enum p :
  In p roleLabels -> ~ In p priorityEnum.
Proof.
  unfold roleLabels, priorityEnum. simpl.
  intros [<- | [<- | [<- | []]]] H;
    repeat (destruct H as [H | H]; [discriminate |]); exact H.
Qed.

Lemma saveNew_cases now m docs docs' saved :
  saveNew now m docs = Ok (docs', saved) ->
  validate m = nil /\ saved = set_updatedAt now (set_createdAt now m) /\
  docs' = (docs ++ saved :: nil)%list.
Proof.
  unfold saveNew. destruct (validate m) eqn:V; [| discriminate].
  intros H. injection H as <- <-. repeat split.
Qed.

Lemma saveExisting_cases now old new docs docs' saved :
  saveExisting now old new docs = Ok (docs', saved) ->
  (old = new /\ docs' = docs /\ saved = new) \/
  (old <> new /\ validate new = nil /\ saved = set_updatedAt now new /\
   docs' = replaceId Message _id (_id old) saved docs).
Proof.
  unfold saveExisting. destruct (Message_eq_dec old new) as [E | N].
  - intros H. injection H as <- <-. now left.
  - destruct (validate new) eqn:V; [| discriminate].
    intros H. injection H as <- <-. right. repeat split; assumption.
Qed.

(** Whatever validation guarantees of a document holds of every document
    of a collection the API has written. *)
Section Invariant.
Variable P : Message -> Prop.
Hypothesis P_of_valid : forall m, validate m = nil -> P m.

Variable isEmail : string -> bool.
Variable normalizeEmail : string -> string.
Variable validObjectId : string -> bool.

Lemma saveNew_keeps now m docs docs' saved :
  saveNew now m docs = Ok (docs', saved) ->
  Forall P docs -> P saved /\ Forall P docs'.
Proof.
  intros H Inv. apply saveNew_cases in H. destruct H as (V & -> & ->).
  assert (P (set_updatedAt now (set_createdAt now m))) as Ps
    by (apply P_of_valid; exact V).
  split; [exact Ps |].
  apply Forall_app. split; [exact Inv |].
  constructor; [exact Ps | constructor].
Qed.

Lemma saveExisting_keeps now old new docs docs' saved :
  saveExisting now old new docs = Ok (docs', saved) ->
  Forall P docs -> Forall P docs'.
Proof.
  intros H Inv. apply saveExisting_cases in H.
  destruct H as [(_ & -> & _) | (_ & V & -> & ->)]; [exact Inv |].
  apply replaceId_Forall; [exact Inv |].
  apply P_of_valid. exact V.
Qed.

Lemma postMessage_keeps now newId req docs :
  Forall P docs ->
  Forall P (snd (postMessage isEmail normalizeEmail now newId req docs)).
Proof.
  intros Inv. unfold postMessage.
  destruct (postValidation isEmail req); [| exact Inv].
  destruct (saveNew now _ docs) as [[docs' saved] | e] eqn:S; [| exact Inv].
  simpl. eapply saveNew_keeps; eassumption.
Qed.

Lemma getMessage_keeps now id docs :
  Forall P docs ->
  Forall P (snd (getMessage validObjectId now id docs)).
Proof.
  intros Inv. unfold getMessage.
  destruct (findById validObjectId id docs) as [[m |] | e]; try exact Inv.
  destruct (negb (isRead m)); [| exact Inv].
  destruct (saveExisting now m _ docs) as [[docs' saved] | e] eqn:S;
    [| exact Inv].
  simpl. eapply saveExisting_keeps; eassumption.
Qed.

Lemma putMessage_keeps now id b docs :
  Forall P docs ->
  Forall P (snd (putMessage validObjectId now id b docs)).
Proof.
  intros Inv. unfold putMessage.
  destruct (putValidation b); [| exact Inv].
  destruct (findById validObjectId id docs) as [[m |] | e]; try exact Inv.
  destruct (applyIsRead now (u_isRead b) m) as [m1 |]; [| exact Inv].
  destruct (applyReplied now (u_replied b) m1) as [m2 |]; [| exact Inv].
  destruct (saveExisting now m _ docs) as [[docs' saved] | e] eqn:S;
    [| exact Inv].
  simpl. eapply saveExisting_keeps; eassumption.
Qed.

Lemma step_keeps docs docs' :
  step isEmail normalizeEmail validObjectId docs docs' ->
  Forall P docs -> Forall P docs'.
Proof.
  intros [now newId req d | now id b d | now id d] Inv.
  - now apply postMessage_keeps.
  - now apply putMessage_keeps.
  - now apply getMessage_keeps.
Qed.

Lemma reachable_keeps docs :
  reachable isEmail normalizeEmail validObjectId docs -> Forall P docs.
Proof.
  induction 1 as [| docs docs' _ IH S].
  - constructor.
  - eapply step_keeps; eassumption.
Qed.

End Invariant.

Section Routes.
Variable isEmail : string -> bool.
Variable normalizeEmail : string -> string.
Variable validObjectId : string -> bool.

(** Every message of a reachable collection passes the validators of the
    schema. *)
Lemma reachable_valid docs :
  reachable isEmail normalizeEmail validObjectId docs ->
  Forall (fun m => validate m = nil) docs.
Proof. apply reachable_keeps. trivial. Qed.

Lemma reachable_inv docs :
  reachable isEmail normalizeEmail validObjectId docs -> PriorityInv docs.
Proof. apply reachable_keeps. exact validate_priority. Qed.

(** A label outside the enum makes the new document fail validation,
    and the route answers 500 without writing. *)
Lemma role_label_rejected now newId req docs :
  postValidation isEmail req = nil ->
  (exists p,
        d_priority (buildMessageData normalizeEmail req) = Some p /\
        In p roleLabels) ->
  (exists errs,
      errs <> nil /\
      saveNew now (newMessage newId (buildMessageData normalizeEmail req)) docs
      = Throw (validationError errs)) /\
  postMessage isEmail normalizeEmail now newId req docs
  = (Http.failure 500 "Server error while sending message", docs).
Proof.
  intros V (p & Ep & L).
  assert (validate (newMessage newId (buildMessageData normalizeEmail req))
          <> nil) as NV.
  { intros E. apply validate_priority in E.
    unfold newMessage in E. cbn [priority] in E. rewrite Ep in E.
    now apply (roleLabel_not_in_enum _ L). }
  unfold postMessage. rewrite V. unfold saveNew.
  destruct (validate (newMessage newId (buildMessageData normalizeEmail req)))
    as [| e errs] eqn:E; [congruence |].
  split; [| reflexivity].
  exists (e :: errs). split; [discriminate | reflexivity].
Qed.

End Routes.

(** C2. In every collection the API can produce from an empty one, each
    message has a priority among low, medium and high; a document the
    store accepts on [save] has such a priority; and a submission whose
    label is CEO, Sales Manager or Herbs Priority is not persisted: its
    [save] fails schema validation, the route answers 500 and the
    collection is unchanged. *)
Theorem stored_priority_in_schema_enum
    (isEmail : string -> bool) (normalizeEmail : string -> string)
    (validObjectId : string -> bool) (docs : list Message) :
  reachable isEmail normalizeEmail validObjectId docs ->
  PriorityInv docs /\
  (forall now m docs' saved,
      saveNew now m docs = Ok (docs', saved) ->
      In (priority saved) priorityEnum /\ PriorityInv docs') /\
  (forall now old new docs' saved,
      saveExisting now old new docs = Ok (docs', saved) ->
      PriorityInv docs') /\
  (forall now newId req,
      PriorityInv
        (snd (postMessage isEmail normalizeEmail now newId req docs))) /\
  (forall now id b,
      PriorityInv (snd (putMessage validObjectId now id b docs))) /\
  (forall now newId req,
      postValidation isEmail req = nil ->
      (exists p,
        d_priority (buildMessageData normalizeEmail req) = Some p /\
        In p roleLabels) ->
      (exists errs,
          errs <> nil /\
          saveNew now (newMessage newId (buildMessageData normalizeEmail req))
            docs
          = Throw (validationError errs)) /\
      postMessage isEmail normalizeEmail now newId req docs
      = (Http.failure 500 "Server error while sending message", docs)).
Proof.
  intros R. pose proof (reachable_inv _ _ _ _ R) as Inv.
  split; [exact Inv |].
  split.
  { intros now m docs' saved H.
    exact (saveNew_keeps _ validate_priority _ _ _ _ _ H Inv). }
  split.
  { intros now old new docs' saved H.
    exact (saveExisting_keeps _ validate_priority _ _ _ _ _ _ H Inv). }
  split.
  { intros. apply postMessage_keeps; [exact validate_priority | exact Inv]. }
  split.
  { intros. apply putMessage_keeps; [exact validate_priority | exact Inv]. }
  intros now newId req V L. now apply role_label_rejected.
Qed.

Lemma stored_priority_in_schema_enum_witness :
  reachable (fun _ => true) (fun e => e) (fun _ => true)
    (snd (postMessage (fun _ => true) (fun e => e) 1000 "m1"
            helloRequest nil)) /\
  postMessage (fun _ => true) (fun e => e) 2000 "m2" urgentRequest
    (snd (postMessage (fun _ => true) (fun e => e) 1000 "m1"
            helloRequest nil))
  = (Http.failure 500 "Server error while sending message",
     snd (postMessage (fun _ => true) (fun e => e) 1000 "m1"
            helloRequest nil)).
Proof.
  assert (reachable (fun _ => true) (fun e => e) (fun _ => true)
            (snd (postMessage (fun _ => true) (fun e => e) 1000 "m1"
                    helloRequest nil))) as R.
  { eapply reach_step; [apply reach_empty | apply step_create]. }
  split; [exact R |].
  refine (proj2 (proj2 (proj2 (proj2 (proj2 (proj2
            (stored_priority_in_schema_enum _ _ _ _ R)))))
            2000 "m2" urgentRequest _ _)).
  - reflexivity.
  - exists "CEO". split; [reflexivity | left; reflexivity].
Defined.

(** C7. What the POST and PUT routes of messages do with a store-layer
    error: the [catch] of POST answers 500 to every error, a validation
    error included, and the [catch] of PUT answers 500 to a validation
    error; the submission "Urgent request" / "need help" passes the request
    validators, fails schema validation in [save], and is answered 500.
    The [catch] blocks of the other create routes answer 400 to a
    validation error. *)
Theorem message_validation_error_answered_500
    (isEmail : string -> bool) (normalizeEmail : string -> string)
    (now : Z) (newId : string) (docs : list Message) :
  isEmail "ann@example.com" = true ->
  (forall e, Http.status (postCatch e) = 500%nat) /\
  (forall errs,
      Http.status (MessageRoutes.putCatch (validationError errs)) = 500%nat) /\
  postValidation isEmail urgentRequest = nil /\
  (exists errs,
      errs <> nil /\
      saveNew now (newMessage newId (buildMessageData normalizeEmail urgentRequest))
        docs
      = Throw (validationError errs)) /\
  postMessage isEmail normalizeEmail now newId urgentRequest docs
  = (Http.failure 500 "Server error while sending message", docs) /\
  (forall errs,
      Http.status (Products.postCatch (validationError errs)) = 400%nat /\
      Http.status (Categories.postCatch (validationError errs)) = 400%nat /\
      Http.status (Team.postCatch (D := unit) (validationError errs)) = 400%nat /\
      Http.status (Certificates.postCatch (D := unit) (validationError errs))
      = 400%nat /\
      Http.status (Contact.postCatch (D := unit) (validationError errs))
      = 400%nat).
Proof.
  intros E.
  assert (postValidation isEmail urgentRequest = nil) as V
    by (unfold postValidation; cbn; rewrite E; reflexivity).
  split; [reflexivity |].
  split; [reflexivity |].
  split; [exact V |].
  destruct (role_label_rejected isEmail normalizeEmail now newId urgentRequest
              docs V) as [Hs Hp].
  { exists "CEO". split; [reflexivity | left; reflexivity]. }
  split; [exact Hs |].
  split; [exact Hp |].
  intros errs. repeat split.
Qed.

Lemma message_validation_error_answered_500_witness :
  (fun _ : string => true) "ann@example.com" = true /\
  postMessage (fun _ => true) (fun e => e) 1000 "m1" urgentRequest nil
  = (Http.failure 500 "Server error while sending message", nil).
Proof.
  split; [reflexivity |].
  exact (proj1 (proj2 (proj2 (proj2 (proj2
           (message_validation_error_answered_500 (fun _ => true) (fun e => e)
              1000 "m1" nil eq_refl)))))).
Defined.

(** The validators of the schema do not look at the read flag, the read
    date or the timestamps. *)
Lemma validate_mark_read now m :
  validate (set_readAt (Some now) (set_isRead true m)) = validate m.
Proof. reflexivity. Qed.

Lemma mark_read_differs now m :
  isRead m = false -> m <> set_readAt (Some now) (set_isRead true m).
Proof.
  intros H E. apply (f_equal isRead) in E. simpl in E. congruence.
Qed.

(** C8 (amended). Fetching a stored message by its identifier marks it
    read: an unread message is stored again with [isRead] true, [readAt]
    the time of the fetch and [updatedAt] refreshed to that time, every
    other field as before, and every other message untouched; a message
    already read leaves the collection as it was.  The response carries the
    message as stored. *)
Theorem fetch_marks_message_read
    (isEmail : string -> bool) (normalizeEmail : string -> string)
    (validObjectId : string -> bool) (now : Z) (id : string)
    (docs : list Message) (m : Message) :
  reachable isEmail normalizeEmail validObjectId docs ->
  validObjectId id = true ->
  lookupId Message _id id docs = Some m ->
  (isRead m = false ->
   exists m',
     lookupId Message _id id (snd (getMessage validObjectId now id docs))
     = Some m' /\
     fst (getMessage validObjectId now id docs)
     = Http.mkResponse 200 true None nil (Some m') None /\
     isRead m' = true /\ readAt m' = Some now /\ updatedAt m' = now /\
     sameBut true m m' /\
     (forall id', id' <> id ->
        lookupId Message _id id' (snd (getMessage validObjectId now id docs))
        = lookupId Message _id id' docs)) /\
  (isRead m = true ->
   getMessage validObjectId now id docs
   = (Http.mkResponse 200 true None nil (Some m) None, docs)).
Proof.
  intros R Hid Hm.
  assert (validate m = nil) as Hv.
  { pose proof (reachable_valid _ _ _ _ R) as V.
    rewrite Forall_forall in V. apply V.
    eapply lookupId_In; eassumption. }
  pose proof (lookupId_id _ _ _ _ _ Hm) as Hidm.
  unfold getMessage, findById. rewrite Hid, Hm.
  split; intros Hr; rewrite Hr; simpl; [| reflexivity].
  unfold saveExisting.
  destruct (Message_eq_dec m (set_readAt (Some now) (set_isRead true m)))
    as [E | _].
  { exfalso. now apply (mark_read_differs now m Hr). }
  rewrite validate_mark_read, Hv. simpl.
  eexists. split.
  { rewrite <- Hidm at 1.
    apply lookupId_replaceId_same with (d := m);
      [rewrite Hidm; exact Hm | reflexivity]. }
  split; [reflexivity |].
  split; [reflexivity |].
  split; [reflexivity |].
  split; [reflexivity |].
  split.
  { unfold sameBut. simpl. repeat split; try reflexivity. discriminate. }
  intros id' Hne.
  apply lookupId_replaceId_other; [reflexivity | congruence].
Qed.

Lemma fetch_marks_message_read_witness :
  reachable (fun _ => true) (fun e => e) (fun _ => true)
    (snd (postMessage (fun _ => true) (fun e => e) 1000 "m1" helloRequest nil)) /\
  lookupId Message _id "m1"
    (snd (postMessage (fun _ => true) (fun e => e) 1000 "m1" helloRequest nil))
  = Some unreadMessage /\
  isRead unreadMessage = false /\
  exists m',
    lookupId Message _id "m1"
      (snd (getMessage (fun _ => true) 2000 "m1"
              (snd (postMessage (fun _ => true) (fun e => e) 1000 "m1"
                      helloRequest nil))))
    = Some m' /\
    isRead m' = true /\ readAt m' = Some 2000 /\ updatedAt m' = 2000 /\
    sameBut true unreadMessage m'.
Proof.
  assert (reachable (fun _ => true) (fun e => e) (fun _ => true)
            (snd (postMessage (fun _ => true) (fun e => e) 1000 "m1"
                    helloRequest nil))) as R
    by (eapply reach_step; [apply reach_empty | apply step_create]).
  assert (lookupId Message _id "m1"
            (snd (postMessage (fun _ => true) (fun e => e) 1000 "m1"
                    helloRequest nil))
          = Some unreadMessage) as L by (vm_compute; reflexivity).
  split; [exact R |].
  split; [exact L |].
  split; [reflexivity |].
  destruct (proj1 (fetch_marks_message_read (fun _ => true) (fun e => e)
                     (fun _ => true) 2000 "m1" _ unreadMessage R eq_refl L)
              eq_refl)
    as (m' & H1 & _ & H3 & H4 & H5 & H6 & _).
  exists m'. repeat split; try assumption; apply H6.
Defined.

(** C8, as stated, fails: the fetch of a stored, unread message also
    changes its [updatedAt] (the schema has [timestamps: true]); here the
    message submitted at time 1000 and fetched at time 2000. *)
Lemma fetch_changes_updatedAt :
  ~ (forall (now : Z) (id : string) (docs : list Message) (m : Message),
        reachable (fun _ => true) (fun e => e) (fun _ => true) docs ->
        lookupId Message _id id docs = Some m ->
        exists m',
          lookupId Message _id id
            (snd (getMessage (fun _ => true) now id docs)) = Some m' /\
          sameBut false m m').
Proof.
  intros H.
  destruct (H 2000 "m1"
              (snd (postMessage (fun _ => true) (fun e => e) 1000 "m1"
                      helloRequest nil))
              unreadMessage)
    as (m' & L & S).
  - eapply reach_step; [apply reach_empty | apply step_create].
  - vm_compute. reflexivity.
  - vm_compute in L. injection L as <-.
    destruct S
      as (_ & _ & _ & _ & _ & _ & _ & _ & _ & _ & _ & _ & _ & _ & _ & S).
    specialize (S eq_refl). discriminate S.
Qed.

End MessageFacts.

(* ------------------------------------------------------------------ *)
(** *** The dashboard *)

Module DashboardFacts.
Import Mongoose MessageModel Dashboard Notions.

(** The Message schema has no path [read]. *)
Lemma message_has_no_read_path (m : Message) : getPath m "read" = None.
Proof. reflexivity. Qed.

Lemma read_filter_matches_nothing textMatch (docs : list Message) :
  find Message getPath textFields textMatch
    (setKey "read" (Eq (VBool false)) nil) docs = nil.
Proof.
  unfold find. induction docs as [|m rest IH]; simpl; [reflexivity |].
  exact IH.
Qed.

(** C10. The overview counts the messages whose path [read] is false; the
    schema's flag is [isRead] and no message has a path [read], so for
    every messages collection the reported number of unread messages is 0,
    while the number of messages whose [isRead] is false can be any
    number. *)
Theorem unread_count_is_always_zero
    (Certificate TeamMember : Type)
    (textMatch : string -> list string -> bool)
    (cats : list Categories.Category) (prods : list Products.Product)
    (certs : list Certificate) (team : list TeamMember)
    (msgs : list Message) :
  (forall m : Message, getPath m "read" = None) /\
  unreadMessagesCount
    (overviewCounts Certificate TeamMember textMatch cats prods certs team msgs)
  = 0%nat /\
  messagesCount
    (overviewCounts Certificate TeamMember textMatch cats prods certs team msgs)
  = List.length msgs /\
  (forall k : nat,
      exists msgs' : list Message,
        MessageRoutes.countWhere (fun m => negb (isRead m)) msgs' = k /\
        unreadMessagesCount
          (overviewCounts Certificate TeamMember textMatch cats prods certs
             team msgs')
        = 0%nat).
Proof.
  split; [exact message_has_no_read_path |].
  split.
  { unfold overviewCounts, countMessages, countDocuments. simpl.
    now rewrite read_filter_matches_nothing. }
  split.
  { unfold overviewCounts, countMessages, countDocuments, find. simpl.
    f_equal. induction msgs as [|m rest IH]; simpl; [reflexivity | now rewrite IH]. }
  intros k. exists (repeat unreadMessage k). split.
  - unfold MessageRoutes.countWhere.
    induction k as [|k IH]; simpl; [reflexivity | now rewrite IH].
  - unfold overviewCounts, countMessages, countDocuments. simpl.
    now rewrite read_filter_matches_nothing.
Qed.

End DashboardFacts.

(* ------------------------------------------------------------------ *)
(** *** Queries: filter, sort, skip, limit *)

Module QueryFacts.
Import JS Mongoose Notions.

Section Collection.
Variable Doc : Type.
Variable getPath : Doc -> string -> option Value.
Variable textFields : Doc -> list string.
Variable createdAt : Doc -> Z.
Variable textMatch : string -> list string -> bool.

Lemma matches_setKey key c f d :
  matches Doc getPath textFields textMatch (setKey key c f) d
  = matches Doc getPath textFields textMatch f d
    && matchesEntry Doc getPath textFields textMatch d (key, c).
Proof.
  unfold matches, setKey. rewrite forallb_app. simpl.
  now rewrite andb_true_r.
Qed.

Lemma find_matches f docs d :
  In d (find Doc getPath textFields textMatch f docs) ->
  In d docs /\ matches Doc getPath textFields textMatch f d = true.
Proof. unfold find. apply filter_In. Qed.

Lemma insertNewest_perm d l :
  Permutation (insertNewest Doc createdAt d l) (d :: l).
Proof.
  induction l as [|x l IH]; simpl; [apply Permutation_refl |].
  destruct (createdAt x <=? createdAt d); [apply Permutation_refl |].
  eapply Permutation_trans; [apply perm_skip, IH | apply perm_swap].
Qed.

(** Sorting rearranges the documents and nothing else. *)
Lemma sortNewestFirst_perm l :
  Permutation (sortNewestFirst Doc createdAt l) l.
Proof.
  induction l as [|x l IH]; simpl; [apply perm_nil |].
  eapply Permutation_trans; [apply insertNewest_perm | now apply perm_skip].
Qed.

Lemma insertNewest_HdRel d l a :
  HdRel (fun x y => createdAt y <= createdAt x) a l ->
  createdAt d <= createdAt a ->
  HdRel (fun x y => createdAt y <= createdAt x) a
    (insertNewest Doc createdAt d l).
Proof.
  intros H Hd. destruct l as [|x l]; simpl.
  - now constructor.
  - destruct (createdAt x <=? createdAt d); constructor;
      [exact Hd | now inversion H].
Qed.

Lemma insertNewest_sorted d l :
  Sorted (fun x y => createdAt y <= createdAt x) l ->
  Sorted (fun x y => createdAt y <= createdAt x)
    (insertNewest Doc createdAt d l).
Proof.
  induction 1 as [| x l Hs IH Hh]; simpl.
  - repeat constructor.
  - destruct (createdAt x <=? createdAt d) eqn:E.
    + apply Z.leb_le in E. constructor; [now constructor |].
      now constructor.
    + apply Z.leb_gt in E. constructor; [exact IH |].
      apply insertNewest_HdRel; [exact Hh | lia].
Qed.

(** The sorted documents are newest first. *)
Lemma sortNewestFirst_sorted l :
  Sorted (fun x y => createdAt y <= createdAt x)
    (sortNewestFirst Doc createdAt l).
Proof.
  induction l as [|x l IH]; simpl; [constructor |].
  now apply insertNewest_sorted.
Qed.

Lemma sortNewestFirst_length l :
  List.length (sortNewestFirst Doc createdAt l) = List.length l.
Proof. apply Permutation_length, sortNewestFirst_perm. Qed.

Lemma applyLimit_positive n l :
  0 < n -> applyLimit Doc n l = firstn (Z.to_nat n) l.
Proof.
  intros H. unfold applyLimit.
  destruct (n =? 0) eqn:E; [apply Z.eqb_eq in E; lia |].
  now rewrite Z.abs_eq by lia.
Qed.

Lemma firstn_incl k (l : list Doc) d : In d (firstn k l) -> In d l.
Proof.
  intros H. rewrite <- (firstn_skipn k l). apply in_or_app. now left.
Qed.

Lemma skipn_incl k (l : list Doc) d : In d (skipn k l) -> In d l.
Proof.
  intros H. rewrite <- (firstn_skipn k l). apply in_or_app. now right.
Qed.

Lemma applyLimit_incl n l d : In d (applyLimit Doc n l) -> In d l.
Proof.
  unfold applyLimit. destruct (n =? 0); [trivial |].
  apply firstn_incl.
Qed.

(** A page holds only documents of the collection that match the
    filter. *)
Lemma findPage_matches f skip limit docs page d :
  findPage Doc getPath textFields createdAt textMatch f skip limit docs
  = Ok page ->
  In d page ->
  In d docs /\ matches Doc getPath textFields textMatch f d = true.
Proof.
  unfold findPage. destruct (skip <? 0); [discriminate |].
  intros H Hd. injection H as <-.
  apply applyLimit_incl, skipn_incl in Hd.
  apply find_matches.
  eapply Permutation_in; [apply sortNewestFirst_perm | exact Hd].
Qed.

Variable beyondSafe : Number -> Number -> option (nat * nat).

(** Within the safe integers the store is asked as with integers. *)
Lemma findPageAt_safe f s l docs :
  isSafeInteger s = true -> isSafeInteger l = true ->
  findPageAt Doc getPath textFields createdAt textMatch beyondSafe f
    (Num s) (Num l) docs
  = findPage Doc getPath textFields createdAt textMatch f s l docs.
Proof. intros Hs Hl. unfold findPageAt. now rewrite Hs, Hl. Qed.

(** A page of the store is a stretch of what the query finds, newest
    first. *)
Lemma findPageAt_slice f skip limit docs page :
  findPageAt Doc getPath textFields createdAt textMatch beyondSafe f
    skip limit docs = Ok page ->
  exists a b,
    page = firstn b
             (skipn a
                (sortNewestFirst Doc createdAt
                   (find Doc getPath textFields textMatch f docs))).
Proof.
  intros F.
  assert (forall s l, findPage Doc getPath textFields createdAt textMatch
                        f s l docs = Ok page ->
                      exists a b,
                        page = firstn b
                                 (skipn a
                                    (sortNewestFirst Doc createdAt
                                       (find Doc getPath textFields
                                          textMatch f docs)))) as P.
  { intros s l. unfold findPage. destruct (s <? 0); [discriminate |].
    intros H. injection H as <-. unfold applyLimit.
    destruct (l =? 0).
    - exists (Z.to_nat s),
        (List.length
           (skipn (Z.to_nat s)
              (sortNewestFirst Doc createdAt
                 (find Doc getPath textFields textMatch f docs)))).
      now rewrite firstn_all.
    - now exists (Z.to_nat s), (Z.to_nat (Z.abs l)). }
  assert (match beyondSafe skip limit with
          | Some (a, b) =>
              Ok (firstn b
                    (skipn a
                       (sortNewestFirst Doc createdAt
                          (find Doc getPath textFields textMatch f docs))))
          | None => Throw serverError
          end = Ok page ->
          exists a b,
            page = firstn b
                     (skipn a
                        (sortNewestFirst Doc createdAt
                           (find Doc getPath textFields textMatch f docs))))
    as B.
  { destruct (beyondSafe skip limit) as [[a b] |]; [| discriminate].
    intros H. injection H as <-. now exists a, b. }
  unfold findPageAt in F. cbv zeta in F.
  destruct skip as [| s |]; [now apply B | | now apply B].
  destruct limit as [| l |]; [now apply B | | now apply B].
  destruct (isSafeInteger s && isSafeInteger l); [| now apply B].
  now apply (P s l).
Qed.

Lemma findPageAt_matches f skip limit docs page d :
  findPageAt Doc getPath textFields createdAt textMatch beyondSafe f
    skip limit docs = Ok page ->
  In d page ->
  In d docs /\ matches Doc getPath textFields textMatch f d = true.
Proof.
  intros F Hd. destruct (findPageAt_slice _ _ _ _ _ F) as (a & b & ->).
  apply firstn_incl, skipn_incl in Hd.
  apply find_matches.
  eapply Permutation_in; [apply sortNewestFirst_perm | exact Hd].
Qed.

End Collection.


Lemma ceiling_unique n n' t l :
  0 < l -> IsCeiling n t l -> IsCeiling n' t l -> n = n'.
Proof. unfold IsCeiling. intros H A B. nia. Qed.

End QueryFacts.

(* ------------------------------------------------------------------ *)
(** *** Numbers *)

Module NumberFacts.
Import JS.

Lemma isSafeInteger_spec z :
  isSafeInteger z = true <-> - 9007199254740992 < z < 9007199254740992.
Proof.
  unfold isSafeInteger. change (2 ^ 53) with 9007199254740992.
  rewrite Z.ltb_lt. lia.
Qed.

(** A safe integer is a double. *)
Lemma toDouble_safe z : isSafeInteger z = true -> toDouble z = Num z.
Proof.
  unfold isSafeInteger, toDouble. intros H. cbv zeta. now rewrite H.
Qed.

(** [(page - 1) * limit] within the safe integers. *)
Lemma skip_safe p l :
  isSafeInteger (p - 1) = true -> isSafeInteger ((p - 1) * l) = true ->
  mul (sub (Num p) (Num 1)) (Num l) = Num ((p - 1) * l).
Proof.
  intros H1 H2. unfold sub. rewrite (toDouble_safe _ H1).
  unfold mul. now rewrite (toDouble_safe _ H2).
Qed.

Lemma safe_pred p l :
  1 <= p -> 0 < l -> isSafeInteger ((p - 1) * l) = true ->
  isSafeInteger (p - 1) = true.
Proof. rewrite !isSafeInteger_spec. nia. Qed.

End NumberFacts.

(* ------------------------------------------------------------------ *)
(** *** The products list *)

Module ProductFacts.
Import JS Mongoose Products Notions QueryFacts NumberFacts.

Section Routes.
Variable validObjectId : string -> bool.
Variable textMatch : string -> list string -> bool.
Variable beyondSafe : Number -> Number -> option (nat * nat).

Local Abbreviation total q docs :=
  (Z.of_nat (List.length (matching validObjectId textMatch q docs))).

Local Abbreviation listProducts :=
  (Products.listProducts validObjectId textMatch beyondSafe).

Local Abbreviation sorted q docs :=
  (sortNewestFirst Product createdAt
     (matching validObjectId textMatch q docs)).

(** The route on a page and a limit within the safe integers. *)
Lemma listProducts_safe q docs p l :
  pageOf q = Num p -> limitOf q = Num l ->
  isSafeInteger (p - 1) = true -> isSafeInteger l = true ->
  isSafeInteger ((p - 1) * l) = true ->
  ((p - 1) * l < 0 /\
   listProducts q docs
   = Http.failure 500 "Server error while fetching products") \/
  (0 <= (p - 1) * l /\
   listProducts q docs
   = Http.mkResponse 200 true None nil
       (Some (pageAt validObjectId textMatch p l q docs))
       (Some (Http.mkPagination (Num p)
                (ceilQuotient (total q docs) (Num l))
                (total q docs) (Num l)))).
Proof.
  intros Hp Hl S1 S2 S3. unfold Products.listProducts. rewrite Hp, Hl.
  cbv zeta. rewrite (skip_safe _ _ S1 S3). unfold findPageAt.
  rewrite S3, S2. cbn [andb]. unfold findPage.
  destruct ((p - 1) * l <? 0) eqn:E.
  - left. apply Z.ltb_lt in E. split; [exact E | reflexivity].
  - right. apply Z.ltb_ge in E. split; [exact E | reflexivity].
Qed.


(** The data that the route returns: a stretch of the matching products,
    newest first. *)
Lemma listProducts_data q docs items :
  Http.data (listProducts q docs) = Some items ->
  exists a b, items = firstn b (skipn a (sorted q docs)).
Proof.
  unfold Products.listProducts. cbv zeta.
  destruct (findPageAt Product getPath textFields createdAt textMatch
              beyondSafe (buildFilter validObjectId q)
              (mul (sub (pageOf q) (Num 1)) (limitOf q)) (limitOf q) docs)
    as [found |] eqn:F; simpl; [| discriminate].
  intros H. injection H as <-.
  now apply (findPageAt_slice _ _ _ _ _ _ _ _ _ _ _ F).
Qed.



Lemma pageItems_at q docs p l :
  pageOf q = Num p -> limitOf q = Num l ->
  pageItems validObjectId textMatch q docs
  = pageAt validObjectId textMatch p l q docs.
Proof. intros Hp Hl. unfold pageItems. now rewrite Hp, Hl. Qed.

Lemma entry_bool_path path (b : bool) (p : Product) (v : bool) :
  getPath p path = Some (VBool v) ->
  matchesEntry Product getPath textFields textMatch p (path, Eq (VBool b)) = true ->
  v = b.
Proof.
  unfold matchesEntry. simpl. intros ->. simpl. apply Bool.eqb_prop.
Qed.

(** A product that matches a request with [inStock] given has the flag
    the parameter asks for: true for the string "true", false for any
    other string. *)
Lemma buildFilter_inStock q v p :
  q_inStock q = Some v ->
  matches Product getPath textFields textMatch
    (buildFilter validObjectId q) p = true ->
  inStock p = String.eqb v "true".
Proof.
  intros Hq. unfold buildFilter. rewrite Hq. cbv zeta.
  destruct (q_search q) as [t |]; [destruct (truthy (Some t)) |];
    rewrite ?(matches_setKey _ _ _ _ "$text"),
            (matches_setKey _ _ _ _ "inStock"), !andb_true_iff;
    intros H; decompose [and] H;
    eapply entry_bool_path; try eassumption; reflexivity.
Qed.

Lemma buildFilter_featured q v p :
  q_featured q = Some v ->
  matches Product getPath textFields textMatch
    (buildFilter validObjectId q) p = true ->
  featured p = String.eqb v "true".
Proof.
  intros Hq. unfold buildFilter. rewrite Hq. cbv zeta.
  destruct (q_search q) as [t |]; [destruct (truthy (Some t)) |];
    destruct (q_inStock q);
    rewrite ?(matches_setKey _ _ _ _ "$text"),
            ?(matches_setKey _ _ _ _ "inStock"),
            (matches_setKey _ _ _ _ "featured"), !andb_true_iff;
    intros H; decompose [and] H;
    eapply entry_bool_path; try eassumption; reflexivity.
Qed.

(** The filter of the route asks for what the request asks for. *)
Lemma matches_wanted q p :
  matches Product getPath textFields textMatch
    (buildFilter validObjectId q) p
  = wanted validObjectId textMatch q p.
Proof.
  unfold buildFilter, wanted, inCategory, keeps, found. cbv zeta.
  destruct (q_category q) as [c |];
    [destruct c as [|c0 c]; cbn [truthy String.eqb negb andb];
     [| destruct (validObjectId (String c0 c))] |];
    (destruct (q_featured q) as [f |]);
    (destruct (q_inStock q) as [i |]);
    (destruct (q_search q) as [t |];
     [destruct t as [|t0 t]; cbn [truthy String.eqb] |]);
    rewrite ?matches_setKey; unfold matches, matchesEntry;
    cbn [forallb fst snd getPath String.eqb Ascii.eqb Bool.eqb Value_eqb
         textFields andb];
    try (destruct (String.eqb f "true"));
    try (destruct (String.eqb i "true"));
    try (destruct (featured p)); try (destruct (inStock p));
    cbn [Bool.eqb negb andb]; rewrite ?andb_true_r; reflexivity.
Qed.

Lemma matching_wanted q docs :
  matching validObjectId textMatch q docs
  = List.filter (wanted validObjectId textMatch q) docs.
Proof.
  unfold matching, find. apply filter_ext. intros p. apply matches_wanted.
Qed.

Lemma wanted_ignores_inStock q b p :
  q_inStock q = None ->
  wanted validObjectId textMatch q (withInStock b p)
  = wanted validObjectId textMatch q p.
Proof.
  intros Hq. unfold wanted, inCategory, found. rewrite Hq.
  destruct (q_category q), (q_search q); reflexivity.
Qed.

Lemma wanted_ignores_featured q b p :
  q_featured q = None ->
  wanted validObjectId textMatch q (withFeatured b p)
  = wanted validObjectId textMatch q p.
Proof.
  intros Hq. unfold wanted, inCategory, found. rewrite Hq.
  destruct (q_category q), (q_search q); reflexivity.
Qed.

Lemma listProducts_items q docs items p :
  Http.data (listProducts q docs) = Some items ->
  In p items ->
  In p docs /\ In p (matching validObjectId textMatch q docs).
Proof.
  intros H Hp.
  destruct (listProducts_data q docs items H) as (a & b & ->).
  apply firstn_incl, skipn_incl in Hp.
  assert (In p (matching validObjectId textMatch q docs)) as M
    by (eapply Permutation_in; [apply sortNewestFirst_perm | exact Hp]).
  split; [| exact M].
  unfold matching in M. now apply find_matches in M.
Qed.

Lemma matching_no_filter q docs :
  q_category q = None -> q_search q = None ->
  q_featured q = None -> q_inStock q = None ->
  matching validObjectId textMatch q docs = docs.
Proof.
  intros H1 H2 H3 H4. unfold matching, buildFilter.
  rewrite H1, H2, H3, H4. cbv zeta. unfold find.
  induction docs as [|d rest IH]; simpl; [reflexivity | now rewrite IH].
Qed.

(** Page 1 with room for the whole collection gives every matching
    product. *)
Lemma listProducts_whole q docs l :
  pageOf q = Num 1 -> limitOf q = Num l ->
  Z.of_nat (List.length docs) <= l -> isSafeInteger l = true ->
  listProducts q docs
  = Http.mkResponse 200 true None nil (Some (sorted q docs))
      (Some (Http.mkPagination (Num 1)
               (ceilQuotient (total q docs) (Num l))
               (total q docs) (Num l))).
Proof.
  intros Hp Hl Hroom Hs.
  destruct (listProducts_safe q docs 1 l Hp Hl eq_refl Hs eq_refl)
    as [[Hneg _] | [_ E]]; [lia |].
  rewrite E. unfold pageAt, applyLimit. cbn [Z.sub Z.mul Z.to_nat skipn].
  replace (Z.to_nat ((1 - 1) * l)) with 0%nat by lia. cbn [skipn].
  assert (List.length (sorted q docs) <= List.length docs)%nat as L.
  { rewrite sortNewestFirst_length. unfold matching, find.
    apply filter_length_le. }
  destruct (l =? 0); [reflexivity |].
  rewrite firstn_all2 by lia. reflexivity.
Qed.

End Routes.

(** C5. The boolean filters of the products list.  Whatever the route
    returns is a stretch of the products that the request asks for,
    newest first, where a request asks for [inStock] true when the
    parameter is "true", for [inStock] false when it is "false", and for
    nothing about [inStock] when the parameter is absent (likewise
    [featured]); so with "true" only products in stock are returned, with
    "false" only products out of stock.  A request for page 1 with room
    for the whole collection is answered 200 with exactly the products
    asked for: with the parameter absent a stored product is returned
    whether it is in stock or not. *)
Theorem products_boolean_filters
    (validObjectId : string -> bool)
    (textMatch : string -> list string -> bool)
    (beyondSafe : Number -> Number -> option (nat * nat))
    (q : ListQuery) (docs : list Product) :
  (forall items,
      Http.data (listProducts validObjectId textMatch beyondSafe q docs)
      = Some items ->
      exists a b,
        items = firstn b
                  (skipn a
                     (sortNewestFirst Product createdAt
                        (List.filter (wanted validObjectId textMatch q)
                           docs)))) /\
  (forall items x,
      Http.data (listProducts validObjectId textMatch beyondSafe q docs)
      = Some items ->
      In x items ->
      In x docs /\
      keeps (q_inStock q) (inStock x) = true /\
      keeps (q_featured q) (featured x) = true) /\
  (forall items x,
      Http.data (listProducts validObjectId textMatch beyondSafe q docs)
      = Some items ->
      In x items ->
      (q_inStock q = Some "true" -> inStock x = true) /\
      (q_inStock q = Some "false" -> inStock x = false) /\
      (q_featured q = Some "true" -> featured x = true) /\
      (q_featured q = Some "false" -> featured x = false)) /\
  (forall l,
      pageOf q = Num 1 -> limitOf q = Num l ->
      Z.of_nat (List.length docs) <= l -> isSafeInteger l = true ->
      Http.status (listProducts validObjectId textMatch beyondSafe q docs)
      = 200%nat /\
      Http.data (listProducts validObjectId textMatch beyondSafe q docs)
      = Some (sortNewestFirst Product createdAt
                (List.filter (wanted validObjectId textMatch q) docs)) /\
      (forall x,
          In x docs ->
          inCategory validObjectId (q_category q) x = true ->
          found textMatch (q_search q) x = true ->
          keeps (q_inStock q) (inStock x) = true ->
          keeps (q_featured q) (featured x) = true ->
          In x (sortNewestFirst Product createdAt
                  (List.filter (wanted validObjectId textMatch q) docs)))) /\
  (q_inStock q = None -> forall b, keeps (q_inStock q) b = true) /\
  (q_featured q = None -> forall b, keeps (q_featured q) b = true).
Proof.
  split.
  { intros items H. rewrite <- matching_wanted.
    now apply (listProducts_data validObjectId textMatch beyondSafe). }
  assert (forall items x,
             Http.data (listProducts validObjectId textMatch beyondSafe q
                          docs) = Some items ->
             In x items ->
             In x docs /\ wanted validObjectId textMatch q x = true) as W.
  { intros items x H Hx.
    destruct (listProducts_items validObjectId textMatch beyondSafe q docs
                items x H Hx) as [Hin Hm].
    split; [exact Hin |]. rewrite matching_wanted in Hm.
    now apply filter_In in Hm. }
  split.
  { intros items x H Hx. destruct (W items x H Hx) as [Hin Hw].
    unfold wanted in Hw. rewrite !andb_true_iff in Hw. tauto. }
  split.
  { intros items x H Hx. destruct (W items x H Hx) as [_ Hw].
    unfold wanted in Hw. rewrite !andb_true_iff in Hw.
    destruct Hw as [[[_ Hf] Hi] _].
    repeat split; intros E; rewrite E in *; simpl in *;
      try assumption; now apply negb_true_iff. }
  split.
  { intros l Hp Hl Hroom Hs.
    rewrite (listProducts_whole validObjectId textMatch beyondSafe q docs l
               Hp Hl Hroom Hs).
    rewrite matching_wanted. split; [reflexivity |].
    split; [reflexivity |].
    intros x Hin Hc Hf Hi Hfe.
    apply (Permutation_in _ (Permutation_sym (sortNewestFirst_perm _ _ _))).
    apply filter_In. split; [exact Hin |].
    unfold wanted. now rewrite Hc, Hf, Hi, Hfe. }
  split; intros E b; rewrite E; reflexivity.
Qed.

Lemma products_boolean_filters_witness :
  Http.data
    (listProducts (fun _ => true) (fun _ _ => true) refusing
       (mkListQuery None None None None None None) (sampleCatalogue 4))
  = Some (sortNewestFirst Product createdAt
            (List.filter
               (wanted (fun _ => true) (fun _ _ => true)
                  (mkListQuery None None None None None None))
               (sampleCatalogue 4))) /\
  map inStock
    (sortNewestFirst Product createdAt
       (List.filter
          (wanted (fun _ => true) (fun _ _ => true)
             (mkListQuery None None None None None None))
          (sampleCatalogue 4)))
  = false :: true :: false :: true :: nil /\
  map inStock
    (sortNewestFirst Product createdAt
       (List.filter
          (wanted (fun _ => true) (fun _ _ => true)
             (mkListQuery None None None None None (Some "true")))
          (sampleCatalogue 4)))
  = true :: true :: nil.
Proof.
  split; [| split; vm_compute; reflexivity].
  exact (proj1 (proj2
           (proj1 (proj2 (proj2 (proj2
              (products_boolean_filters (fun _ => true) (fun _ _ => true)
                 refusing (mkListQuery None None None None None None)
                 (sampleCatalogue 4)))))
              100 eq_refl eq_refl ltac:(vm_compute; discriminate)
              eq_refl))).
Defined.




End ProductFacts.

(* ------------------------------------------------------------------ *)
(** *** Page and limit *)

Module ListParamFacts.
Import JS Validator ListParams Notions NumberFacts.

Lemma isInt_value lo hi s :
  isInt lo hi s = true ->
  (forall l, lo = Some l -> leb (Num l) (parseInt (Some s)) = true) /\
  (forall h, hi = Some h -> leb (parseInt (Some s)) (Num h) = true).
Proof.
  unfold isInt. rewrite !andb_true_iff. intros [_ [Hlo Hhi]]. split.
  - intros l ->. exact Hlo.
  - intros h ->. exact Hhi.
Qed.

Lemma check_nil ok msg : check ok msg = nil -> ok = true.
Proof. destruct ok; [reflexivity | discriminate]. Qed.

(** On the routes with the validators, a request that is not refused has
    a page from 1 on and a limit between 1 and 100, and the defaults
    apply to absent parameters. *)
Lemma validated_bounds d page limit p l :
  1 <= d <= 100 ->
  validated d page limit = Some (p, l) ->
  leb (Num 1) p = true /\
  (exists lz, l = Num lz /\ 1 <= lz <= 100) /\
  (page = None -> p = Num 1) /\ (limit = None -> l = Num d).
Proof.
  intros Hd. unfold validated.
  destruct (pageLimitValidation page limit) eqn:V; [| discriminate].
  unfold pageLimitValidation in V. apply app_eq_nil in V.
  destruct V as [Vp Vl].
  unfold parsePageLimit. intros H. injection H as <- <-.
  assert (leb (Num 1) (orDefault (parseInt page) 1) = true /\
          (page = None -> orDefault (parseInt page) 1 = Num 1)) as [P1 P2].
  { destruct page as [s |]; simpl in Vp.
    - apply check_nil, isInt_value in Vp. destruct Vp as [Hlo _].
      specialize (Hlo 1 eq_refl). split; [| discriminate].
      destruct (parseInt (Some s)) as [| v | []]; try discriminate.
      + simpl in Hlo. apply Z.leb_le in Hlo.
        destruct v; try lia. simpl. now apply Z.leb_le.
      + reflexivity.
    - split; reflexivity. }
  assert ((exists lz, orDefault (parseInt limit) d = Num lz /\
                      1 <= lz <= 100) /\
          (limit = None -> orDefault (parseInt limit) d = Num d))
    as [L1 L2].
  { destruct limit as [s |]; simpl in Vl.
    - apply check_nil, isInt_value in Vl. destruct Vl as [Hlo Hhi].
      specialize (Hlo 1 eq_refl). specialize (Hhi 100 eq_refl).
      split; [| discriminate].
      destruct (parseInt (Some s)) as [| v | []]; try discriminate.
      simpl in Hlo, Hhi. apply Z.leb_le in Hlo. apply Z.leb_le in Hhi.
      exists v. split; [| lia]. destruct v; try lia; reflexivity.
    - split; [| reflexivity]. exists d. split; [| lia].
      unfold parseInt, mathInt. reflexivity. }
  repeat split; assumption.
Qed.

(** The messages list, a route with the validators: a request that is
    not refused has a page from 1 on and a limit between 1 and 100, and
    what it returns is the pagination object of that page and limit. *)
Lemma listMessages_bounds textMatch beyondSafe q docs :
  MessageRoutes.listValidation q = nil ->
  exists page limit,
    messages (MessageRoutes.q_page q) (MessageRoutes.q_limit q)
    = Some (page, Num limit) /\
    leb (Num 1) page = true /\ 1 <= limit <= 100 /\
    forall pg,
      Http.pagination (MessageRoutes.listMessages textMatch beyondSafe q docs)
      = Some pg ->
      Http.current pg = page /\ Http.limit pg = Num limit.
Proof.
  intros V.
  assert (pageLimitValidation (MessageRoutes.q_page q) (MessageRoutes.q_limit q)
          = nil) as V2.
  { unfold MessageRoutes.listValidation in V. unfold pageLimitValidation.
    apply app_eq_nil in V. destruct V as [Vp V].
    apply app_eq_nil in V. destruct V as [Vl _].
    now rewrite Vp, Vl. }
  assert (messages (MessageRoutes.q_page q) (MessageRoutes.q_limit q)
          = Some (orDefault (parseInt (MessageRoutes.q_page q)) 1,
                  orDefault (parseInt (MessageRoutes.q_limit q)) 10)) as E
    by (unfold messages, validated; now rewrite V2).
  destruct (validated_bounds 10 _ _ _ _ ltac:(lia) E)
    as (P & (lz & L & B) & _ & _).
  exists (orDefault (parseInt (MessageRoutes.q_page q)) 1), lz.
  split; [now rewrite E, L |]. split; [exact P |]. split; [exact B |].
  intros pg. unfold MessageRoutes.listMessages. rewrite V. cbv zeta.
  destruct (Mongoose.findPageAt _ _ _ _ _ _ _ _ _ _); simpl;
    [| discriminate].
  intros H. injection H as <-. simpl. now rewrite L.
Qed.

(** C4. The products list runs no validator on page and limit: the
    request [?limit=500] is served with the effective limit 500, a
    catalogue of 150 products comes back whole on one page, and a negative
    page and limit are taken as sent; the list routes of team,
    certificates, categories and messages refuse the same limit. *)
Theorem products_limit_not_capped
    (validObjectId : string -> bool)
    (textMatch : string -> list string -> bool)
    (beyondSafe : Number -> Number -> option (nat * nat))
    (docs : list Products.Product) :
  products None (Some "500") = Some (Num 1, Num 500) /\
  Products.limitOf limit500 = Num 500 /\
  Products.listProducts validObjectId textMatch beyondSafe limit500 docs
  = Http.mkResponse 200 true None nil
      (Some (pageItems validObjectId textMatch limit500 docs))
      (Some (Http.mkPagination (Num 1)
               (Num (ceilDiv (Z.of_nat (List.length docs)) 500))
               (Z.of_nat (List.length docs)) (Num 500))) /\
  List.length (pageItems validObjectId textMatch limit500 (sampleCatalogue 150))
  = 150%nat /\
  products (Some "-2") (Some "-5") = Some (Num (-2), Num (-5)) /\
  team None (Some "500") = None /\
  certificates None (Some "500") = None /\
  categories None (Some "500") = None /\
  messages None (Some "500") = None.
Proof.
  split; [reflexivity |].
  split; [reflexivity |].
  split.
  { destruct (ProductFacts.listProducts_safe validObjectId textMatch
                beyondSafe limit500 docs 1 500 eq_refl eq_refl eq_refl
                eq_refl eq_refl) as [[H _] | [_ E]]; [lia |].
    rewrite E.
    rewrite (ProductFacts.pageItems_at validObjectId textMatch limit500 docs
               1 500 eq_refl eq_refl).
    rewrite (ProductFacts.matching_no_filter validObjectId textMatch
               limit500 docs eq_refl eq_refl eq_refl eq_refl).
    reflexivity. }
  split.
  { rewrite (ProductFacts.pageItems_at validObjectId textMatch limit500 _
               1 500 eq_refl eq_refl).
    unfold pageAt.
    rewrite (ProductFacts.matching_no_filter validObjectId textMatch
               limit500 _ eq_refl eq_refl eq_refl eq_refl).
    vm_compute. reflexivity. }
  repeat split.
Qed.

End ListParamFacts.

(* ------------------------------------------------------------------ *)
(** *** Deleting a category *)

Module CategoryFacts.
Import JS Mongoose Categories Notions StoreFacts JSFacts.

Section Routes.
Variable validObjectId : string -> bool.
Variable textMatch : string -> list string -> bool.

(** The count of the route is the number of referencing products. *)
Lemma productCountOf_referencing id prods :
  productCountOf textMatch id prods = referencing id prods.
Proof.
  unfold productCountOf, referencing, countDocuments, find.
  f_equal. apply filter_ext. intros p.
  unfold matches, setKey, matchesEntry. simpl.
  now rewrite andb_true_r.
Qed.

End Routes.

(** C6. Deleting a stored category that N products reference: when N is
    positive the route answers 400 with a message that contains N in
    decimal and the store is unchanged, the category still there; when N
    is 0 the route answers 200 and the category is removed, the other
    categories and the products staying as they were. *)
Theorem category_delete_guard
    (validObjectId : string -> bool)
    (textMatch : string -> list string -> bool)
    (id : string) (db : DB) (c : Category) :
  validObjectId id = true ->
  lookupId Category _id id (categories db) = Some c ->
  ((0 < referencing id (products db))%nat ->
   exists msg,
     deleteCategory validObjectId textMatch id db = (Http.failure 400 msg, db) /\
     Substring (numberToString (referencing id (products db))) msg /\
     lookupId Category _id id
       (categories (snd (deleteCategory validObjectId textMatch id db)))
     = Some c) /\
  (referencing id (products db) = 0%nat ->
   fst (deleteCategory validObjectId textMatch id db)
   = Http.mkResponse 200 true (Some "Category deleted successfully") nil
       None None /\
   products (snd (deleteCategory validObjectId textMatch id db)) = products db /\
   S (List.length
        (categories (snd (deleteCategory validObjectId textMatch id db))))
   = List.length (categories db) /\
   (forall id', id' <> id ->
      lookupId Category _id id'
        (categories (snd (deleteCategory validObjectId textMatch id db)))
      = lookupId Category _id id' (categories db)) /\
   (NoDup (map _id (categories db)) ->
    lookupId Category _id id
      (categories (snd (deleteCategory validObjectId textMatch id db)))
    = None)).
Proof.
  intros Hid Hc.
  pose proof (lookupId_id _ _ _ _ _ Hc) as Hcid.
  unfold deleteCategory, findById. rewrite Hid, Hc.
  rewrite productCountOf_referencing, Hcid.
  split.
  - intros HN. apply Nat.ltb_lt in HN. rewrite HN.
    eexists. split; [reflexivity |]. split; [| exact Hc].
    exists "Cannot delete category. It has ",
      " products. Please move or delete the products first.".
    reflexivity.
  - intros H0. rewrite H0. simpl.
    split; [reflexivity |].
    split; [reflexivity |].
    split; [eapply removeId_length; eassumption |].
    split; [intros id' Hne; now apply lookupId_removeId_other |].
    apply lookupId_removeId_same.
Qed.

Lemma category_delete_guard_witness :
  referencing "c1" (products (sampleDB 3)) = 3%nat /\
  (exists msg,
      deleteCategory (fun _ => true) (fun _ _ => true) "c1" (sampleDB 3)
      = (Http.failure 400 msg, sampleDB 3) /\
      Substring "3" msg /\
      lookupId Category _id "c1"
        (categories
           (snd (deleteCategory (fun _ => true) (fun _ _ => true) "c1"
                   (sampleDB 3))))
      = Some (mkCategory "c1" "Herbs" true 0 0)) /\
  fst (deleteCategory (fun _ => true) (fun _ _ => true) "c1" (sampleDB 0))
  = Http.mkResponse 200 true (Some "Category deleted successfully") nil
      None None.
Proof.
  split; [reflexivity |].
  split.
  - apply (proj1 (category_delete_guard (fun _ => true) (fun _ _ => true)
                    "c1" (sampleDB 3)
                    (mkCategory "c1" "Herbs" true 0 0) eq_refl eq_refl)).
    vm_compute. lia.
  - exact (proj1 (proj2 (category_delete_guard (fun _ => true)
                           (fun _ _ => true) "c1" (sampleDB 0)
                           (mkCategory "c1" "Herbs" true 0 0) eq_refl eq_refl)
                    eq_refl)).
Defined.

End CategoryFacts.

(* ------------------------------------------------------------------ *)
(** *** Splitting and joining *)

Module JSArrayFacts.
Import JS JSArray MoreNotions.

Lemma append_assoc (a b c : string) : (a ++ b) ++ c = a ++ b ++ c.
Proof. induction a as [|x a IH]; simpl; [reflexivity | now rewrite IH]. Qed.

Lemma append_nil_r (a : string) : a ++ "" = a.
Proof. induction a as [|x a IH]; simpl; [reflexivity | now rewrite IH]. Qed.

Lemma hasChar_app c a b : hasChar c (a ++ b) = hasChar c a || hasChar c b.
Proof.
  induction a as [|x a IH]; simpl; [reflexivity |].
  now rewrite IH, orb_assoc.
Qed.

Lemma split_not_nil sep s : split sep s <> nil.
Proof.
  destruct s as [|c s]; simpl; [discriminate |].
  destruct (Ascii.eqb c sep); [discriminate |].
  destruct (split sep s); discriminate.
Qed.

Lemma split_cons_other sep c s :
  Ascii.eqb c sep = false ->
  split sep (String c s)
  = String c (hd EmptyString (split sep s)) :: tl (split sep s).
Proof.
  intros E. simpl. rewrite E.
  destruct (split sep s) eqn:S; [now apply split_not_nil in S | reflexivity].
Qed.

Lemma split_no_sep sep s :
  hasChar sep s = false -> split sep s = s :: nil.
Proof.
  induction s as [|c s IH]; simpl; [reflexivity |].
  intros H. apply orb_false_iff in H. destruct H as [E H].
  rewrite E, (IH H). reflexivity.
Qed.

(** Splitting distributes over a separator in the middle. *)
Lemma split_app sep a b :
  split sep (a ++ String sep b) = (split sep a ++ split sep b)%list.
Proof.
  induction a as [|c a IH].
  - simpl. now rewrite Ascii.eqb_refl.
  - change ((String c a) ++ String sep b) with (String c (a ++ String sep b)).
    destruct (Ascii.eqb c sep) eqn:E.
    + simpl. rewrite E, IH. reflexivity.
    + rewrite !split_cons_other by exact E. rewrite IH.
      destruct (split sep a) eqn:S; [now apply split_not_nil in S |].
      reflexivity.
Qed.

Lemma join_cons sep p q rest :
  join sep (p :: q :: rest) = p ++ sep ++ join sep (q :: rest).
Proof. reflexivity. Qed.

Lemma join_snoc sep l x :
  l <> nil -> join sep (l ++ x :: nil)%list = join sep l ++ sep ++ x.
Proof.
  induction l as [|p l IH]; [congruence |]. intros _.
  destruct l as [|q l]; [reflexivity |].
  change ((p :: q :: l) ++ x :: nil)%list with (p :: q :: (l ++ x :: nil))%list.
  rewrite join_cons.
  change (q :: (l ++ x :: nil))%list with ((q :: l) ++ x :: nil)%list.
  rewrite IH by discriminate.
  rewrite join_cons.
  now rewrite !append_assoc.
Qed.

(** Joining and splitting again gives the parts back, when no part holds
    the separator. *)
Lemma split_join sep l :
  l <> nil ->
  Forall (fun p => hasChar sep p = false) l ->
  split sep (join (String sep EmptyString) l) = l.
Proof.
  induction l as [|p l IH]; [congruence |]. intros _ H.
  inversion H as [|? ? Hp Hl]; subst.
  destruct l as [|q l]; [now apply split_no_sep |].
  rewrite join_cons.
  change (p ++ String sep EmptyString ++ join (String sep EmptyString) (q :: l))
    with (p ++ String sep (join (String sep EmptyString) (q :: l))).
  rewrite split_app, (split_no_sep _ _ Hp), IH by (discriminate || assumption).
  reflexivity.
Qed.

Lemma split_parts_no_sep sep s :
  Forall (fun p => hasChar sep p = false) (split sep s).
Proof.
  induction s as [|c s IH]; simpl; [repeat constructor |].
  destruct (Ascii.eqb c sep) eqn:E; [constructor; [reflexivity | exact IH] |].
  destruct (split sep s) as [|h t]; [repeat constructor; simpl; now rewrite E |].
  inversion IH; subst. constructor; [simpl; now rewrite E | assumption].
Qed.

(** A part of a split has no character the whole string lacks. *)
Lemma split_parts_lack c sep s :
  hasChar c s = false ->
  Forall (fun p => hasChar c p = false) (split sep s).
Proof.
  induction s as [|d s IH]; simpl; [repeat constructor |].
  intros H. apply orb_false_iff in H. destruct H as [E H].
  specialize (IH H).
  destruct (Ascii.eqb d sep); [constructor; [reflexivity | exact IH] |].
  destruct (split sep s) as [|h t]; [repeat constructor; simpl; now rewrite E |].
  inversion IH; subst. constructor; [simpl; now rewrite E | assumption].
Qed.

Lemma indexOf_first x pre rest :
  ~ In x pre ->
  indexOf x (pre ++ x :: rest) = Z.of_nat (List.length pre).
Proof.
  induction pre as [|p pre IH]; intros H.
  - simpl. now rewrite String.eqb_refl.
  - simpl in H. cbn [app indexOf].
    assert (String.eqb p x = false) as -> by (apply String.eqb_neq; tauto).
    rewrite IH by tauto.
    destruct (Z.of_nat (List.length pre) <? 0) eqn:E;
      [apply Z.ltb_lt in E; lia |].
    cbn [List.length]. lia.
Qed.

Lemma indexOf_range x l :
  -1 <= indexOf x l < Z.of_nat (List.length l).
Proof.
  induction l as [|p l IH]; simpl; [lia |].
  destruct (String.eqb p x); [lia |].
  destruct (indexOf x l <? 0) eqn:E; lia.
Qed.

Lemma at_last l x :
  at_ (Z.of_nat (List.length (l ++ x :: nil)) - 1) (l ++ x :: nil) = x.
Proof.
  unfold at_. rewrite length_app. simpl.
  replace (Z.to_nat (Z.of_nat (List.length l + 1) - 1)) with (List.length l)
    by lia.
  now rewrite nth_middle.
Qed.

Lemma at_last_is_last l :
  l <> nil -> at_ (Z.of_nat (List.length l) - 1) l = last l EmptyString.
Proof.
  intros H. destruct (exists_last H) as (l' & x & ->).
  now rewrite at_last, last_last.
Qed.

(** [parts.slice(k, -1)] of an array that has [k] items, then a middle,
    then one last item, is the middle. *)
Lemma slice_middle (pre mid : list string) x :
  slice (Z.of_nat (List.length pre)) (-1) (pre ++ mid ++ x :: nil) = mid.
Proof.
  unfold slice. rewrite !length_app. cbn [List.length].
  set (n := List.length pre). set (m := List.length mid).
  assert ((Z.of_nat n <? 0) = false) as -> by (apply Z.ltb_ge; lia).
  assert ((-1 <? 0) = true) as -> by reflexivity.
  rewrite Z.min_l by lia. rewrite Z.max_l by lia.
  replace (Z.to_nat (Z.of_nat n)) with n by lia.
  replace (Z.to_nat (Z.of_nat (n + (m + 1)) + -1 - Z.of_nat n)) with m by lia.
  subst n. rewrite skipn_app, skipn_all, Nat.sub_diag. simpl.
  subst m. rewrite firstn_app, firstn_all, Nat.sub_diag. simpl.
  now rewrite app_nil_r.
Qed.

End JSArrayFacts.

(* ------------------------------------------------------------------ *)
(** *** The public id of an asset URL *)

Module CloudinaryFacts.
Import JS JSArray Cloudinary MoreNotions JSArrayFacts.

Lemma at_0_hd l : at_ 0 l = hd EmptyString l.
Proof. destruct l; reflexivity. Qed.

Lemma hd_Forall (P : string -> Prop) l :
  l <> nil -> Forall P l -> P (hd EmptyString l).
Proof. destruct l; [congruence |]. intros _ H. now inversion H. Qed.

Lemma last_Forall (P : string -> Prop) l :
  l <> nil -> Forall P l -> P (last l EmptyString).
Proof.
  intros N H. destruct (exists_last N) as (l' & x & ->).
  rewrite last_last. apply Forall_app in H. destruct H as [_ H].
  now inversion H.
Qed.

(** The stem of a file name: what comes before its first dot. *)
Lemma stem_lacks_dot_and_slash f :
  hasChar "/" f = false ->
  hasChar "." (at_ 0 (split "." f)) = false /\
  hasChar "/" (at_ 0 (split "." f)) = false.
Proof.
  intros H. rewrite at_0_hd. split.
  - apply (hd_Forall (fun p => hasChar "." p = false));
      [apply split_not_nil | apply split_parts_no_sep].
  - apply (hd_Forall (fun p => hasChar "/" p = false));
      [apply split_not_nil | now apply split_parts_lack].
Qed.

Lemma truthy_nonempty u : u <> EmptyString -> truthy (Some u) = true.
Proof. destruct u; [congruence | reflexivity]. Qed.

(** The public id of the URL of an uploaded asset is the path from the
    storage root [herbs-dashboard] to the file, without the extension: for
    a URL whose path is any segments before the root, the root, the
    folders and the file [name.ext], the result is
    [herbs-dashboard/folders/name].  Everything after the first dot of the
    file name counts as extension. *)
Theorem extractPublicId_of_upload_url
    (pre folders : list string) (name ext : string) :
  Forall (fun p => hasChar "/" p = false) pre ->
  ~ In "herbs-dashboard" pre ->
  Forall (fun p => hasChar "/" p = false) folders ->
  hasChar "/" name = false ->
  hasChar "." name = false ->
  hasChar "/" ext = false ->
  extractPublicId
    (Some (join "/" (pre ++ "herbs-dashboard" :: folders
                       ++ (name ++ "." ++ ext) :: nil)))
  = Some (join "/" ("herbs-dashboard" :: folders ++ name :: nil)).
Proof.
  intros Hpre Hroot Hfol Hn1 Hn2 He.
  set (file := name ++ "." ++ ext).
  set (parts := (pre ++ "herbs-dashboard" :: folders ++ file :: nil)%list).
  assert (hasChar "/" file = false) as Hfile.
  { unfold file. rewrite !hasChar_app, Hn1, He. reflexivity. }
  assert (split "/" (join "/" parts) = parts) as Hsplit.
  { apply split_join.
    - unfold parts. destruct pre; discriminate.
    - unfold parts. apply Forall_app. split; [exact Hpre |].
      constructor; [reflexivity |].
      apply Forall_app. split; [exact Hfol |].
      constructor; [exact Hfile | constructor]. }
  assert (join "/" parts <> EmptyString) as Hne.
  { intros E. rewrite E in Hsplit. simpl in Hsplit.
    apply (f_equal (@List.length string)) in Hsplit.
    unfold parts in Hsplit. rewrite !length_app in Hsplit.
    simpl in Hsplit. rewrite length_app in Hsplit. simpl in Hsplit. lia. }
  unfold extractPublicId. rewrite (truthy_nonempty _ Hne). cbv zeta.
  cbn [negb]. rewrite Hsplit.
  assert (parts = ((pre ++ "herbs-dashboard" :: folders) ++ file :: nil)%list)
    as Hparts by (unfold parts; now rewrite <- app_assoc).
  assert (at_ (Z.of_nat (List.length parts) - 1) parts = file) as ->
    by (rewrite Hparts; apply at_last).
  assert (at_ 0 (split "." file) = name) as ->.
  { unfold file. change (name ++ "." ++ ext) with (name ++ String "." ext).
    rewrite split_app, (split_no_sep _ _ Hn2). reflexivity. }
  assert (indexOf "herbs-dashboard" parts = Z.of_nat (List.length pre)) as ->
    by (unfold parts; now apply indexOf_first).
  assert (Z.of_nat (List.length parts)
          = Z.of_nat (List.length pre) + 1 + Z.of_nat (List.length folders) + 1)
    as Hlen.
  { unfold parts. rewrite length_app. cbn [List.length].
    rewrite length_app. cbn [List.length]. lia. }
  assert ((Z.of_nat (List.length pre) =? -1) = false) as ->
    by (apply Z.eqb_neq; lia).
  assert ((Z.of_nat (List.length pre) <? Z.of_nat (List.length parts) - 1)
          = true) as -> by (apply Z.ltb_lt; lia).
  cbn [negb andb].
  assert (slice (Z.of_nat (List.length pre)) (-1) parts
          = "herbs-dashboard" :: folders) as ->.
  { unfold parts.
    change (pre ++ "herbs-dashboard" :: folders ++ file :: nil)%list
      with (pre ++ ("herbs-dashboard" :: folders) ++ file :: nil)%list.
    apply slice_middle. }
  change ("herbs-dashboard" :: folders ++ name :: nil)%list
    with (("herbs-dashboard" :: folders) ++ name :: nil)%list.
  now rewrite join_snoc by discriminate.
Qed.

Lemma extractPublicId_of_upload_url_witness :
  extractPublicId
    (Some "https://res.cloudinary.com/demo/image/upload/v17/herbs-dashboard/products/thyme.final.jpg")
  = Some "herbs-dashboard/products/thyme".
Proof.
  exact (extractPublicId_of_upload_url
           ("https:" :: "" :: "res.cloudinary.com" :: "demo" :: "image"
            :: "upload" :: "v17" :: nil)
           ("products" :: nil) "thyme" "final.jpg"
           ltac:(repeat constructor)
           ltac:(simpl; intuition discriminate)
           ltac:(repeat constructor)
           eq_refl eq_refl eq_refl).
Defined.

(** [extractPublicId] answers [null] exactly for a missing or empty URL;
    for any other URL the last segment of the result is the stem of the
    last segment of the URL, up to its first dot, so the result never ends
    in a file extension. *)
Theorem extractPublicId_drops_extension (u : string) :
  extractPublicId None = None /\
  extractPublicId (Some EmptyString) = None /\
  (u <> EmptyString ->
   exists id,
     extractPublicId (Some u) = Some id /\
     lastSegment "/" id = at_ 0 (split "." (lastSegment "/" u)) /\
     hasChar "." (lastSegment "/" id) = false).
Proof.
  split; [reflexivity |]. split; [reflexivity |].
  intros Hne. unfold extractPublicId. rewrite (truthy_nonempty _ Hne).
  cbv zeta. cbn [negb].
  rewrite (at_last_is_last _ (split_not_nil "/" u)).
  fold (lastSegment "/" u).
  assert (hasChar "/" (lastSegment "/" u) = false) as Hf.
  { unfold lastSegment.
    apply (last_Forall (fun p => hasChar "/" p = false));
      [apply split_not_nil | apply split_parts_no_sep]. }
  destruct (stem_lacks_dot_and_slash _ Hf) as [Hdot Hslash].
  set (pid := at_ 0 (split "." (lastSegment "/" u))) in *.
  destruct (negb (indexOf "herbs-dashboard" (split "/" u) =? -1)
            && (indexOf "herbs-dashboard" (split "/" u)
                <? Z.of_nat (List.length (split "/" u)) - 1)).
  - eexists. split; [reflexivity |].
    assert (lastSegment "/"
              (join "/" (slice (indexOf "herbs-dashboard" (split "/" u)) (-1)
                           (split "/" u)) ++ "/" ++ pid) = pid) as E.
    { unfold lastSegment.
      change (?a ++ "/" ++ pid) with (a ++ String "/" pid).
      rewrite split_app, (split_no_sep _ _ Hslash). apply last_last. }
    rewrite E. split; [reflexivity | exact Hdot].
  - exists pid. split; [reflexivity |].
    assert (lastSegment "/" pid = pid) as E
      by (unfold lastSegment; now rewrite (split_no_sep _ _ Hslash)).
    rewrite E. split; [reflexivity | exact Hdot].
Qed.

Lemma extractPublicId_drops_extension_witness :
  exists id,
    extractPublicId (Some "https://cdn.example.com/img/photo.final.png")
    = Some id /\
    lastSegment "/" id = "photo" /\
    hasChar "." (lastSegment "/" id) = false.
Proof.
  destruct (proj2 (proj2 (extractPublicId_drops_extension
                            "https://cdn.example.com/img/photo.final.png"))
              ltac:(discriminate))
    as (id & E & L & D).
  exists id. split; [exact E |]. split; [| exact D].
  rewrite L. reflexivity.
Defined.

End CloudinaryFacts.

(* ------------------------------------------------------------------ *)
(** *** The activity feed of the dashboard *)

Module DashboardFeedFacts.
Import JS JSArray Mongoose DashboardFeed QueryFacts.

(** The unit [getTimeAgo] reports follows the age in milliseconds: below
    one hour (a date in the future included) minutes, fewer than 60; from
    one hour to below one day hours, from 1 to 23; from one day on days;
    each time the age divided by the unit, rounded down. *)
Theorem getTimeAgo_units (now date : Z) :
  (now - date < 3600000 ->
   getTimeAgo now date
   = intToString ((now - date) / 60000) ++ " minutes ago" /\
   (now - date) / 60000 < 60) /\
  (3600000 <= now - date < 86400000 ->
   getTimeAgo now date
   = intToString ((now - date) / 3600000) ++ " hours ago" /\
   1 <= (now - date) / 3600000 < 24) /\
  (86400000 <= now - date ->
   getTimeAgo now date
   = intToString ((now - date) / 86400000) ++ " days ago" /\
   1 <= (now - date) / 86400000).
Proof.
  unfold getTimeAgo. cbv zeta.
  change (1000 * 60 * 60 * 24) with 86400000.
  change (1000 * 60 * 60) with 3600000.
  change (1000 * 60) with 60000.
  set (d := now - date).
  pose proof (Z.div_mod d 60000 ltac:(lia)) as M1.
  pose proof (Z.mod_pos_bound d 60000 ltac:(lia)) as B1.
  pose proof (Z.div_mod d 3600000 ltac:(lia)) as M2.
  pose proof (Z.mod_pos_bound d 3600000 ltac:(lia)) as B2.
  pose proof (Z.div_mod d 86400000 ltac:(lia)) as M3.
  pose proof (Z.mod_pos_bound d 86400000 ltac:(lia)) as B3.
  repeat split.
  - assert ((d / 60000 <? 60) = true) as -> by (apply Z.ltb_lt; lia).
    reflexivity.
  - lia.
  - assert ((d / 60000 <? 60) = false) as -> by (apply Z.ltb_ge; lia).
    assert ((d / 3600000 <? 24) = true) as -> by (apply Z.ltb_lt; lia).
    reflexivity.
  - lia.
  - lia.
  - assert ((d / 60000 <? 60) = false) as -> by (apply Z.ltb_ge; lia).
    assert ((d / 3600000 <? 24) = false) as -> by (apply Z.ltb_ge; lia).
    reflexivity.
  - lia.
Qed.

Lemma getTimeAgo_units_witness :
  getTimeAgo 7200000 0 = "2 hours ago" /\
  getTimeAgo 0 300000 = "-5 minutes ago".
Proof.
  split.
  - rewrite (proj1 (proj1 (proj2 (getTimeAgo_units 7200000 0))
                      ltac:(lia))).
    reflexivity.
  - rewrite (proj1 (proj1 (getTimeAgo_units 0 300000) ltac:(lia))).
    reflexivity.
Defined.

Lemma slice_0 {A : Type} (k : Z) (l : list A) :
  0 <= k -> slice 0 k l = firstn (Z.to_nat k) l.
Proof.
  intros H. unfold slice.
  assert ((0 <? 0) = false) as -> by reflexivity.
  assert ((k <? 0) = false) as -> by (apply Z.ltb_ge; lia).
  rewrite (Z.min_l 0) by lia. simpl skipn. rewrite Z.sub_0_r.
  destruct (Z.le_gt_cases k (Z.of_nat (List.length l))).
  - now rewrite Z.min_l by lia.
  - rewrite Z.min_r by lia. rewrite Nat2Z.id.
    rewrite firstn_all. symmetry. apply firstn_all2. lia.
Qed.

Section Recent.
Variable Doc : Type.
Variable docId : Doc -> string.
Variable docName : Doc -> string.
Variable createdAt : Doc -> Z.

Lemma recent_length now k kind describe docs :
  0 < k ->
  List.length (recent Doc docId docName createdAt now k kind describe docs)
  = Nat.min (Z.to_nat k) (List.length docs).
Proof.
  intros H. unfold recent.
  rewrite length_map, applyLimit_positive by exact H.
  now rewrite length_firstn, sortNewestFirst_length.
Qed.

Lemma sorted_head_newest (l : list Doc) x rest d :
  sortNewestFirst Doc createdAt l = x :: rest ->
  In d l -> createdAt d <= createdAt x.
Proof.
  intros E Hd.
  pose proof (sortNewestFirst_sorted Doc createdAt l) as S.
  assert (In d (sortNewestFirst Doc createdAt l)) as Hin
    by (eapply Permutation_in;
        [apply Permutation_sym, sortNewestFirst_perm | exact Hd]).
  rewrite E in S, Hin.
  apply Sorted_StronglySorted in S; [| intros a b c; lia].
  inversion S as [| ? ? _ Hall]; subst.
  destruct Hin as [<- | Hin]; [lia |].
  rewrite Forall_forall in Hall. now apply Hall.
Qed.

(** The newest document of a collection that is not empty is among its
    recent activities. *)
Lemma recent_has_newest now k kind describe docs d :
  0 < k -> In d docs ->
  exists a,
    In a (recent Doc docId docName createdAt now k kind describe docs) /\
    createdAt d <= a_timestamp a.
Proof.
  intros Hk Hd. unfold recent. rewrite applyLimit_positive by exact Hk.
  destruct (sortNewestFirst Doc createdAt docs) as [|x rest] eqn:E.
  { apply (f_equal (@List.length Doc)) in E.
    rewrite sortNewestFirst_length in E. destruct docs; [destruct Hd |].
    discriminate. }
  destruct (Z.to_nat k) as [|n] eqn:K; [lia |].
  eexists. split; [simpl; left; reflexivity |].
  simpl. eapply sorted_head_newest; eassumption.
Qed.

End Recent.

Lemma firstn_Sorted {A : Type} (R : A -> A -> Prop) n l :
  Sorted R l -> Sorted R (firstn n l).
Proof.
  revert l. induction n as [|n IH]; intros l S; simpl; [constructor |].
  destruct l as [|x l]; [constructor |].
  inversion S as [| ? ? S' H]; subst.
  constructor; [now apply IH |].
  destruct n; simpl; [constructor |].
  destruct l; [constructor |]. inversion H; subst. now constructor.
Qed.

(** The feed has at most eight entries: the three newest categories, the
    three newest products and the two newest certificates, team members
    and messages compete for them. *)
Theorem feed_length (now : Z) (db : DB) :
  List.length (sortedActivities now db)
  = Nat.min 8
      (Nat.min 3 (List.length (categories db))
       + Nat.min 3 (List.length (products db))
       + Nat.min 2 (List.length (certificates db))
       + Nat.min 2 (List.length (team db))
       + Nat.min 2 (List.length (messages db)))%nat /\
  (List.length (sortedActivities now db) <= 8)%nat.
Proof.
  assert (List.length (sortedActivities now db)
          = Nat.min 8
              (Nat.min 3 (List.length (categories db))
               + Nat.min 3 (List.length (products db))
               + Nat.min 2 (List.length (certificates db))
               + Nat.min 2 (List.length (team db))
               + Nat.min 2 (List.length (messages db)))%nat) as E.
  { unfold sortedActivities, ranked. rewrite length_map.
    rewrite slice_0 by lia. rewrite length_firstn, sortNewestFirst_length.
    unfold recentActivities. rewrite !length_app.
    rewrite !recent_length by lia.
    change (Z.to_nat 3) with 3%nat. change (Z.to_nat 2) with 2%nat.
    change (Z.to_nat 8) with 8%nat. lia. }
  split; [exact E | rewrite E; lia].
Qed.

(** The feed is newest first, and its first entry is at least as new as
    every document of the five collections. *)
Theorem feed_newest_first (now : Z) (db : DB) :
  Sorted (fun a b => a_timestamp b <= a_timestamp a) (ranked now db) /\
  (forall t,
      (exists c, In c (categories db) /\ Categories.createdAt c = t) \/
      (exists p, In p (products db) /\ Products.createdAt p = t) \/
      (exists c, In c (certificates db) /\ CertificateModel.createdAt c = t) \/
      (exists m, In m (team db) /\ TeamMemberModel.createdAt m = t) \/
      (exists m, In m (messages db) /\ MessageModel.createdAt m = t) ->
      exists a rest, ranked now db = a :: rest /\ t <= a_timestamp a).
Proof.
  split.
  { unfold ranked. rewrite slice_0 by lia.
    apply firstn_Sorted, sortNewestFirst_sorted. }
  intros t H.
  assert (exists a, In a (recentActivities now db) /\ t <= a_timestamp a)
    as (a & Ha & Ht).
  { unfold recentActivities.
    destruct H as [(c & Hc & <-) | [(p & Hp & <-) | [(c & Hc & <-)
                  | [(m & Hm & <-) | (m & Hm & <-)]]]].
    - destruct (recent_has_newest _ Categories._id Categories.name
                  Categories.createdAt now 3 "category"
                  (fun n => quoted "New category " n " was added")
                  _ _ ltac:(lia) Hc) as (a & Ha & Hle).
      exists a. split; [| exact Hle]. apply in_or_app. now left.
    - destruct (recent_has_newest _ Products._id Products.name
                  Products.createdAt now 3 "product"
                  (fun n => quoted "New product " n " was added")
                  _ _ ltac:(lia) Hp) as (a & Ha & Hle).
      exists a. split; [| exact Hle].
      apply in_or_app. right. apply in_or_app. now left.
    - destruct (recent_has_newest _ CertificateModel._id CertificateModel.name
                  CertificateModel.createdAt now 2 "certificate"
                  (fun n => quoted "Certificate " n " was updated")
                  _ _ ltac:(lia) Hc) as (a & Ha & Hle).
      exists a. split; [| exact Hle].
      do 2 (apply in_or_app; right). apply in_or_app. now left.
    - destruct (recent_has_newest _ TeamMemberModel._id TeamMemberModel.name
                  TeamMemberModel.createdAt now 2 "team"
                  (fun n => quoted "New team member " n " was added")
                  _ _ ltac:(lia) Hm) as (a & Ha & Hle).
      exists a. split; [| exact Hle].
      do 3 (apply in_or_app; right). apply in_or_app. now left.
    - destruct (recent_has_newest _ MessageModel._id MessageModel.name
                  MessageModel.createdAt now 2 "message"
                  (fun n => quoted "New contact message from " n "")
                  _ _ ltac:(lia) Hm) as (a & Ha & Hle).
      exists a. split; [| exact Hle].
      do 4 (apply in_or_app; right). exact Ha. }
  unfold ranked. rewrite slice_0 by lia.
  destruct (sortNewestFirst RawActivity a_timestamp (recentActivities now db))
    as [|x rest] eqn:E.
  { apply (f_equal (@List.length RawActivity)) in E.
    rewrite sortNewestFirst_length in E.
    destruct (recentActivities now db); [destruct Ha | discriminate]. }
  exists x, (firstn 7 rest). split; [reflexivity |].
  pose proof (sorted_head_newest RawActivity a_timestamp _ _ _ _ E Ha). lia.
Qed.

Lemma feed_newest_first_witness :
  exists a rest,
    ranked 5000
      (mkDB nil (Notions.sampleCatalogue 5) nil nil
         (Notions.unreadMessage :: nil))
    = a :: rest /\
    1000 <= a_timestamp a.
Proof.
  apply (proj2 (feed_newest_first 5000
                  (mkDB nil (Notions.sampleCatalogue 5) nil nil
                     (Notions.unreadMessage :: nil)))).
  right. right. right. right.
  exists Notions.unreadMessage. split; [left; reflexivity | reflexivity].
Defined.

End DashboardFeedFacts.

(* ------------------------------------------------------------------ *)
(** *** More on collections *)

Module StoreFacts2.
Import Mongoose.

Section Collection.
Variable Doc : Type.
Variable docId : Doc -> string.

Lemma removeId_Forall (P : Doc -> Prop) id docs :
  Forall P docs -> Forall P (removeId Doc docId id docs).
Proof.
  induction 1 as [|x rest Hx Hrest IH]; simpl; [constructor |].
  destruct (String.eqb (docId x) id); [assumption | now constructor].
Qed.

(** A document appended under a fresh identifier is found by it, and
    removing it gives the collection back. *)
Lemma lookupId_appended id d docs :
  docId d = id -> ~ In id (map docId docs) ->
  lookupId Doc docId id (docs ++ d :: nil) = Some d.
Proof.
  unfold lookupId. intros Hd Hn.
  induction docs as [|x rest IH]; simpl in *.
  - now rewrite Hd, String.eqb_refl.
  - assert (String.eqb (docId x) id = false) as ->
      by (apply String.eqb_neq; tauto).
    apply IH. tauto.
Qed.

Lemma removeId_appended id d docs :
  docId d = id -> ~ In id (map docId docs) ->
  removeId Doc docId id (docs ++ d :: nil) = docs.
Proof.
  intros Hd Hn. induction docs as [|x rest IH]; simpl in *.
  - now rewrite Hd, String.eqb_refl.
  - assert (String.eqb (docId x) id = false) as ->
      by (apply String.eqb_neq; tauto).
    rewrite IH by tauto. reflexivity.
Qed.

Lemma lookupId_appended_other id' d docs :
  docId d <> id' ->
  lookupId Doc docId id' (docs ++ d :: nil) = lookupId Doc docId id' docs.
Proof.
  unfold lookupId. intros Hd.
  induction docs as [|x rest IH]; simpl.
  - now apply String.eqb_neq in Hd as ->.
  - destruct (String.eqb (docId x) id'); [reflexivity | exact IH].
Qed.

End Collection.

End StoreFacts2.

(* ------------------------------------------------------------------ *)
(** *** The contact routes *)

Module ContactFacts.
Import JS Validator Mongoose ContactModel ContactRoutes StoreFacts StoreFacts2.
Import ListParamFacts.

(** The excluded types are written in lower case. *)
Lemma excluded_lower x :
  arrayIncludes getExcludedTypes x = true -> toLowerCase x = x.
Proof.
  unfold arrayIncludes. intros H. apply existsb_exists in H.
  destruct H as (y & Hy & E). apply String.eqb_eq in E. subst y.
  simpl in Hy.
  repeat (destruct Hy as [<- | Hy]; [reflexivity |]). destruct Hy.
Qed.

(** A type that is not excluded once lowered is not excluded as
    written. *)
Lemma lowered_ok_exact x :
  arrayIncludes getExcludedTypes (toLowerCase x) = false ->
  arrayIncludes getExcludedTypes x = false.
Proof.
  intros H. destruct (arrayIncludes getExcludedTypes x) eqn:E; [| reflexivity].
  now rewrite (excluded_lower _ E), E in H.
Qed.

Lemma validate_type c :
  validate c = nil ->
  arrayIncludes getExcludedTypes (toLowerCase (type c)) = false.
Proof.
  unfold validate. intros H.
  apply app_eq_nil in H. destruct H as [_ H].
  apply app_eq_nil in H. destruct H as [_ H].
  apply app_eq_nil in H. destruct H as [H _].
  unfold typeValidator in H.
  destruct (arrayIncludes getExcludedTypes (toLowerCase (type c)));
    [discriminate | reflexivity].
Qed.

Lemma contact_saveNew_cases now c docs docs' saved :
  saveNew now c docs = Ok (docs', saved) ->
  validate c = nil /\ saved = stamp now now c /\
  docs' = (docs ++ saved :: nil)%list.
Proof.
  unfold saveNew. destruct (validate c) eqn:V; [| discriminate].
  intros H. injection H as <- <-. repeat split.
Qed.

Lemma contact_saveExisting_cases now old new docs docs' saved :
  saveExisting now old new docs = Ok (docs', saved) ->
  (old = new /\ docs' = docs /\ saved = new) \/
  (old <> new /\ validate new = nil /\
   saved = stamp (createdAt new) now new /\
   docs' = replaceId Contact _id (_id old) saved docs).
Proof.
  unfold saveExisting. destruct (Contact_eq_dec old new) as [E | N].
  - intros H. injection H as <- <-. now left.
  - destruct (validate new) eqn:V; [| discriminate].
    intros H. injection H as <- <-. right. repeat split; assumption.
Qed.

Section Routes.
Variable validObjectId : string -> bool.

Lemma contact_step_keeps docs docs' :
  step validObjectId docs docs' -> Forall typeOk docs -> Forall typeOk docs'.
Proof.
  intros [now newId b d | now id b d | id d] Inv.
  - unfold postContact. destruct (postValidation b); [| exact Inv].
    destruct (saveNew now _ d) as [[d' saved] | e] eqn:S; [| exact Inv].
    simpl. apply contact_saveNew_cases in S. destruct S as (V & -> & ->).
    apply Forall_app. split; [exact Inv |].
    constructor; [| constructor]. now apply validate_type in V.
  - unfold putContact. destruct (putValidation b); [| exact Inv].
    destruct (findById validObjectId id d) as [[c |] | e]; try exact Inv.
    destruct (saveExisting now c _ d) as [[d' saved] | e] eqn:S; [| exact Inv].
    simpl. apply contact_saveExisting_cases in S.
    destruct S as [(_ & -> & _) | (_ & V & -> & ->)]; [exact Inv |].
    apply replaceId_Forall; [exact Inv |]. now apply validate_type in V.
  - unfold deleteContact.
    destruct (findById validObjectId id d) as [[c |] | e]; try exact Inv.
    simpl. now apply removeId_Forall.
Qed.

Lemma contact_reachable_keeps docs :
  reachable validObjectId docs -> Forall typeOk docs.
Proof.
  induction 1 as [| docs docs' _ IH S]; [constructor |].
  eapply contact_step_keeps; eassumption.
Qed.

End Routes.

(** No contact the API has stored has a website or social media type,
    whatever its letter case; and a POST whose type, trimmed and lowered,
    is an excluded one is answered 400 with the message of the type
    validator and stores nothing. *)
Theorem contacts_never_excluded
    (validObjectId : string -> bool) (docs : list Contact) :
  reachable validObjectId docs ->
  Forall (fun c =>
            arrayIncludes getExcludedTypes (toLowerCase (type c)) = false)
    docs /\
  (forall now newId b,
      arrayIncludes getExcludedTypes (toLowerCase (trim (toStr (b_type b))))
      = true ->
      exists errs,
        postContact now newId b docs
        = (Http.failureWith 400 "Validation failed" errs, docs) /\
        In excludedMessage errs).
Proof.
  intros R. split; [now apply (contact_reachable_keeps validObjectId) |].
  intros now newId b E. unfold postContact, postValidation. rewrite E.
  cbn [negb check].
  match goal with
  | |- context [match ?l with nil => _ | _ :: _ => _ end] =>
      destruct l as [| e errs] eqn:L
  end.
  - exfalso. apply app_eq_nil in L. destruct L as [_ L]. discriminate L.
  - eexists. split; [reflexivity |]. rewrite <- L.
    apply in_or_app. right. left. reflexivity.
Qed.

Lemma contacts_never_excluded_witness :
  exists errs,
    postContact 1000 "k2"
      (mkBody (Some "  FaceBook ") (Some "Page") (Some "fb.example") None)
      (snd (postContact 1000 "k1"
              (mkBody (Some "phone") (Some "Sales") (Some "+20 100") None)
              nil))
    = (Http.failureWith 400 "Validation failed" errs,
       snd (postContact 1000 "k1"
              (mkBody (Some "phone") (Some "Sales") (Some "+20 100") None)
              nil)) /\
    In excludedMessage errs.
Proof.
  apply (proj2 (contacts_never_excluded (fun _ => true) _
                  (reach_step (fun _ => true) _ _
                     (reach_empty (fun _ => true))
                     (step_create (fun _ => true) 1000 "k1"
                        (mkBody (Some "phone") (Some "Sales")
                           (Some "+20 100") None) nil)))).
  reflexivity.
Defined.

Lemma insertBy_perm leb d l : Permutation (insertBy leb d l) (d :: l).
Proof.
  induction l as [|x l IH]; simpl; [apply Permutation_refl |].
  destruct (leb d x); [apply Permutation_refl |].
  eapply Permutation_trans; [apply perm_skip, IH | apply perm_swap].
Qed.

Lemma sortWith_perm field direction docs :
  Permutation (sortWith field direction docs) docs.
Proof.
  unfold sortWith. induction docs as [|x l IH]; simpl; [apply perm_nil |].
  eapply Permutation_trans; [apply insertBy_perm | now apply perm_skip].
Qed.

Lemma insertBy_sorted (leb : Contact -> Contact -> bool) d l :
  (forall a b, leb a b = false -> leb b a = true) ->
  Sorted (fun a b => leb a b = true) l ->
  Sorted (fun a b => leb a b = true) (insertBy leb d l).
Proof.
  intros T. induction 1 as [| x l Hs IH Hh]; simpl.
  - repeat constructor.
  - destruct (leb d x) eqn:E.
    + constructor; [now constructor | now constructor].
    + constructor; [exact IH |].
      destruct l as [|y l]; simpl.
      * constructor. now apply T.
      * destruct (leb d y); constructor; [now apply T | now inversion Hh].
Qed.

Lemma lebBy_total field a b : lebBy field a b = false -> lebBy field b a = true.
Proof.
  unfold lebBy.
  destruct (String.eqb field "type");
    [| destruct (String.eqb field "label")].
  - intros H. destruct (String.leb_total (type a) (type b)); congruence.
  - intros H. destruct (String.leb_total (label a) (label b)); congruence.
  - intros H. apply Z.leb_gt in H. apply Z.leb_le. lia.
Qed.

Lemma sortWith_ordered field direction docs :
  OrderedBy field (direction <? 0) (sortWith field direction docs).
Proof.
  unfold OrderedBy, sortWith. destruct (direction <? 0).
  - induction docs as [|x l IH]; simpl; [constructor |].
    apply (insertBy_sorted (fun a b => lebBy field b a)); [| exact IH].
    intros a b. apply lebBy_total.
  - induction docs as [|x l IH]; simpl; [constructor |].
    apply (insertBy_sorted (lebBy field)); [| exact IH].
    intros a b. apply lebBy_total.
Qed.

Lemma nin_filter_keeps_all docs :
  Forall typeOk docs ->
  List.filter (fun c => negb (arrayIncludes getExcludedTypes (type c))) docs
  = docs.
Proof.
  induction 1 as [|c rest Hc _ IH]; [reflexivity |].
  cbn [List.filter].
  unfold typeOk in Hc. rewrite (lowered_ok_exact _ Hc). cbn [negb].
  now rewrite IH.
Qed.

(** The contacts list returns every stored contact: on a collection the
    API has produced the [$nin] filter on the type removes nothing, so the
    data are the whole collection, rearranged, and [meta.total] is its
    size. *)
Theorem contacts_list_is_complete
    (validObjectId : string -> bool) (q : ListQuery) (docs : list Contact) :
  reachable validObjectId docs ->
  listValidation q = nil ->
  exists listing,
    listContacts q docs
    = Http.mkResponse 200 true None nil (Some listing) None /\
    Permutation (l_items listing) docs /\
    l_total listing = List.length docs.
Proof.
  intros R V. unfold listContacts. rewrite V. cbv zeta.
  eexists. split; [reflexivity |].
  cbn [l_items l_total].
  rewrite (nin_filter_keeps_all _ (contact_reachable_keeps _ _ R)). split.
  - apply sortWith_perm.
  - apply Permutation_length, sortWith_perm.
Qed.

Lemma contacts_list_is_complete_witness :
  exists listing,
    listContacts (mkListQuery (Some "label") None)
      (snd (postContact 1000 "k1"
              (mkBody (Some "phone") (Some "Sales") (Some "+20 100") None)
              nil))
    = Http.mkResponse 200 true None nil (Some listing) None /\
    l_total listing = 1%nat.
Proof.
  destruct (contacts_list_is_complete (fun _ => true)
              (mkListQuery (Some "label") None) _
              (reach_step (fun _ => true) _ _
                 (reach_empty (fun _ => true))
                 (step_create (fun _ => true) 1000 "k1"
                    (mkBody (Some "phone") (Some "Sales")
                       (Some "+20 100") None) nil))
              eq_refl)
    as (listing & E & _ & T).
  exists listing. split; [exact E |]. rewrite T. reflexivity.
Defined.

Lemma isIn_truthy allowed s :
  ~ In EmptyString allowed -> isIn allowed s = true -> truthy (Some s) = true.
Proof.
  intros N H. destruct s; [| reflexivity].
  unfold isIn in H. apply existsb_exists in H. destruct H as (x & Hx & E).
  apply String.eqb_eq in E. subst x. contradiction.
Qed.

(** The order of the contacts list and what [meta] says about it.  The
    data are sorted by the field and direction of [sortObj].  With
    [sortBy] given and [sortOrder] absent the data are ascending on that
    field while [meta.sortOrder] reads "desc"; with [sortBy] absent the
    data are newest first whatever [sortOrder] is, and [meta.sortOrder]
    repeats the parameter. *)
Theorem contacts_list_order_and_meta (q : ListQuery) (docs : list Contact) :
  listValidation q = nil ->
  exists listing,
    listContacts q docs
    = Http.mkResponse 200 true None nil (Some listing) None /\
    OrderedBy (fst (sortObj q)) (snd (sortObj q) <? 0) (l_items listing) /\
    (forall f,
        q_sortBy q = Some f -> q_sortOrder q = None ->
        OrderedBy f false (l_items listing) /\
        l_sortBy listing = f /\ l_sortOrder listing = "desc") /\
    (forall f,
        q_sortBy q = Some f -> q_sortOrder q = Some "desc" ->
        OrderedBy f true (l_items listing)) /\
    (q_sortBy q = None ->
     OrderedBy "createdAt" true (l_items listing) /\
     l_sortBy listing = "createdAt" /\
     (q_sortOrder q = Some "asc" -> l_sortOrder listing = "asc")).
Proof.
  intros V. unfold listContacts. rewrite V. cbv zeta.
  eexists. split; [reflexivity |]. cbn [l_items l_sortBy l_sortOrder].
  split; [apply sortWith_ordered |].
  assert (forall f, q_sortBy q = Some f -> truthy (Some f) = true) as T.
  { intros f Hf. unfold listValidation in V. rewrite Hf in V.
    apply app_eq_nil in V. destruct V as [V _]. simpl in V.
    apply check_nil in V.
    apply (isIn_truthy ("type" :: "label" :: "createdAt" :: nil)); [| exact V].
    simpl. intuition discriminate. }
  split; [| split].
  - intros f Hf Ho. pose proof (T f Hf) as Tf.
    unfold sortObj, orElse. rewrite Hf, Ho, Tf. simpl.
    split; [apply (sortWith_ordered f 1) | split; reflexivity].
  - intros f Hf Ho. pose proof (T f Hf) as Tf.
    unfold sortObj. rewrite Hf, Ho, Tf. simpl.
    apply (sortWith_ordered f (-1)).
  - intros Hn. unfold sortObj, orElse. rewrite Hn. simpl.
    split; [apply (sortWith_ordered "createdAt" (-1)) |].
    split; [reflexivity |]. intros ->. reflexivity.
Qed.

Lemma contacts_list_order_and_meta_witness :
  exists listing,
    listContacts (mkListQuery (Some "label") None)
      (mkContact "k1" "phone" "Sales" "+20 100" None 1 1
       :: mkContact "k2" "email" "Info" "info@example.com" None 2 2 :: nil)
    = Http.mkResponse 200 true None nil (Some listing) None /\
    OrderedBy "label" false (l_items listing) /\
    l_sortOrder listing = "desc".
Proof.
  destruct (contacts_list_order_and_meta (mkListQuery (Some "label") None)
              (mkContact "k1" "phone" "Sales" "+20 100" None 1 1
               :: mkContact "k2" "email" "Info" "info@example.com" None 2 2
               :: nil) eq_refl)
    as (listing & E & _ & H & _).
  exists listing. split; [exact E |].
  destruct (H "label" eq_refl eq_refl) as (O & _ & M).
  split; assumption.
Defined.

(** A contact created under a fresh identifier can be fetched by it, and
    deleting it gives back the collection as it was, after which the
    identifier is unknown again. *)
Theorem contact_create_fetch_delete
    (validObjectId : string -> bool) (now : Z) (newId : string) (b : Body)
    (docs docs' : list Contact) (resp : Http.Response Contact) :
  validObjectId newId = true ->
  ~ In newId (map _id docs) ->
  postContact now newId b docs = (resp, docs') ->
  Http.status resp = 201%nat ->
  exists saved,
    Http.data resp = Some saved /\
    _id saved = newId /\ createdAt saved = now /\ updatedAt saved = now /\
    getContact validObjectId newId docs'
    = Http.mkResponse 200 true None nil (Some saved) None /\
    snd (deleteContact validObjectId newId docs') = docs /\
    Http.status (fst (deleteContact validObjectId newId docs')) = 200%nat /\
    getContact validObjectId newId docs
    = Http.failure 404 "Contact method not found".
Proof.
  intros Hid Hfresh. unfold postContact.
  destruct (postValidation b); [| intros H; injection H as <- <-; discriminate].
  destruct (saveNew now _ docs) as [[d' saved] | e] eqn:S.
  2:{ intros H. injection H as <- <-. unfold Contact.postCatch.
      destruct (isValidationError e); discriminate. }
  intros H _. injection H as <- <-.
  apply contact_saveNew_cases in S. destruct S as (_ & Hs & ->).
  assert (_id saved = newId) as Hsid by (rewrite Hs; reflexivity).
  exists saved. split; [reflexivity |].
  split; [exact Hsid |].
  split; [rewrite Hs; reflexivity |].
  split; [rewrite Hs; reflexivity |].
  unfold getContact, deleteContact, findById. rewrite Hid.
  rewrite (lookupId_appended _ _ _ _ _ Hsid Hfresh).
  split; [reflexivity |]. cbn [snd fst].
  split; [now apply removeId_appended |].
  split; [reflexivity |].
  now rewrite (lookupId_None_notin _ _ _ _ Hfresh).
Qed.

Lemma contact_create_fetch_delete_witness :
  exists saved,
    getContact (fun _ => true) "k1"
      (snd (postContact 1000 "k1"
              (mkBody (Some "phone") (Some "Sales") (Some "+20 100") None)
              nil))
    = Http.mkResponse 200 true None nil (Some saved) None /\
    snd (deleteContact (fun _ => true) "k1"
           (snd (postContact 1000 "k1"
                   (mkBody (Some "phone") (Some "Sales") (Some "+20 100") None)
                   nil))) = nil.
Proof.
  destruct (contact_create_fetch_delete (fun _ => true) 1000 "k1"
              (mkBody (Some "phone") (Some "Sales") (Some "+20 100") None)
              nil _ _ eq_refl ltac:(simpl; tauto)
              (surjective_pairing _) eq_refl)
    as (saved & _ & _ & _ & _ & G & D & _).
  exists saved. split; assumption.
Defined.

End ContactFacts.

(* ------------------------------------------------------------------ *)
(** *** More on the messages routes *)

Module MessageRouteFacts.
Import JS Validator Mongoose MessageModel MessageRoutes Classifier.
Import Notions MoreNotions StoreFacts StoreFacts2 JSFacts MessageFacts.

(** Where the label of the classifier falls. *)
Lemma classify_cases subject message category :
  In (classifyPriority subject message category) roleLabels \/
  (classifyPriority subject message category = "high" /\
   category = Some "complaint") \/
  (classifyPriority subject message category = "medium" /\
   category <> Some "complaint").
Proof.
  unfold classifyPriority, roleLabels. cbv zeta.
  destruct (_ || _ || _); [left; simpl; tauto |].
  destruct (_ || _); [left; simpl; tauto |].
  destruct (_ || _ || _); [left; simpl; tauto |].
  destruct (strictEq category "complaint") eqn:E; right.
  - left. split; [reflexivity | now apply strictEq_spec].
  - right. split; [reflexivity |]. intros H.
    apply strictEq_spec in H. congruence.
Qed.

Lemma validate_category m :
  validate m = nil -> In (category m) categoryEnum.
Proof.
  unfold validate. intros H.
  do 10 (apply app_eq_nil in H; destruct H as [_ H]).
  apply app_eq_nil in H. destruct H as [H _].
  now apply enum_nil in H.
Qed.

(** POST /api/messages either appends exactly one message or changes
    nothing.  The appended message carries the fresh identifier, is unread
    and unanswered, has source "website" and both timestamps at the time
    of the request, passes the schema, and has priority high for a
    complaint and medium otherwise; the 201 response names it.  In every
    other case the answer is 400 or 500, without data, and the collection
    is as before. *)
Theorem post_appends_one_or_nothing
    (isEmail : string -> bool) (normalizeEmail : string -> string)
    (now : Z) (newId : string) (req : PostRequest) (docs : list Message) :
  (exists saved,
      postMessage isEmail normalizeEmail now newId req docs
      = (Http.mkResponse 201 true
           (Some "Message sent successfully. We will get back to you soon!")
           nil
           (Some (mkCreated newId (name saved) (subject saved)
                    (priority saved) now))
           None,
         (docs ++ saved :: nil)%list) /\
      _id saved = newId /\
      isRead saved = false /\ readAt saved = None /\
      replied saved = false /\ repliedAt saved = None /\
      source saved = "website" /\ notes saved = nil /\
      createdAt saved = now /\ updatedAt saved = now /\
      validate saved = nil /\
      ((priority saved = "high" /\ b_category req = Some "complaint") \/
       (priority saved = "medium" /\ b_category req <> Some "complaint"))) \/
  (snd (postMessage isEmail normalizeEmail now newId req docs) = docs /\
   Http.data (fst (postMessage isEmail normalizeEmail now newId req docs))
   = None /\
   (Http.status (fst (postMessage isEmail normalizeEmail now newId req docs))
    = 400%nat \/
    Http.status (fst (postMessage isEmail normalizeEmail now newId req docs))
    = 500%nat)).
Proof.
  unfold postMessage.
  destruct (postValidation isEmail req);
    [| right; repeat split; left; reflexivity].
  destruct (saveNew now (newMessage newId (buildMessageData normalizeEmail req))
              docs) as [[docs' saved] | e] eqn:S;
    [| right; repeat split; right; reflexivity].
  left. apply saveNew_cases in S. destruct S as (V & Hs & ->).
  exists saved. rewrite Hs. cbn.
  repeat (split; [reflexivity |]).
  split; [exact V |].
  pose proof (validate_priority _ V) as P. cbn in P.
  destruct (classify_cases (trim (toStr (b_subject req)))
              (trim (toStr (b_message req))) (b_category req))
    as [R | [H | H]]; [| now left | now right].
  exfalso. now apply (roleLabel_not_in_enum _ R).
Qed.

Lemma applyLabels_priority b m p :
  u_priority b = Some p -> p <> EmptyString ->
  priority (applyLabels b m) = p.
Proof.
  intros H N. unfold applyLabels. rewrite H.
  assert (truthy (Some p) = true) as -> by (destruct p; [congruence | reflexivity]).
  destruct (u_category b) as [c |]; [destruct (truthy (Some c)) |]; reflexivity.
Qed.

Lemma applyLabels_category b m c :
  u_category b = Some c -> c <> EmptyString ->
  category (applyLabels b m) = c.
Proof.
  intros H N. unfold applyLabels. rewrite H.
  assert (truthy (Some c) = true) as -> by (destruct c; [congruence | reflexivity]).
  reflexivity.
Qed.

(** The update route lets through six priorities and the category "herbs",
    but the schema has three priorities and no such category: an update of
    a stored message to CEO, Sales Manager or Herbs Priority, or to the
    category herbs, is answered 500 and changes nothing. *)
Theorem put_refuses_labels_outside_schema
    (isEmail : string -> bool) (normalizeEmail : string -> string)
    (validObjectId : string -> bool) (now : Z) (id : string) (b : PutBody)
    (docs : list Message) (m : Message) :
  reachable isEmail normalizeEmail validObjectId docs ->
  validObjectId id = true ->
  lookupId Message _id id docs = Some m ->
  putValidation b = nil ->
  (exists p, u_priority b = Some p /\ In p roleLabels) \/
  u_category b = Some "herbs" ->
  putMessage validObjectId now id b docs
  = (Http.failure 500 "Server error while updating message", docs).
Proof.
  intros R Hid Hm V H.
  assert (validate m = nil) as Vm.
  { pose proof (reachable_valid _ _ _ _ R) as A.
    rewrite Forall_forall in A. apply A. eapply lookupId_In; eassumption. }
  unfold putMessage, findById. rewrite V, Hid, Hm.
  destruct (applyIsRead now (u_isRead b) m) as [m1 |]; [| reflexivity].
  destruct (applyReplied now (u_replied b) m1) as [m2 |]; [| reflexivity].
  assert (validate (applyLabels b m2) <> nil
          /\ m <> applyLabels b m2) as [NV NE].
  { destruct H as [(p & Hp & L) | Hc].
    - assert (priority (applyLabels b m2) = p) as E.
      { apply applyLabels_priority; [exact Hp |].
        intros ->. simpl in L. intuition discriminate. }
      split.
      + intros A. apply validate_priority in A. rewrite E in A.
        now apply (roleLabel_not_in_enum _ L).
      + intros Q. apply validate_priority in Vm. rewrite Q, E in Vm.
        now apply (roleLabel_not_in_enum _ L).
    - assert (category (applyLabels b m2) = "herbs") as E
        by (apply applyLabels_category; [exact Hc | discriminate]).
      split.
      + intros A. apply validate_category in A. rewrite E in A.
        simpl in A. intuition discriminate.
      + intros Q. apply validate_category in Vm. rewrite Q, E in Vm.
        simpl in Vm. intuition discriminate. }
  unfold saveExisting.
  destruct (Message_eq_dec m (applyLabels b m2)); [contradiction |].
  destruct (validate (applyLabels b m2)); [congruence | reflexivity].
Qed.

Lemma put_refuses_labels_outside_schema_witness :
  putMessage (fun _ => true) 3000 "m1"
    (mkPutBody None None (Some "Sales Manager") None)
    (snd (postMessage (fun _ => true) (fun e => e) 1000 "m1" helloRequest nil))
  = (Http.failure 500 "Server error while updating message",
     snd (postMessage (fun _ => true) (fun e => e) 1000 "m1" helloRequest nil)).
Proof.
  apply (put_refuses_labels_outside_schema (fun _ => true) (fun e => e)
           (fun _ => true) 3000 "m1"
           (mkPutBody None None (Some "Sales Manager") None) _ unreadMessage).
  - eapply reach_step; [apply reach_empty | apply step_create].
  - reflexivity.
  - vm_compute. reflexivity.
  - reflexivity.
  - left. exists "Sales Manager". split; [reflexivity |].
    right. left. reflexivity.
Defined.

(** What GET /:id does to a stored message. *)
Lemma getMessage_stored validObjectId now id docs m :
  validObjectId id = true ->
  lookupId Message _id id docs = Some m ->
  validate m = nil ->
  getMessage validObjectId now id docs
  = if isRead m
    then (Http.mkResponse 200 true None nil (Some m) None, docs)
    else
      (Http.mkResponse 200 true None nil
         (Some (set_updatedAt now (set_readAt (Some now) (set_isRead true m))))
         None,
       replaceId Message _id id
         (set_updatedAt now (set_readAt (Some now) (set_isRead true m))) docs).
Proof.
  intros Hid Hm Hv. pose proof (lookupId_id _ _ _ _ _ Hm) as Hidm.
  unfold getMessage, findById. rewrite Hid, Hm.
  destruct (isRead m) eqn:Hr; simpl; [reflexivity |].
  unfold saveExisting.
  destruct (Message_eq_dec m (set_readAt (Some now) (set_isRead true m)))
    as [E | _].
  { exfalso. now apply (mark_read_differs now m Hr). }
  rewrite validate_mark_read, Hv, Hidm. reflexivity.
Qed.

(** Fetching a message a second time changes nothing: the second fetch
    answers with the message as the first one left it, read, and leaves
    the collection as it is; the read date of a message that was unread
    stays the time of the first fetch. *)
Theorem second_fetch_changes_nothing
    (isEmail : string -> bool) (normalizeEmail : string -> string)
    (validObjectId : string -> bool) (now1 now2 : Z) (id : string)
    (docs : list Message) (m : Message) :
  reachable isEmail normalizeEmail validObjectId docs ->
  validObjectId id = true ->
  lookupId Message _id id docs = Some m ->
  exists m1,
    Http.data (fst (getMessage validObjectId now1 id docs)) = Some m1 /\
    isRead m1 = true /\
    (isRead m = false -> readAt m1 = Some now1) /\
    getMessage validObjectId now2 id
      (snd (getMessage validObjectId now1 id docs))
    = (Http.mkResponse 200 true None nil (Some m1) None,
       snd (getMessage validObjectId now1 id docs)).
Proof.
  intros R Hid Hm.
  assert (validate m = nil) as Vm.
  { pose proof (reachable_valid _ _ _ _ R) as A.
    rewrite Forall_forall in A. apply A. eapply lookupId_In; eassumption. }
  pose proof (lookupId_id _ _ _ _ _ Hm) as Hidm.
  rewrite (getMessage_stored _ now1 _ _ _ Hid Hm Vm).
  destruct (isRead m) eqn:Hr; cbn [fst snd Http.data].
  - exists m. split; [reflexivity |]. split; [exact Hr |].
    split; [discriminate |].
    rewrite (getMessage_stored _ now2 _ _ _ Hid Hm Vm), Hr. reflexivity.
  - eexists. split; [reflexivity |]. split; [reflexivity |].
    split; [reflexivity |].
    rewrite (getMessage_stored _ now2 id _
               (set_updatedAt now1 (set_readAt (Some now1) (set_isRead true m)))
               Hid).
    + reflexivity.
    + apply lookupId_replaceId_same with (d := m); [exact Hm | exact Hidm].
    + exact Vm.
Qed.

Lemma second_fetch_changes_nothing_witness :
  exists m1,
    Http.data
      (fst (getMessage (fun _ => true) 2000 "m1"
              (snd (postMessage (fun _ => true) (fun e => e) 1000 "m1"
                      helloRequest nil))))
    = Some m1 /\
    readAt m1 = Some 2000 /\
    snd (getMessage (fun _ => true) 9000 "m1"
           (snd (getMessage (fun _ => true) 2000 "m1"
                   (snd (postMessage (fun _ => true) (fun e => e) 1000 "m1"
                           helloRequest nil)))))
    = snd (getMessage (fun _ => true) 2000 "m1"
             (snd (postMessage (fun _ => true) (fun e => e) 1000 "m1"
                     helloRequest nil))).
Proof.
  destruct (second_fetch_changes_nothing (fun _ => true) (fun e => e)
              (fun _ => true) 2000 9000 "m1"
              (snd (postMessage (fun _ => true) (fun e => e) 1000 "m1"
                      helloRequest nil))
              unreadMessage)
    as (m1 & D & _ & T & G).
  - eapply reach_step; [apply reach_empty | apply step_create].
  - reflexivity.
  - vm_compute. reflexivity.
  - exists m1. split; [exact D |]. split; [apply T; reflexivity |].
    rewrite G. reflexivity.
Defined.

End MessageRouteFacts.

Module MessageUpdateFacts.
Import JS Validator Mongoose MessageModel MessageRoutes.
Import Notions MoreNotions StoreFacts StoreFacts2 MessageFacts.

Lemma Forall2_refl {A : Type} (R : A -> A -> Prop) (l : list A) :
  (forall x, R x x) -> Forall2 R l l.
Proof. intros H. induction l; constructor; auto. Qed.

(** Writing a document back relates the collections position by
    position. *)
Lemma replaceId_Forall2 (R : Message -> Message -> Prop) id m s docs :
  (forall x, R x x) ->
  lookupId Message _id id docs = Some m -> R m s ->
  Forall2 R docs (replaceId Message _id id s docs).
Proof.
  unfold lookupId. intros Hrefl Hm Hs.
  induction docs as [|x rest IH]; simpl in *; [constructor |].
  destruct (String.eqb (_id x) id).
  - injection Hm as ->. constructor; [exact Hs | now apply Forall2_refl].
  - constructor; [apply Hrefl | now apply IH].
Qed.

Lemma framed_refl m : framed m m.
Proof. unfold framed, sameContent, keepsDates. repeat split; auto. Qed.

Lemma framed_trans a b c : framed a b -> framed b c -> framed a c.
Proof.
  unfold framed, sameContent, keepsDates.
  intros [A1 [A2 A3]] [B1 [B2 B3]].
  decompose [and] A1. decompose [and] B1.
  repeat split; try congruence; auto.
Qed.

Lemma applyIsRead_framed now v m m1 :
  applyIsRead now v m = Some m1 -> framed m m1.
Proof.
  unfold applyIsRead. destruct v as [i |]; [| intros H; injection H as <-;
                                              apply framed_refl].
  destruct (castBoolean i) as [b |]; [| discriminate].
  intros H. injection H as <-.
  destruct (truthyInput i); [| unfold framed, sameContent, keepsDates;
                               simpl; repeat split; auto].
  cbn [readAt set_isRead].
  destruct (readAt m) eqn:E;
    unfold framed, sameContent, keepsDates; simpl; repeat split; auto.
  intros t H. congruence.
Qed.

Lemma applyReplied_framed now v m m1 :
  applyReplied now v m = Some m1 -> framed m m1.
Proof.
  unfold applyReplied. destruct v as [i |]; [| intros H; injection H as <-;
                                               apply framed_refl].
  destruct (castBoolean i) as [b |]; [| discriminate].
  intros H. injection H as <-.
  destruct (truthyInput i); [| unfold framed, sameContent, keepsDates;
                               simpl; repeat split; auto].
  cbn [repliedAt set_replied].
  destruct (repliedAt m) eqn:E;
    unfold framed, sameContent, keepsDates; simpl; repeat split; auto.
  intros t H. congruence.
Qed.

Lemma applyLabels_framed b m : framed m (applyLabels b m).
Proof.
  unfold applyLabels.
  destruct (u_priority b) as [p |]; [destruct (truthy (Some p)) |];
    (destruct (u_category b) as [c |]; [destruct (truthy (Some c)) |]);
    unfold framed, sameContent, keepsDates; simpl; repeat split; auto.
Qed.

Lemma set_updatedAt_framed now m : framed m (set_updatedAt now m).
Proof.
  unfold framed, sameContent, keepsDates; simpl; repeat split; auto.
Qed.

(** An admin update never touches what a message says or where it came
    from, never adds or removes a message, and never moves a read date or
    a reply date that is set: message by message, the collection after
    PUT /:id has the same identifier, sender, subject, text, source,
    notes and creation time, and the same [readAt] and [repliedAt]
    wherever they were set before. *)
Theorem update_keeps_content_and_dates
    (validObjectId : string -> bool) (now : Z) (id : string) (b : PutBody)
    (docs : list Message) :
  Forall2 (fun m m' => sameContent m m' /\ keepsDates m m') docs
    (snd (putMessage validObjectId now id b docs)) /\
  List.length (snd (putMessage validObjectId now id b docs))
  = List.length docs.
Proof.
  assert (Forall2 framed docs (snd (putMessage validObjectId now id b docs)))
    as F.
  { unfold putMessage.
    destruct (putValidation b); [| apply Forall2_refl, framed_refl].
    unfold findById. destruct (validObjectId id);
      [| apply Forall2_refl, framed_refl].
    destruct (lookupId Message _id id docs) as [m |] eqn:Hm;
      [| apply Forall2_refl, framed_refl].
    destruct (applyIsRead now (u_isRead b) m) as [m1 |] eqn:E1;
      [| apply Forall2_refl, framed_refl].
    destruct (applyReplied now (u_replied b) m1) as [m2 |] eqn:E2;
      [| apply Forall2_refl, framed_refl].
    destruct (saveExisting now m (applyLabels b m2) docs)
      as [[docs' saved] | e] eqn:S; [| apply Forall2_refl, framed_refl].
    cbn [snd]. apply saveExisting_cases in S.
    destruct S as [(_ & -> & _) | (_ & _ & -> & ->)];
      [apply Forall2_refl, framed_refl |].
    rewrite (lookupId_id _ _ _ _ _ Hm).
    apply replaceId_Forall2 with (m := m);
      [apply framed_refl | exact Hm |].
    eapply framed_trans; [eapply applyIsRead_framed; eassumption |].
    eapply framed_trans; [eapply applyReplied_framed; eassumption |].
    eapply framed_trans; [apply applyLabels_framed |].
    apply set_updatedAt_framed. }
  split; [exact F |]. symmetry. eapply Forall2_length; exact F.
Qed.

Lemma countWhere_replaceId (p : Message -> bool) id m s docs :
  lookupId Message _id id docs = Some m ->
  (countWhere p (replaceId Message _id id s docs)
   + (if p m then 1 else 0)
   = countWhere p docs + (if p s then 1 else 0))%nat.
Proof.
  unfold lookupId, countWhere. intros Hm.
  induction docs as [|x rest IH]; simpl in *; [discriminate |].
  destruct (String.eqb (_id x) id).
  - injection Hm as ->. simpl. destruct (p m), (p s); simpl; lia.
  - specialize (IH Hm). simpl. destruct (p x); simpl; lia.
Qed.

Lemma replaceId_length id s (docs : list Message) :
  List.length (replaceId Message _id id s docs) = List.length docs.
Proof.
  induction docs as [|x rest IH]; simpl; [reflexivity |].
  destruct (String.eqb (_id x) id); simpl; [reflexivity | now rewrite IH].
Qed.

(** The statistics of the messages list follow the fetches: fetching a
    stored unread message lowers [stats.unread] by exactly one and leaves
    [stats.total], [stats.unreplied] and [stats.highPriority] as they
    were. *)
Theorem fetch_lowers_unread_by_one
    (isEmail : string -> bool) (normalizeEmail : string -> string)
    (validObjectId : string -> bool) (now : Z) (id : string)
    (docs : list Message) (m : Message) :
  reachable isEmail normalizeEmail validObjectId docs ->
  validObjectId id = true ->
  lookupId Message _id id docs = Some m ->
  isRead m = false ->
  S (s_unread (aggregateStats (snd (getMessage validObjectId now id docs))))
  = s_unread (aggregateStats docs) /\
  s_total (aggregateStats (snd (getMessage validObjectId now id docs)))
  = s_total (aggregateStats docs) /\
  s_unreplied (aggregateStats (snd (getMessage validObjectId now id docs)))
  = s_unreplied (aggregateStats docs) /\
  s_highPriority (aggregateStats (snd (getMessage validObjectId now id docs)))
  = s_highPriority (aggregateStats docs).
Proof.
  intros R Hid Hm Hr.
  assert (validate m = nil) as Vm.
  { pose proof (reachable_valid _ _ _ _ R) as A.
    rewrite Forall_forall in A. apply A. eapply lookupId_In; eassumption. }
  rewrite (MessageRouteFacts.getMessage_stored _ now _ _ _ Hid Hm Vm), Hr.
  cbn [snd]. unfold aggregateStats. cbn [s_unread s_total s_unreplied
                                          s_highPriority].
  set (s := set_updatedAt now (set_readAt (Some now) (set_isRead true m))).
  pose proof (countWhere_replaceId (fun x => negb (isRead x)) id m s docs Hm)
    as C1.
  pose proof (countWhere_replaceId (fun x => negb (replied x)) id m s docs Hm)
    as C2.
  pose proof (countWhere_replaceId
                (fun x => String.eqb (priority x) "high") id m s docs Hm)
    as C3.
  cbn beta in C1, C2, C3. subst s. cbn [isRead replied priority set_updatedAt
    set_readAt set_isRead] in C1, C2, C3.
  rewrite Hr in C1. cbn [negb] in C1.
  rewrite replaceId_length.
  split; [lia |]. split; [reflexivity |].
  split; [destruct (negb (replied m)); lia |].
  destruct (String.eqb (priority m) "high"); lia.
Qed.

Lemma fetch_lowers_unread_by_one_witness :
  S (s_unread
       (aggregateStats
          (snd (getMessage (fun _ => true) 2000 "m1"
                  (snd (postMessage (fun _ => true) (fun e => e) 1000 "m1"
                          helloRequest nil))))))
  = s_unread
      (aggregateStats
         (snd (postMessage (fun _ => true) (fun e => e) 1000 "m1"
                 helloRequest nil))).
Proof.
  exact (proj1 (fetch_lowers_unread_by_one (fun _ => true) (fun e => e)
                  (fun _ => true) 2000 "m1"
                  (snd (postMessage (fun _ => true) (fun e => e) 1000
                          "m1" helloRequest nil))
                  unreadMessage
                  (reach_step _ _ _ _ _ (reach_empty _ _ _)
                     (step_create _ _ _ 1000 "m1" helloRequest nil))
                  eq_refl eq_refl eq_refl)).
Defined.

End MessageUpdateFacts.

(* ------------------------------------------------------------------ *)
(** *** More on the products list *)

Module ProductListFacts.
Import JS Mongoose Products Notions MoreNotions QueryFacts NumberFacts.
Import ProductFacts.




Section Routes.
Variable validObjectId : string -> bool.
Variable textMatch : string -> list string -> bool.


End Routes.



(** The [category] parameter of the products list: a value that is not an
    ObjectId is ignored, not refused (the answer is the one to the same
    request without the parameter), and a value that is one restricts the
    listing to the products of that category. *)
Theorem category_parameter
    (validObjectId : string -> bool)
    (textMatch : string -> list string -> bool)
    (beyondSafe : Number -> Number -> option (nat * nat))
    (q : ListQuery) (docs : list Product) (c : string) :
  q_category q = Some c ->
  (validObjectId c = false ->
   listProducts validObjectId textMatch beyondSafe q docs
   = listProducts validObjectId textMatch beyondSafe (withoutCategory q)
       docs) /\
  (validObjectId c = true -> c <> EmptyString ->
   forall items p,
     Http.data (listProducts validObjectId textMatch beyondSafe q docs)
     = Some items ->
     In p items -> category p = c).
Proof.
  intros Hc. split.
  - intros Hv.
    assert (buildFilter validObjectId q
            = buildFilter validObjectId (withoutCategory q)) as B.
    { unfold buildFilter, withoutCategory. simpl. rewrite Hc, Hv.
      now rewrite andb_false_r. }
    unfold listProducts. rewrite B. reflexivity.
  - intros Hv Hne items p Hd Hp.
    destruct (listProducts_items validObjectId textMatch beyondSafe q docs
                items p Hd Hp) as [_ Hm].
    rewrite matching_wanted in Hm. apply filter_In in Hm.
    destruct Hm as [_ Hw]. unfold wanted, inCategory in Hw.
    rewrite Hc, Hv in Hw.
    assert (String.eqb c "" = false) as N by now apply String.eqb_neq.
    rewrite N in Hw. cbn [negb andb] in Hw.
    rewrite !andb_true_iff in Hw. destruct Hw as [[[Hw _] _] _].
    now apply String.eqb_eq.
Qed.

Lemma category_parameter_witness :
  listProducts (fun s => String.eqb s "c1") (fun _ _ => true) refusing
    (mkListQuery None None (Some "not-an-id") None None None)
    (sampleCatalogue 3)
  = listProducts (fun s => String.eqb s "c1") (fun _ _ => true) refusing
      (withoutCategory
         (mkListQuery None None (Some "not-an-id") None None None))
      (sampleCatalogue 3).
Proof.
  exact (proj1 (category_parameter (fun s => String.eqb s "c1")
                  (fun _ _ => true) refusing
                  (mkListQuery None None (Some "not-an-id") None None None)
                  (sampleCatalogue 3) "not-an-id" eq_refl) eq_refl).
Defined.

End ProductListFacts.

(* ------------------------------------------------------------------ *)
(** *** The counts of the categories list *)

Module CategoryListFacts.
Import JS Validator Mongoose Categories CategoryList Notions.
Import QueryFacts CategoryFacts.

Lemma referencing_snoc id prods p :
  referencing id (prods ++ p :: nil)
  = (referencing id prods
     + (if String.eqb (Products.category p) id then 1 else 0))%nat.
Proof.
  unfold referencing. rewrite filter_app, length_app. simpl.
  destruct (String.eqb (Products.category p) id); reflexivity.
Qed.

Lemma referencingInStock_snoc id prods p :
  referencingInStock id (prods ++ p :: nil)
  = (referencingInStock id prods
     + (if String.eqb (Products.category p) id then inStockUnit p else 0))%nat.
Proof.
  unfold referencingInStock, inStockUnit.
  rewrite filter_app, length_app. simpl.
  destruct (String.eqb (Products.category p) id), (Products.inStock p);
    reflexivity.
Qed.

Lemma referencingInStock_le id prods :
  (referencingInStock id prods <= referencing id prods)%nat.
Proof.
  unfold referencingInStock, referencing.
  induction prods as [|p rest IH]; simpl; [lia |].
  destruct (String.eqb (Products.category p) id), (Products.inStock p);
    simpl; lia.
Qed.

Lemma addToGroup_ids p gs :
  (In (Products.category p) (map g_id gs) /\
   map g_id (addToGroup p gs) = map g_id gs) \/
  (~ In (Products.category p) (map g_id gs) /\
   map g_id (addToGroup p gs)
   = (map g_id gs ++ Products.category p :: nil)%list).
Proof.
  induction gs as [|g rest IH]; simpl.
  - right. split; [tauto | reflexivity].
  - destruct (String.eqb (g_id g) (Products.category p)) eqn:E.
    + apply String.eqb_eq in E. left. split; [now left | reflexivity].
    + apply String.eqb_neq in E. simpl.
      destruct IH as [[H1 H2] | [H1 H2]].
      * left. split; [now right | now rewrite H2].
      * right. split; [| now rewrite H2]. intros [H | H]; tauto.
Qed.

Lemma addToGroup_In p gs g :
  NoDup (map g_id gs) ->
  In g (addToGroup p gs) ->
  (In g gs /\ g_id g <> Products.category p) \/
  (g_id g = Products.category p /\
   ((exists g0, In g0 gs /\ g_id g0 = g_id g /\
                g_count g = S (g_count g0) /\
                g_inStockCount g = (g_inStockCount g0 + inStockUnit p)%nat) \/
    (~ In (g_id g) (map g_id gs) /\ g_count g = 1%nat /\
     g_inStockCount g = inStockUnit p))).
Proof.
  induction gs as [|x rest IH]; simpl; intros ND H.
  - destruct H as [<- | []]. right. simpl. split; [reflexivity |].
    right. tauto.
  - inversion ND as [|? ? Hx ND']; subst.
    destruct (String.eqb (g_id x) (Products.category p)) eqn:E.
    + apply String.eqb_eq in E. destruct H as [<- | H].
      * right. simpl. split; [exact E |]. left. exists x. tauto.
      * left. split; [now right |]. intros C. apply Hx.
        rewrite E, <- C. now apply in_map.
    + apply String.eqb_neq in E. destruct H as [<- | H].
      * left. split; [now left | exact E].
      * destruct (IH ND' H) as [[H1 H2] | [H1 [(g0 & G1 & G2 & G3) | (G1 & G2)]]].
        -- left. split; [now right | exact H2].
        -- right. split; [exact H1 |]. left. exists g0. tauto.
        -- right. split; [exact H1 |]. right. split; [| exact G2].
           intros [C | C]; [congruence | tauto].
Qed.

Lemma addToGroup_Grouped p gs prods :
  Grouped gs prods -> Grouped (addToGroup p gs) (prods ++ p :: nil).
Proof.
  intros (ND & Hg & Hn). unfold Grouped. split; [| split].
  - destruct (addToGroup_ids p gs) as [[_ ->] | [H ->]]; [exact ND |].
    apply NoDup_app; [exact ND | repeat constructor; tauto |].
    intros a Ha [<- | []]. tauto.
  - intros g Hin. rewrite referencing_snoc, referencingInStock_snoc.
    destruct (addToGroup_In p gs g ND Hin)
      as [[H1 H2] | [H1 [(g0 & G1 & G2 & G3 & G4) | (G1 & G2 & G3)]]].
    + assert (String.eqb (Products.category p) (g_id g) = false) as ->
        by (apply String.eqb_neq; congruence).
      destruct (Hg g H1) as [-> ->]. lia.
    + rewrite H1, String.eqb_refl. destruct (Hg g0 G1) as [A B].
      rewrite G3, G4, A, B, G2, H1. lia.
    + rewrite H1, String.eqb_refl. rewrite <- H1, (Hn _ G1), G2, G3.
      assert (referencingInStock (g_id g) prods = 0%nat) as ->.
      { pose proof (referencingInStock_le (g_id g) prods) as L.
        rewrite (Hn _ G1) in L. lia. }
      lia.
  - intros id Hid. rewrite referencing_snoc.
    destruct (addToGroup_ids p gs) as [[H E] | [H E]]; rewrite E in Hid.
    + rewrite (Hn id Hid).
      assert (String.eqb (Products.category p) id = false) as ->
        by (apply String.eqb_neq; congruence).
      reflexivity.
    + rewrite in_app_iff in Hid. simpl in Hid.
      rewrite (Hn id ltac:(tauto)).
      assert (String.eqb (Products.category p) id = false) as ->
        by (apply String.eqb_neq; tauto).
      reflexivity.
Qed.

Lemma fold_addToGroup_Grouped later gs done :
  Grouped gs done ->
  Grouped (fold_left (fun gs p => addToGroup p gs) later gs) (done ++ later).
Proof.
  revert gs done. induction later as [|p rest IH]; intros gs done H; simpl.
  - now rewrite app_nil_r.
  - replace (done ++ p :: rest)%list with ((done ++ p :: nil) ++ rest)%list
      by (now rewrite <- app_assoc).
    apply IH. now apply addToGroup_Grouped.
Qed.

(** The [$group] stage yields one group for each category that has a
    product, with the two counts of that category. *)
Lemma aggregate_Grouped prods : Grouped (aggregate prods) prods.
Proof.
  apply (fold_addToGroup_Grouped prods nil nil).
  unfold Grouped. simpl. repeat split; try constructor; tauto.
Qed.

Lemma countsMap_notin gs m k :
  ~ In k (map g_id gs) ->
  fold_left
    (fun m g => assign (g_id g) (mkCounts (g_count g) (g_inStockCount g)) m)
    gs m k = m k.
Proof.
  revert m. induction gs as [|g rest IH]; intros m H; simpl; [reflexivity |].
  simpl in H. rewrite IH by tauto. unfold assign.
  assert (String.eqb k (g_id g) = false) as ->
    by (apply String.eqb_neq; intros C; apply H; left; congruence).
  reflexivity.
Qed.

Lemma countsMap_in gs m g :
  NoDup (map g_id gs) -> In g gs ->
  fold_left
    (fun m g => assign (g_id g) (mkCounts (g_count g) (g_inStockCount g)) m)
    gs m (g_id g) = Some (mkCounts (g_count g) (g_inStockCount g)).
Proof.
  revert m. induction gs as [|x rest IH]; intros m ND H; simpl; [easy |].
  inversion ND as [|? ? Hx ND']; subst. destruct H as [-> | H].
  - rewrite countsMap_notin by exact Hx. unfold assign.
    now rewrite String.eqb_refl.
  - now apply IH.
Qed.

(** What the list route reads from [countsMap] for a category. *)
Lemma counts_of_category prods id :
  orZero (option_map total (countsMap (aggregate prods) id))
  = referencing id prods /\
  orZero (option_map inStock (countsMap (aggregate prods) id))
  = referencingInStock id prods.
Proof.
  destruct (aggregate_Grouped prods) as (ND & Hg & Hn).
  destruct (in_dec string_dec id (map g_id (aggregate prods))) as [H | H].
  - apply in_map_iff in H. destruct H as (g & <- & Hin).
    unfold countsMap. rewrite (countsMap_in _ _ _ ND Hin). simpl.
    destruct (Hg g Hin) as [A B]. now split.
  - unfold countsMap. rewrite (countsMap_notin _ _ _ H). unfold emptyMap.
    simpl. rewrite (Hn id H).
    pose proof (referencingInStock_le id prods) as L.
    rewrite (Hn id H) in L. split; [reflexivity | lia].
Qed.

Lemma lookupId_found (id : string) (cats : list Category) (c : Category) :
  In c cats -> _id c = id ->
  exists c', lookupId Category _id id cats = Some c'.
Proof.
  intros Hin Hid. unfold lookupId.
  destruct (List.find (fun d => String.eqb (_id d) id) cats) as [c' |] eqn:E;
    [now exists c' |].
  pose proof (find_none _ _ E c Hin) as N. simpl in N.
  rewrite Hid, String.eqb_refl in N. discriminate.
Qed.

(** What the list route answers with, item by item. *)
Lemma listCategories_items
    (textFields : Category -> list string)
    (textMatch : string -> list string -> bool)
    (beyondSafe : Number -> Number -> option (nat * nat))
    (q : ListQuery) (db : DB) (items : list Listed) (it : Listed) :
  Http.data (listCategories textFields textMatch beyondSafe q db)
  = Some items ->
  In it items ->
  In (l_category it) (categories db) /\
  productCount it = referencing (_id (l_category it)) (products db) /\
  inStockCount it = referencingInStock (_id (l_category it)) (products db).
Proof.
  unfold listCategories. intros H Hin.
  destruct (listValidation q); [| discriminate]. cbv zeta in H.
  destruct (findPageAt Category getPath textFields createdAt textMatch
              beyondSafe (buildFilter q)
              (mul (sub (orDefault (parseInt (q_page q)) 1) (Num 1))
                 (orDefault (parseInt (q_limit q)) 50))
              (orDefault (parseInt (q_limit q)) 50) (categories db))
    as [cats | e] eqn:F; [| discriminate].
  simpl in H. injection H as <-.
  apply in_map_iff in Hin. destruct Hin as (c & <- & Hc).
  destruct (findPageAt_matches _ _ _ _ _ _ _ _ _ _ _ _ F Hc) as [Hstored _].
  destruct (counts_of_category (products db) (_id c)) as [A B].
  unfold withCounts. cbn [l_category productCount inStockCount].
  rewrite A, B. split; [exact Hstored |]. split; reflexivity.
Qed.

(** The counts of the categories list are the counts of the store: each
    listed category is a stored one and comes with the number of products
    that reference it and, never above it, the number of those in stock.
    The list and the delete guard agree: DELETE of a listed category
    answers 200 exactly when the list shows it with [productCount] 0, and
    400 otherwise. *)
Theorem categories_list_counts
    (textFields : Category -> list string)
    (textMatch : string -> list string -> bool)
    (beyondSafe : Number -> Number -> option (nat * nat))
    (validObjectId : string -> bool)
    (q : ListQuery) (db : DB) (items : list Listed) (it : Listed) :
  Http.data (listCategories textFields textMatch beyondSafe q db)
  = Some items ->
  In it items ->
  In (l_category it) (categories db) /\
  productCount it = referencing (_id (l_category it)) (products db) /\
  inStockCount it = referencingInStock (_id (l_category it)) (products db) /\
  (inStockCount it <= productCount it)%nat /\
  (validObjectId (_id (l_category it)) = true ->
   Http.status
     (fst (deleteCategory validObjectId textMatch (_id (l_category it)) db))
   = if (0 <? productCount it)%nat then 400%nat else 200%nat).
Proof.
  intros H Hin.
  destruct (listCategories_items _ _ _ _ _ _ _ H Hin) as (Hstored & A & B).
  split; [exact Hstored |]. split; [exact A |]. split; [exact B |].
  split; [rewrite A, B; apply referencingInStock_le |].
  intros Hv. unfold deleteCategory, findById. rewrite Hv.
  destruct (lookupId_found (_id (l_category it)) (categories db)
              (l_category it) Hstored eq_refl) as [c' Hc'].
  rewrite Hc'. rewrite (StoreFacts.lookupId_id _ _ _ _ _ Hc').
  rewrite productCountOf_referencing, A.
  destruct (0 <? referencing (_id (l_category it)) (products db))%nat;
    reflexivity.
Qed.

Lemma categories_list_counts_witness :
  productCount
    (mkListed (mkCategory "c1" "Herbs" true 10 10) 3 2) = 3%nat /\
  Http.status (fst (deleteCategory (fun _ => true) (fun _ _ => true) "c1"
                      twoCategories)) = 400%nat.
Proof.
  assert (Http.data (listCategories (fun c => name c :: nil)
                       (fun _ _ => true) refusing plainQuery twoCategories)
          = Some (mkListed (mkCategory "c2" "Spices" true 20 20) 0 0
                  :: mkListed (mkCategory "c1" "Herbs" true 10 10) 3 2
                  :: nil)) as D by (vm_compute; reflexivity).
  split; [reflexivity |].
  exact (proj2 (proj2 (proj2 (proj2
           (categories_list_counts (fun c => name c :: nil)
              (fun _ _ => true) refusing (fun _ => true) plainQuery
              twoCategories
              _ (mkListed (mkCategory "c1" "Herbs" true 10 10) 3 2)
              D (or_intror (or_introl eq_refl)))))) eq_refl).
Defined.

End CategoryListFacts.

(* ------------------------------------------------------------------ *)
(** *** The messages list *)

Module MessageListFacts.
Import JS Validator Mongoose MessageModel MessageRoutes ListParams Notions.
Import QueryFacts MessageFacts ListParamFacts NumberFacts.

Lemma skipn_Sorted {A : Type} (R : A -> A -> Prop) n l :
  Sorted R l -> Sorted R (skipn n l).
Proof.
  revert l. induction n as [|n IH]; intros l S; simpl; [exact S |].
  destruct l as [|x l]; [constructor |].
  inversion S; subst. now apply IH.
Qed.

(** What a message that matches the filter of a list request looks
    like. *)
Lemma filter_fields textMatch q m :
  matches Message getPath textFields textMatch (buildFilter q) m = true ->
  (forall c, q_category q = Some c -> truthy (Some c) = true ->
             category m = c) /\
  (forall p, q_priority q = Some p -> truthy (Some p) = true ->
             priority m = p) /\
  (forall v, q_isRead q = Some v -> isRead m = String.eqb v "true") /\
  (forall v, q_replied q = Some v -> replied m = String.eqb v "true").
Proof.
  unfold buildFilter.
  destruct (q_category q) as [c |]; try destruct (truthy (Some c)) eqn:Tc;
    destruct (q_priority q) as [p |]; try destruct (truthy (Some p)) eqn:Tp;
    destruct (q_isRead q) as [r |]; destruct (q_replied q) as [r' |];
    destruct (q_search q) as [s |]; try destruct (truthy (Some s));
    cbv zeta; rewrite ?matches_setKey, ?andb_true_iff;
    intros H; decompose [and] H; clear H;
    (split; [| split; [| split]]);
    intros x Hx; try intros Tx; try discriminate; try congruence;
    injection Hx as <-;
    match goal with
    | M : matchesEntry _ _ _ _ m ("category", _) = true
      |- category m = _ =>
        unfold matchesEntry in M; simpl in M; now apply String.eqb_eq in M
    | M : matchesEntry _ _ _ _ m ("priority", _) = true
      |- priority m = _ =>
        unfold matchesEntry in M; simpl in M; now apply String.eqb_eq in M
    | M : matchesEntry _ _ _ _ m ("isRead", _) = true
      |- isRead m = _ =>
        unfold matchesEntry in M; simpl in M; now apply Bool.eqb_prop in M
    | M : matchesEntry _ _ _ _ m ("replied", _) = true
      |- replied m = _ =>
        unfold matchesEntry in M; simpl in M; now apply Bool.eqb_prop in M
    end.
Qed.

Lemma validation_parts q :
  listValidation q = nil ->
  pageLimitValidation (q_page q) (q_limit q) = nil /\
  (forall c, q_category q = Some c -> isIn routeCategories c = true) /\
  (forall p, q_priority q = Some p -> isIn routePriorities p = true).
Proof.
  unfold listValidation, pageLimitValidation. intros V.
  apply app_eq_nil in V. destruct V as [Vp V].
  apply app_eq_nil in V. destruct V as [Vl V].
  apply app_eq_nil in V. destruct V as [Vc V].
  apply app_eq_nil in V. destruct V as [Vr _].
  split; [now rewrite Vp, Vl |]. split.
  - intros c Hc. rewrite Hc in Vc. simpl in Vc. now apply check_nil in Vc.
  - intros p Hp. rewrite Hp in Vr. simpl in Vr. now apply check_nil in Vr.
Qed.

(** What a request that passes the validators computes with: a limit
    between 1 and 100. *)
Lemma validated_limit q :
  listValidation q = nil ->
  exists limit,
    orDefault (parseInt (q_limit q)) 10 = Num limit /\ 1 <= limit <= 100.
Proof.
  intros V. destruct (validation_parts q V) as [V2 _].
  assert (messages (q_page q) (q_limit q)
          = Some (orDefault (parseInt (q_page q)) 1,
                  orDefault (parseInt (q_limit q)) 10)) as E
    by (unfold messages, validated; now rewrite V2).
  destruct (validated_bounds 10 _ _ _ _ ltac:(lia) E)
    as (_ & (lz & L & B) & _ & _).
  now exists lz.
Qed.

(** What the route returns is a stretch of the messages that match the
    filter, newest first, with the statistics and the pagination object
    of the request. *)
Lemma listMessages_returns textMatch beyondSafe q docs listing :
  Http.data (listMessages textMatch beyondSafe q docs) = Some listing ->
  l_stats listing = aggregateStats docs /\
  (exists a b,
      l_items listing
      = firstn b
          (skipn a
             (sortNewestFirst Message createdAt
                (find Message getPath textFields textMatch (buildFilter q)
                   docs)))) /\
  Http.pagination (listMessages textMatch beyondSafe q docs)
  = Some (Http.mkPagination (orDefault (parseInt (q_page q)) 1)
            (ceilQuotient
               (Z.of_nat
                  (countDocuments Message getPath textFields textMatch
                     (buildFilter q) docs))
               (orDefault (parseInt (q_limit q)) 10))
            (Z.of_nat
               (countDocuments Message getPath textFields textMatch
                  (buildFilter q) docs))
            (orDefault (parseInt (q_limit q)) 10)).
Proof.
  unfold listMessages. destruct (listValidation q); [| discriminate].
  cbv zeta.
  destruct (findPageAt Message getPath textFields createdAt textMatch
              beyondSafe (buildFilter q)
              (mul (sub (orDefault (parseInt (q_page q)) 1) (Num 1))
                 (orDefault (parseInt (q_limit q)) 10))
              (orDefault (parseInt (q_limit q)) 10) docs)
    as [found |] eqn:F; simpl; [| discriminate].
  intros H. injection H as <-. cbn [l_stats l_items].
  split; [reflexivity |]. split; [| reflexivity].
  now apply (findPageAt_slice _ _ _ _ _ _ _ _ _ _ _ F).
Qed.

(** The route on a page within the safe integers. *)
Lemma listMessages_safe textMatch beyondSafe q docs p l :
  listValidation q = nil ->
  orDefault (parseInt (q_page q)) 1 = Num p ->
  orDefault (parseInt (q_limit q)) 10 = Num l ->
  1 <= p -> 1 <= l <= 100 ->
  isSafeInteger ((p - 1) * l) = true ->
  listMessages textMatch beyondSafe q docs
  = Http.mkResponse 200 true None nil
      (Some (mkListing
               (firstn (Z.to_nat l)
                  (skipn (Z.to_nat ((p - 1) * l))
                     (sortNewestFirst Message createdAt
                        (find Message getPath textFields textMatch
                           (buildFilter q) docs))))
               (aggregateStats docs)))
      (Some (Http.mkPagination (Num p)
               (Num (ceilDiv
                       (Z.of_nat
                          (countDocuments Message getPath textFields
                             textMatch (buildFilter q) docs))
                       l))
               (Z.of_nat
                  (countDocuments Message getPath textFields textMatch
                     (buildFilter q) docs))
               (Num l))).
Proof.
  intros V Hp Hl P L S.
  assert (isSafeInteger l = true) as Sl by (apply isSafeInteger_spec; lia).
  unfold listMessages. rewrite V, Hp, Hl. cbv zeta.
  rewrite (skip_safe _ _ (safe_pred p l P ltac:(lia) S) S).
  rewrite (findPageAt_safe _ _ _ _ _ _ _ _ _ _ S Sl).
  unfold findPage.
  destruct ((p - 1) * l <? 0) eqn:N; [apply Z.ltb_lt in N; nia |].
  rewrite applyLimit_positive by lia.
  unfold ceilQuotient. destruct l; try lia. reflexivity.
Qed.

(** The page of the messages list.  A request that passes the validators
    has a limit between 1 and 100.  What it returns are stored messages,
    newest first, each with the category, the priority and the read and
    replied flags the request asks for; and for a page within the safe
    integers it is answered 200 with at most [limit] of them. *)
Theorem messages_list_page
    (textMatch : string -> list string -> bool)
    (beyondSafe : Number -> Number -> option (nat * nat))
    (q : ListQuery) (docs : list Message) :
  listValidation q = nil ->
  exists limit,
    orDefault (parseInt (q_limit q)) 10 = Num limit /\
    1 <= limit <= 100 /\
    (forall listing,
        Http.data (listMessages textMatch beyondSafe q docs) = Some listing ->
        l_stats listing = aggregateStats docs /\
        Sorted (fun a b => createdAt b <= createdAt a) (l_items listing) /\
        forall m, In m (l_items listing) ->
          In m docs /\
          (forall c, q_category q = Some c -> category m = c) /\
          (forall p, q_priority q = Some p -> priority m = p) /\
          (forall v, q_isRead q = Some v ->
                     isRead m = String.eqb v "true") /\
          (forall v, q_replied q = Some v ->
                     replied m = String.eqb v "true")) /\
    (forall p,
        orDefault (parseInt (q_page q)) 1 = Num p ->
        isSafeInteger ((p - 1) * limit) = true ->
        exists items,
          Http.status (listMessages textMatch beyondSafe q docs) = 200%nat /\
          Http.data (listMessages textMatch beyondSafe q docs)
          = Some (mkListing items (aggregateStats docs)) /\
          option_map Http.limit
            (Http.pagination (listMessages textMatch beyondSafe q docs))
          = Some (Num limit) /\
          Z.of_nat (List.length items) <= limit).
Proof.
  intros V. destruct (validated_limit q V) as (limit & Hl & L).
  destruct (validation_parts q V) as (V2 & Vc & Vp).
  exists limit. split; [exact Hl |]. split; [exact L |]. split.
  - intros listing H.
    destruct (listMessages_returns _ _ _ _ _ H) as (St & (a & b & It) & _).
    split; [exact St |]. rewrite It.
    split; [apply DashboardFeedFacts.firstn_Sorted, skipn_Sorted,
            sortNewestFirst_sorted |].
    intros m Hm. apply firstn_incl, skipn_incl in Hm.
    apply (Permutation_in _ (sortNewestFirst_perm _ _ _)) in Hm.
    apply find_matches in Hm. destruct Hm as [Hin Hm].
    apply filter_fields in Hm. destruct Hm as (Fc & Fp & Fr & Fr').
    split; [exact Hin |]. split; [| split; [| split; assumption]].
    + intros c Hc. apply Fc; [exact Hc |].
      apply (ContactFacts.isIn_truthy routeCategories);
        [| now apply Vc].
      unfold routeCategories. simpl. intuition discriminate.
    + intros p Hp. apply Fp; [exact Hp |].
      apply (ContactFacts.isIn_truthy routePriorities);
        [| now apply Vp].
      unfold routePriorities. simpl. intuition discriminate.
  - intros p Hp S.
    assert (1 <= p) as P.
    { assert (messages (q_page q) (q_limit q)
              = Some (orDefault (parseInt (q_page q)) 1,
                      orDefault (parseInt (q_limit q)) 10)) as E
        by (unfold messages, validated; now rewrite V2).
      destruct (validated_bounds 10 _ _ _ _ ltac:(lia) E) as (B & _).
      rewrite Hp in B. simpl in B. now apply Z.leb_le. }
    rewrite (listMessages_safe textMatch beyondSafe q docs p limit V Hp Hl
               P L S).
    eexists. cbn [Http.status Http.data Http.pagination option_map
                  Http.limit].
    split; [reflexivity |]. split; [reflexivity |].
    split; [reflexivity |].
    rewrite length_firstn.
    generalize (List.length
                  (skipn (Z.to_nat ((p - 1) * limit))
                     (sortNewestFirst Message createdAt
                        (find Message getPath textFields textMatch
                           (buildFilter q) docs)))).
    intros n. lia.
Qed.

Lemma messages_list_page_witness :
  exists limit,
    orDefault (parseInt (Some "100")) 10 = Num limit /\ 1 <= limit <= 100.
Proof.
  destruct (messages_list_page (fun _ _ => true) refusing
              (mkListQuery None (Some "100") (Some "general") None None
                 (Some "false") None)
              (unreadMessage :: nil) eq_refl)
    as (limit & Hl & L & _).
  exists limit. split; [exact Hl | exact L].
Defined.

(** The list accepts the priorities CEO, Sales Manager and Herbs Priority
    as a filter, and that filter never finds anything: whatever has been
    submitted, updated and fetched before, what is returned holds no
    message, total 0 and 0 pages, and a page within the safe integers is
    answered 200. *)
Theorem role_priority_filter_finds_nothing
    (isEmail : string -> bool) (normalizeEmail : string -> string)
    (validObjectId : string -> bool)
    (textMatch : string -> list string -> bool)
    (beyondSafe : Number -> Number -> option (nat * nat))
    (q : ListQuery) (docs : list Message) (p : string) :
  reachable isEmail normalizeEmail validObjectId docs ->
  In p roleLabels ->
  q_priority q = Some p ->
  isIn routePriorities p = true /\
  (listValidation q = nil ->
   (forall listing,
       Http.data (listMessages textMatch beyondSafe q docs) = Some listing ->
       l_items listing = nil /\
       option_map Http.total
         (Http.pagination (listMessages textMatch beyondSafe q docs))
       = Some 0 /\
       option_map Http.pages
         (Http.pagination (listMessages textMatch beyondSafe q docs))
       = Some (Num 0)) /\
   (forall page limit,
       orDefault (parseInt (q_page q)) 1 = Num page ->
       orDefault (parseInt (q_limit q)) 10 = Num limit ->
       isSafeInteger ((page - 1) * limit) = true ->
       Http.status (listMessages textMatch beyondSafe q docs) = 200%nat /\
       Http.data (listMessages textMatch beyondSafe q docs)
       = Some (mkListing nil (aggregateStats docs)))).
Proof.
  intros R Hp Hq. split.
  { unfold roleLabels in Hp. simpl in Hp.
    destruct Hp as [<- | [<- | [<- | []]]]; reflexivity. }
  intros V.
  assert (find Message getPath textFields textMatch (buildFilter q) docs
          = nil) as N.
  { pose proof (reachable_inv _ _ _ _ R) as I. unfold PriorityInv in I.
    rewrite Forall_forall in I.
    destruct (find Message getPath textFields textMatch (buildFilter q) docs)
      as [|m rest] eqn:F; [reflexivity |].
    assert (In m (find Message getPath textFields textMatch (buildFilter q)
                    docs)) as Hm by (rewrite F; now left).
    apply find_matches in Hm. destruct Hm as [Hin Hm].
    apply filter_fields in Hm. destruct Hm as (_ & Fp & _).
    assert (truthy (Some p) = true) as T.
    { unfold roleLabels in Hp. simpl in Hp.
      destruct Hp as [<- | [<- | [<- | []]]]; reflexivity. }
    specialize (Fp p Hq T). specialize (I m Hin). rewrite Fp in I.
    exfalso. exact (roleLabel_not_in_enum p Hp I). }
  destruct (validated_limit q V) as (lz & Hl & L).
  split.
  - intros listing H.
    destruct (listMessages_returns _ _ _ _ _ H) as (_ & (a & b & It) & Pg).
    rewrite It, Pg, N. cbn [sortNewestFirst fold_right].
    rewrite skipn_nil, firstn_nil. split; [reflexivity |].
    unfold countDocuments. rewrite N, Hl.
    cbn [option_map Http.total Http.pages List.length].
    split; [reflexivity |].
    unfold ceilQuotient. destruct lz; try lia. reflexivity.
  - intros page limit Hpage Hlimit S.
    rewrite Hl in Hlimit. injection Hlimit as <-.
    assert (1 <= page) as P.
    { destruct (validation_parts q V) as (V2 & _).
      assert (messages (q_page q) (q_limit q)
              = Some (orDefault (parseInt (q_page q)) 1,
                      orDefault (parseInt (q_limit q)) 10)) as E
        by (unfold messages, validated; now rewrite V2).
      destruct (validated_bounds 10 _ _ _ _ ltac:(lia) E) as (B & _).
      rewrite Hpage in B. simpl in B. now apply Z.leb_le. }
    rewrite (listMessages_safe textMatch beyondSafe q docs page lz V Hpage
               Hl P L S).
    rewrite N. cbn [sortNewestFirst fold_right Http.status Http.data].
    now rewrite skipn_nil, firstn_nil.
Qed.

Lemma role_priority_filter_finds_nothing_witness :
  Http.data
    (listMessages (fun _ _ => true) refusing
       (mkListQuery None None None (Some "CEO") None None None)
       (snd (postMessage (fun _ => true) (fun e => e) 1000 "m1" helloRequest
               nil)))
  = Some (mkListing nil
            (aggregateStats
               (snd (postMessage (fun _ => true) (fun e => e) 1000 "m1"
                       helloRequest nil)))).
Proof.
  exact (proj2
           (proj2
              (proj2 (role_priority_filter_finds_nothing (fun _ => true)
                        (fun e => e) (fun _ => true) (fun _ _ => true)
                        refusing
                        (mkListQuery None None None (Some "CEO") None None
                           None)
                        (snd (postMessage (fun _ => true) (fun e => e) 1000
                                "m1" helloRequest nil))
                        "CEO"
                        (reach_step _ _ _ _ _ (reach_empty _ _ _)
                           (step_create _ _ _ 1000 "m1" helloRequest nil))
                        (or_introl eq_refl) eq_refl)
                 eq_refl)
              1 10 eq_refl eq_refl eq_refl)).
Defined.

End MessageListFacts.

(* ------------------------------------------------------------------ *)
(** *** Deleting products, certificates and team members *)

Module DeleteFacts.
Import JS Mongoose Cloudinary DeleteRoutes Notions.
Import StoreFacts.

Lemma deleteImage_sent destroy pid :
  truthy pid = true ->
  fst (deleteImage destroy pid)
  = match pid with Some p => p | None => EmptyString end :: nil.
Proof.
  intros T. unfold deleteImage. rewrite T.
  destruct (destroy match pid with Some p => p | None => EmptyString end);
    reflexivity.
Qed.

Lemma referencing_removeId id prods p c :
  lookupId Products.Product Products._id id prods = Some p ->
  (referencing c (removeId Products.Product Products._id id prods)
   + (if String.eqb (Products.category p) c then 1 else 0)
   = referencing c prods)%nat.
Proof.
  unfold lookupId, referencing.
  induction prods as [|x rest IH]; simpl; [discriminate |].
  destruct (String.eqb (Products._id x) id).
  - intros H. injection H as ->.
    destruct (String.eqb (Products.category p) c); simpl; lia.
  - intros H. specialize (IH H). simpl.
    destruct (String.eqb (Products.category x) c); simpl; lia.
Qed.

(** The delete routes of products, certificates and team members remove
    the stored document whatever the asset host does.  For a stored
    document the answer is 200 and the collection loses exactly that
    document, the others being found as before; the asset host is asked
    at most once, for the stored public id and only when there is one;
    and neither the answer nor the collection depends on what the host
    answers. *)
Theorem delete_does_not_depend_on_asset_host
    (Doc : Type) (docId : Doc -> string)
    (imagePublicId : Doc -> option string)
    (notFound invalidId serverFailure deleted : string)
    (validObjectId : string -> bool)
    (destroy destroy' : string -> Outcome)
    (id : string) (docs : list Doc) (d : Doc) :
  validObjectId id = true ->
  lookupId Doc docId id docs = Some d ->
  Http.status
    (fst (fst (deleteDoc Doc docId imagePublicId notFound invalidId
                 serverFailure deleted validObjectId destroy id docs)))
  = 200%nat /\
  fst (deleteDoc Doc docId imagePublicId notFound invalidId serverFailure
         deleted validObjectId destroy id docs)
  = fst (deleteDoc Doc docId imagePublicId notFound invalidId serverFailure
           deleted validObjectId destroy' id docs) /\
  S (List.length
       (snd (fst (deleteDoc Doc docId imagePublicId notFound invalidId
                    serverFailure deleted validObjectId destroy id docs))))
  = List.length docs /\
  (forall id', id' <> id ->
     lookupId Doc docId id'
       (snd (fst (deleteDoc Doc docId imagePublicId notFound invalidId
                    serverFailure deleted validObjectId destroy id docs)))
     = lookupId Doc docId id' docs) /\
  snd (deleteDoc Doc docId imagePublicId notFound invalidId serverFailure
         deleted validObjectId destroy id docs)
  = match imagePublicId d with
    | Some pid => if String.eqb pid "" then nil else pid :: nil
    | None => nil
    end.
Proof.
  intros Hv Hd. unfold deleteDoc, findById. rewrite Hv, Hd. cbn [fst snd].
  split; [reflexivity |]. split; [reflexivity |].
  split; [now apply removeId_length with (d := d) |].
  split; [intros id' Hne; now apply lookupId_removeId_other |].
  unfold deleteStoredImage.
  destruct (imagePublicId d) as [pid |] eqn:E; [| reflexivity].
  destruct pid as [|c pid]; [reflexivity |].
  now rewrite deleteImage_sent.
Qed.

Lemma delete_does_not_depend_on_asset_host_witness :
  snd (deleteDoc Products.Product Products._id Products.imagePublicId
         "Product not found" "Invalid product ID"
         "Server error while deleting product" "Product deleted successfully"
         (fun _ => true) (fun _ => Failed) "p1" (pictured :: nil))
  = match Products.imagePublicId pictured with
    | Some pid => if String.eqb pid "" then nil else pid :: nil
    | None => nil
    end.
Proof.
  exact (proj2 (proj2 (proj2 (proj2
           (delete_does_not_depend_on_asset_host Products.Product
              Products._id Products.imagePublicId
              "Product not found" "Invalid product ID"
              "Server error while deleting product"
              "Product deleted successfully"
              (fun _ => true) (fun _ => Failed) (fun _ => Destroyed)
              "p1" (pictured :: nil) pictured eq_refl eq_refl))))).
Defined.

(** Deleting a product shows in the categories list and opens the way to
    deleting its category: after DELETE of a stored product, the list
    shows the category of that product with a [productCount] one lower
    than the number of products that referenced it before, and every
    other category with its number as before. *)
Theorem product_delete_lowers_category_count
    (textFields : Categories.Category -> list string)
    (textMatch : string -> list string -> bool)
    (beyondSafe : Number -> Number -> option (nat * nat))
    (validObjectId : string -> bool) (destroy : string -> Outcome)
    (id : string) (db : Categories.DB) (p : Products.Product)
    (q : CategoryList.ListQuery) (items : list CategoryList.Listed)
    (it : CategoryList.Listed) :
  validObjectId id = true ->
  lookupId Products.Product Products._id id (Categories.products db)
  = Some p ->
  Http.data
    (CategoryList.listCategories textFields textMatch beyondSafe q
       (afterProductDelete validObjectId destroy id db)) = Some items ->
  In it items ->
  (CategoryList.productCount it
   + (if String.eqb (Products.category p)
           (Categories._id (CategoryList.l_category it))
      then 1 else 0)
   = referencing (Categories._id (CategoryList.l_category it))
       (Categories.products db))%nat.
Proof.
  intros Hv Hp Hl Hin.
  destruct (CategoryListFacts.listCategories_items _ _ _ _ _ _ _ Hl Hin)
    as (_ & A & _).
  rewrite A. unfold afterProductDelete, deleteProduct, deleteDoc, findById.
  rewrite Hv, Hp. cbn [fst snd Categories.products].
  now apply referencing_removeId.
Qed.

Lemma product_delete_lowers_category_count_witness :
  (2 + 1
   = referencing "c1" (Categories.products CategoryList.twoCategories))%nat.
Proof.
  assert (Http.data
            (CategoryList.listCategories
               (fun c => Categories.name c :: nil) (fun _ _ => true)
               refusing CategoryList.plainQuery
               (afterProductDelete (fun _ => true) (fun _ => Failed) "1"
                  CategoryList.twoCategories))
          = Some (CategoryList.mkListed
                    (Categories.mkCategory "c2" "Spices" true 20 20) 0 0
                  :: CategoryList.mkListed
                       (Categories.mkCategory "c1" "Herbs" true 10 10) 2 2
                  :: nil)) as D by (vm_compute; reflexivity).
  exact (product_delete_lowers_category_count
           (fun c => Categories.name c :: nil) (fun _ _ => true) refusing
           (fun _ => true) (fun _ => Failed) "1" CategoryList.twoCategories
           (sampleProduct "c1" false 1) CategoryList.plainQuery _
           (CategoryList.mkListed
              (Categories.mkCategory "c1" "Herbs" true 10 10) 2 2)
           eq_refl eq_refl D (or_intror (or_introl eq_refl))).
Defined.

End DeleteFacts.

(* ------------------------------------------------------------------ *)
(** *** The email addresses the Message schema accepts *)

Module EmailFacts.
Import Regex RegexSemantics Mongoose MessageModel MessageRoutes.
Import Notions MoreNotions JSArrayFacts MessageFacts.

Lemma nullable_sound r : nullable r = true -> Matches r EmptyString.
Proof.
  induction r as [| | p | r1 IH1 r2 IH2 | r1 IH1 r2 IH2 | r1 IH1]; simpl;
    intros H; try discriminate.
  - constructor.
  - apply andb_true_iff in H. destruct H as [H1 H2].
    change EmptyString with (EmptyString ++ EmptyString). constructor; auto.
  - apply orb_true_iff in H. destruct H as [H | H];
      [apply MOrL | apply MOrR]; auto.
  - constructor.
Qed.

Lemma seq_sound r1 r2 s : Matches (seq r1 r2) s -> Matches (Seq r1 r2) s.
Proof.
  intros H.
  destruct r1, r2; simpl in H; try (inversion H; fail); try exact H;
    (apply (MSeq Empty _ EmptyString s); [apply MEmpty | exact H]).
Qed.

Lemma or_sound r1 r2 s : Matches (or r1 r2) s -> Matches (Or r1 r2) s.
Proof.
  intros H.
  destruct r1, r2; simpl in H; try (inversion H; fail); try exact H;
    try (apply MOrR; exact H); apply MOrL; exact H.
Qed.

Lemma deriv_sound c r s : Matches (deriv c r) s -> Matches r (String c s).
Proof.
  revert s.
  induction r as [| | p | r1 IH1 r2 IH2 | r1 IH1 r2 IH2 | r1 IH1]; simpl;
    intros s H.
  - inversion H.
  - inversion H.
  - destruct (p c) eqn:E; [| inversion H]. inversion H; subst.
    now constructor.
  - destruct (nullable r1) eqn:N.
    + apply or_sound in H. inversion H; subst.
      * match goal with M : Matches (seq _ _) _ |- _ =>
          apply seq_sound in M; inversion M; subst end.
        match goal with |- Matches _ (String c (?a ++ ?b)) =>
          change (String c (a ++ b)) with (String c a ++ b) end.
        constructor; auto.
      * change (String c s) with (EmptyString ++ String c s).
        constructor; [now apply nullable_sound | auto].
    + apply seq_sound in H. inversion H; subst.
      match goal with |- Matches _ (String c (?a ++ ?b)) =>
        change (String c (a ++ b)) with (String c a ++ b) end.
      constructor; auto.
  - apply or_sound in H. inversion H; subst;
      [apply MOrL | apply MOrR]; auto.
  - apply seq_sound in H. inversion H; subst.
    match goal with |- Matches _ (String c (?a ++ ?b)) =>
      change (String c (a ++ b)) with (String c a ++ b) end.
    apply MStarCons; auto.
Qed.

(** A string the test accepts is a word of the expression. *)
Lemma test_sound r s : test r s = true -> Matches r s.
Proof.
  revert r. induction s as [|c s IH]; simpl; intros r H.
  - now apply nullable_sound.
  - now apply deriv_sound, IH.
Qed.

(** A word of a repetition that is not empty ends with a word of what is
    repeated. *)
Lemma star_last r0 x :
  Matches r0 x ->
  forall r, r0 = Star r ->
  x = EmptyString \/ exists pre t, x = pre ++ t /\ Matches r t.
Proof.
  induction 1 as [| | | | | r' | r' s1 s2 H1 _ H2 IH2]; intros r E;
    try discriminate.
  - now left.
  - injection E as ->. right.
    destruct (IH2 r eq_refl) as [-> | (pre & t & -> & Ht)].
    + exists EmptyString, s1. split; [now rewrite append_nil_r | exact H1].
    + exists (s1 ++ pre), t. split; [now rewrite append_assoc | exact Ht].
Qed.

Lemma class_word p s :
  Matches (Class p) s -> exists c, s = String c EmptyString /\ p c = true.
Proof. intros H. inversion H; subst. eauto. Qed.

(** The words of the last part of the expression, [\.\w{2,3}]. *)
Lemma tld_word t :
  Matches
    (Seq (chr "."%char)
       (Seq (Class wordChar) (Seq (Class wordChar) (opt (Class wordChar)))))
    t ->
  exists tld,
    t = String "."%char tld /\
    (String.length tld = 2%nat \/ String.length tld = 3%nat) /\
    allWord tld = true.
Proof.
  intros H. inversion H as [| | ? ? d r1 Hd Hr | | | |]; subst.
  apply class_word in Hd. destruct Hd as (c0 & -> & E0).
  apply Ascii.eqb_eq in E0. subst c0.
  inversion Hr as [| | ? ? w1 r2 Hw1 Hr2 | | | |]; subst.
  apply class_word in Hw1. destruct Hw1 as (c1 & -> & E1).
  inversion Hr2 as [| | ? ? w2 r3 Hw2 Hr3 | | | |]; subst.
  apply class_word in Hw2. destruct Hw2 as (c2 & -> & E2).
  unfold opt in Hr3. inversion Hr3 as [| | | ? ? ? He | ? ? ? Hw3 | |]; subst.
  - inversion He; subst. exists (String c1 (String c2 EmptyString)).
    simpl. rewrite E1, E2. auto.
  - apply class_word in Hw3. destruct Hw3 as (c3 & -> & E3).
    exists (String c1 (String c2 (String c3 EmptyString))).
    simpl. rewrite E1, E2, E3. auto.
Qed.

(** What the [match] validator of the [email] path lets through. *)
Lemma emailRegex_shape s : test emailRegex s = true -> EmailShape s.
Proof.
  intros H. apply test_sound in H. unfold emailRegex in H. cbv zeta in H.
  inversion H as [| | ? ? p1 r1 Hp1 Hr1 | | | |]; subst.
  inversion Hr1 as [| | ? ? a r2 Ha Hr2 | | | |]; subst.
  apply class_word in Ha. destruct Ha as (c & -> & Ec).
  apply Ascii.eqb_eq in Ec. subst c.
  inversion Hr2 as [| | ? ? p2 r3 Hp2 Hr3 | | | |]; subst.
  unfold plus in Hr3.
  inversion Hr3 as [| | ? ? t1 ts Ht1 Hts | | | |]; subst.
  assert (hasChar "@"%char (p1 ++ String "@"%char EmptyString) = true) as A.
  { rewrite hasChar_app. simpl. apply orb_true_r. }
  destruct (star_last _ _ Hts _ eq_refl) as [-> | (pre & t & -> & Ht)].
  - apply tld_word in Ht1. destruct Ht1 as (tld & -> & L & W).
    exists ((p1 ++ String "@"%char EmptyString) ++ p2), tld.
    split; [| split; [exact L | split; [exact W |]]].
    + rewrite append_nil_r, !append_assoc. reflexivity.
    + rewrite hasChar_app, A. reflexivity.
  - apply tld_word in Ht. destruct Ht as (tld & -> & L & W).
    exists ((p1 ++ String "@"%char EmptyString) ++ p2 ++ t1 ++ pre), tld.
    split; [| split; [exact L | split; [exact W |]]].
    + rewrite !append_assoc. reflexivity.
    + rewrite hasChar_app, A. reflexivity.
Qed.

Lemma validate_email m : validate m = nil -> EmailShape (email m).
Proof.
  unfold validate. intros V.
  apply app_eq_nil in V. destruct V as [_ V].
  apply app_eq_nil in V. destruct V as [_ V].
  apply app_eq_nil in V. destruct V as [Vr V].
  apply app_eq_nil in V. destruct V as [Vm _].
  unfold required in Vr. unfold matchRegex in Vm.
  destruct (email m) as [|c e] eqn:E; [discriminate |].
  destruct (test emailRegex (String c e)) eqn:T; [| discriminate].
  now apply emailRegex_shape.
Qed.

(** The email address of every stored message has an [@] and ends with a
    dot and two or three letters, digits or underscores: the schema's
    [match] lets no other address be saved, whatever the route's
    [isEmail] accepts, so an address such as one under [.info] is never
    stored. *)
Theorem stored_emails_end_with_short_label
    (isEmail : string -> bool) (normalizeEmail : string -> string)
    (validObjectId : string -> bool)
    (docs : list Message) (m : Message) :
  reachable isEmail normalizeEmail validObjectId docs ->
  In m docs ->
  EmailShape (email m).
Proof.
  intros R Hin. apply validate_email.
  pose proof (reachable_valid _ _ _ _ R) as A.
  rewrite Forall_forall in A. now apply A.
Qed.

Lemma stored_emails_end_with_short_label_witness :
  EmailShape (email unreadMessage).
Proof.
  assert (In unreadMessage
            (snd (postMessage (fun _ => true) (fun e => e) 1000 "m1"
                    helloRequest nil))) as I
    by (vm_compute; left; reflexivity).
  exact (stored_emails_end_with_short_label (fun _ => true) (fun e => e)
           (fun _ => true)
           (snd (postMessage (fun _ => true) (fun e => e) 1000 "m1"
                   helloRequest nil))
           unreadMessage
           (reach_step _ _ _ _ _ (reach_empty _ _ _)
              (step_create _ _ _ 1000 "m1" helloRequest nil))
           I).
Defined.

End EmailFacts.
